(** * SentryLab-Docker: the state monitor and the discovery publisher

    A shallow embedding of [templates/monitor.py] and
    [templates/discovery.py].  Both scripts read containers through the
    Docker client, build JSON dictionaries and hand them to an MQTT
    client.  The embedding keeps three things explicit:

    - the values the Docker client returns, as JSON values on which the
      Python operations of the scripts ([x[k]], [x.get(k, d)], [k in x],
      truthiness) are defined, raising cases included;
    - the effects: every [publish] and every logger call is an event of a
      trace, the system clock is read through a counter, and a raised
      exception ends a computation but keeps the trace written so far;
    - the module-level constants of each script, as a record [Config]. *)

From Stdlib Require Import ZArith String Ascii List Bool DecimalString Lia.
Import ListNotations.
Local Open Scope string_scope.
Local Open Scope Z_scope.
Local Set Warnings "-register-all".

(** ** Python values *)

Module Py.

(** The exceptions the modelled code can meet.  All of them derive from
    [Exception], so [except Exception] and a bare [except] catch the same
    ones here. *)
Inductive exn : Type :=
| KeyError (key : string)
| TypeError
| AttributeError
| IndexError
| ValueError
| UnboundLocalError
| OverflowError
| LibraryError (msg : string).   (* raised by the Docker or the MQTT client *)

(** A call either raises or returns. *)
Definition result (A : Type) : Type := (exn + A)%type.

(** What [json.loads] yields and [json.dumps] accepts.  Dictionaries keep
    their insertion order; numbers are the integers of the inspect record. *)
Inductive json : Type :=
| JNull
| JBool (b : bool)
| JNum (n : Z)
| JStr (s : string)
| JList (items : list json)
| JDict (fields : list (string * json)).

(** [str(n)] and [f"{n}"] for an [int]. *)
Definition str_of_int (n : Z) : string := NilZero.string_of_int (Z.to_int n).

(** [s.replace(old, new)] where [old] is one character. *)
Fixpoint replace (old : ascii) (new : string) (s : string) : string :=
  match s with
  | EmptyString => EmptyString
  | String c rest =>
      if Ascii.eqb c old then new ++ replace old new rest
      else String c (replace old new rest)
  end.

(** [needle in s] for two strings. *)
Fixpoint substring_in (needle s : string) : bool :=
  prefix needle s ||
  match s with
  | EmptyString => false
  | String _ rest => substring_in needle rest
  end.

(** The two halves of [s] around its last [sep], when [sep] occurs. *)
Fixpoint rsplit_last (sep : ascii) (s : string) : option (string * string) :=
  match s with
  | EmptyString => None
  | String c rest =>
      match rsplit_last sep rest with
      | Some (before, after) => Some (String c before, after)
      | None => if Ascii.eqb c sep then Some (EmptyString, rest) else None
      end
  end.

(** [s.rsplit(sep, 1)] where [sep] is one character: a list of one or two
    strings. *)
Definition rsplit (sep : ascii) (s : string) : list string :=
  match rsplit_last sep s with
  | Some (before, after) => [before; after]
  | None => [s]
  end.

(** [a, b = xs]. *)
Definition unpack2 {A : Type} (xs : list A) : result (A * A) :=
  match xs with
  | [a; b] => inr (a, b)
  | _ => inl ValueError
  end.

(** Association-list lookup, the first binding of the key. *)
Fixpoint assoc (k : string) (fields : list (string * json)) : option json :=
  match fields with
  | [] => None
  | (k', v) :: rest => if String.eqb k' k then Some v else assoc k rest
  end.

(** [bool(v)]. *)
Definition truthy (v : json) : bool :=
  match v with
  | JNull => false
  | JBool b => b
  | JNum n => negb (n =? 0)
  | JStr s => negb (String.eqb s "")
  | JList items => match items with [] => false | _ :: _ => true end
  | JDict fields => match fields with [] => false | _ :: _ => true end
  end.

(** [v == s] for a string literal [s]. *)
Definition eq_str (v : json) (s : string) : bool :=
  match v with
  | JStr s' => String.eqb s' s
  | _ => false
  end.

(** [v[k]] for a string key. *)
Definition getitem (v : json) (k : string) : result json :=
  match v with
  | JDict fields =>
      match assoc k fields with
      | Some x => inr x
      | None => inl (KeyError k)
      end
  | _ => inl TypeError
  end.

(** [v.get(k, d)]: only dictionaries have the method. *)
Definition get (v : json) (k : string) (d : json) : result json :=
  match v with
  | JDict fields =>
      match assoc k fields with
      | Some x => inr x
      | None => inr d
      end
  | _ => inl AttributeError
  end.

(** [k in v] for a string [k]: a key of a dictionary, an element of a list,
    a substring of a string; other values are not containers. *)
Definition contains (k : string) (v : json) : result bool :=
  match v with
  | JDict fields => inr (match assoc k fields with Some _ => true | None => false end)
  | JList items => inr (existsb (fun x => eq_str x k) items)
  | JStr s => inr (substring_in k s)
  | _ => inl TypeError
  end.

(** [v.replace(old, new)] and [v.rsplit(sep, 1)]: string methods. *)
Definition str_replace (v : json) (old : ascii) (new : string) : result string :=
  match v with
  | JStr s => inr (replace old new s)
  | _ => inl AttributeError
  end.

Definition str_rsplit (v : json) (sep : ascii) : result (list json) :=
  match v with
  | JStr s => inr (map JStr (rsplit sep s))
  | _ => inl AttributeError
  end.

(** *** [json.dumps] with its default arguments *)

Definition hex_digit (n : N) : ascii :=
  match n with
  | 0%N => "0" | 1%N => "1" | 2%N => "2" | 3%N => "3" | 4%N => "4"
  | 5%N => "5" | 6%N => "6" | 7%N => "7" | 8%N => "8" | 9%N => "9"
  | 10%N => "a" | 11%N => "b" | 12%N => "c" | 13%N => "d" | 14%N => "e"
  | _ => "f"
  end%char.

Definition dquote : ascii := "034"%char.

(** One character of a string literal under [ensure_ascii=True]; a
    character is read as the code point of its byte. *)
Definition escape_char (c : ascii) : string :=
  let n := N_of_ascii c in
  if Ascii.eqb c dquote then String "\" (String dquote "")
  else if Ascii.eqb c "\" then "\\"
  else if (n =? 10)%N then "\n"
  else if (n =? 13)%N then "\r"
  else if (n =? 9)%N then "\t"
  else if (n =? 8)%N then "\b"
  else if (n =? 12)%N then "\f"
  else if ((n <? 32) || (126 <? n))%N then
    "\u00" ++ String (hex_digit (n / 16)) (String (hex_digit (n mod 16)) "")
  else String c "".

Fixpoint escape_chars (s : string) : string :=
  match s with
  | EmptyString => EmptyString
  | String c rest => escape_char c ++ escape_chars rest
  end.

Definition dumps_str (s : string) : string :=
  String dquote (escape_chars s) ++ String dquote "".

Fixpoint json_dumps (v : json) : string :=
  match v with
  | JNull => "null"
  | JBool true => "true"
  | JBool false => "false"
  | JNum n => str_of_int n
  | JStr s => dumps_str s
  | JList items =>
      "[" ++
      (fix elements (l : list json) : string :=
         match l with
         | [] => ""
         | x :: rest =>
             json_dumps x ++
             match rest with [] => "" | _ :: _ => ", " ++ elements rest end
         end) items ++ "]"
  | JDict fields =>
      "{" ++
      (fix members (l : list (string * json)) : string :=
         match l with
         | [] => ""
         | (k, x) :: rest =>
             dumps_str k ++ ": " ++ json_dumps x ++
             match rest with [] => "" | _ :: _ => ", " ++ members rest end
         end) fields ++ "}"
  end.

End Py.
Export Py.

(** ** Effects: logger calls, publishes, the clock and exceptions *)

Module Effects.

Inductive level : Type := LvlDebug | LvlInfo | LvlWarning | LvlError.

(** The value a log line ends with, kept as the value it is formatted from. *)
Inductive log_arg : Type :=
| NoArg
| Exc (e : exn)
| Val (v : json).

(** What a run does to the outside: [mqtt_client.publish(topic, payload,
    retain=...)], a call of a [logger] method (the f-string up to its last
    placeholder, and the value of that placeholder), [time.sleep]. *)
Inductive Event : Type :=
| Publish (topic payload : string) (retain : bool)
| Log (lvl : level) (msg : string) (arg : log_arg)
| Sleep (seconds : Z).

(** A computation starts with the number of clock readings taken so far and
    yields the events it caused, the new number of readings, and either the
    exception that ended it or its value. *)
Definition M (A : Type) : Type := nat -> list Event * nat * result A.

Definition ret {A : Type} (a : A) : M A := fun s => ([], s, inr a).

Definition raise {A : Type} (e : exn) : M A := fun s => ([], s, inl e).

Definition bind {A B : Type} (m : M A) (k : A -> M B) : M B :=
  fun s =>
    match m s with
    | (t1, s1, inl e) => (t1, s1, inl e)
    | (t1, s1, inr a) =>
        match k a s1 with
        | (t2, s2, r) => ((t1 ++ t2)%list, s2, r)
        end
    end.

(** [try: body except Exception as e: handler(e)]. *)
Definition try_except {A : Type} (body : M A) (handler : exn -> M A) : M A :=
  fun s =>
    match body s with
    | (t1, s1, inl e) =>
        match handler e s1 with
        | (t2, s2, r) => ((t1 ++ t2)%list, s2, r)
        end
    | (t1, s1, inr a) => (t1, s1, inr a)
    end.

(** A call of a client library, which raises or returns. *)
Definition lift {A : Type} (r : result A) : M A := fun s => ([], s, r).

Definition emit (ev : Event) : M unit := fun s => ([ev], s, inr tt).

Definition log (lvl : level) (msg : string) (arg : log_arg) : M unit :=
  emit (Log lvl msg arg).

(** What [time.sleep] refuses of an [int]: a number of seconds whose
    nanoseconds do not fit the 64 bits of the interpreter's time stamps is an
    [OverflowError], another negative one a [ValueError]. *)
Definition sleep_error (seconds : Z) : option exn :=
  if (seconds <? -9223372036) || (9223372036 <? seconds) then Some OverflowError
  else if seconds <? 0 then Some ValueError
  else None.

(** [time.sleep(seconds)] *)
Definition sleep (seconds : Z) : M unit :=
  match sleep_error seconds with
  | Some e => raise e
  | None => emit (Sleep seconds)
  end.

(** [try: body finally: cleanup]: the cleanup runs on both ways out, and an
    exception of its own replaces what the body ended on. *)
Definition try_finally {A : Type} (body : M A) (cleanup : M unit) : M A :=
  fun s =>
    match body s with
    | (t1, s1, r) =>
        match cleanup s1 with
        | (t2, s2, inl e) => ((t1 ++ t2)%list, s2, inl e)
        | (t2, s2, inr _) => ((t1 ++ t2)%list, s2, r)
        end
    end.

(** The events, the final clock count and the outcome of a run. *)
Definition trace {A : Type} (x : list Event * nat * result A) : list Event :=
  fst (fst x).
Definition final {A : Type} (x : list Event * nat * result A) : nat :=
  snd (fst x).
Definition outcome {A : Type} (x : list Event * nat * result A) : result A :=
  snd x.

(** [for x in xs: body(x)]. *)
Fixpoint for_each {A : Type} (xs : list A) (body : A -> M unit) : M unit :=
  match xs with
  | [] => ret tt
  | x :: rest => bind (body x) (fun _ => for_each rest body)
  end.

Definition is_publish (ev : Event) : bool :=
  match ev with
  | Publish _ _ _ => true
  | _ => false
  end.

(** The publishes of a trace, in order. *)
Definition publishes (t : list Event) : list Event := filter is_publish t.

End Effects.
Export Effects.

Declare Scope monad_scope.
Delimit Scope monad_scope with monad.
Notation "x <- m ;; k" := (bind m (fun x => k))
  (at level 61, m at next level, right associativity) : monad_scope.
Notation "' pat <- m ;; k" := (bind m (fun x => match x with pat => k end))
  (at level 61, pat pattern, m at next level, right associativity) : monad_scope.
Notation "m ;; k" := (bind m (fun _ => k))
  (at level 61, right associativity) : monad_scope.
Local Open Scope monad_scope.

(** ** The two client libraries *)

Module Clients.

(** A container handle of the Docker client, as the scripts use it. *)
Record Container : Type := {
  (** [container.name] *)
  name : string;
  (** [container.status], from the attributes fetched by the enumeration *)
  status : json;
  (** [container.attrs] as fetched by the enumeration *)
  attrs : json;
  (** [container.reload()]: it raises, or [container.attrs] becomes the
      refreshed record *)
  reload : result json;
  (** [container.image.tags]; every evaluation asks the daemon again, the
      argument counts the evaluations made for this handle *)
  image_tags : nat -> result (list string)
}.

(** The Docker daemon as one enumeration finds it:
    [docker_client.containers.list(all=...)]. *)
Record DockerClient : Type := {
  containers_list : bool -> result (list Container)
}.

(** The connected MQTT client: [publish] raises on what the client refuses
    (a wildcard in the topic, a payload beyond the size limit) before
    anything is sent. *)
Record Client : Type := {
  refuses : string -> string -> option exn
}.

Definition publish (client : Client) (topic payload : string) (retain : bool)
  : M unit :=
  match refuses client topic payload with
  | Some e => raise e
  | None => emit (Publish topic payload retain)
  end.

(** [mqtt_client.publish(...)] on a variable that may hold [None]. *)
Definition publish_on (mqtt_client : option Client) (topic payload : string)
  (retain : bool) : M unit :=
  match mqtt_client with
  | Some client => publish client topic payload retain
  | None => raise AttributeError
  end.

Definition is_None {A : Type} (x : option A) : bool :=
  match x with
  | None => true
  | Some _ => false
  end.

End Clients.
Export Clients.

(** ** [datetime] *)

Module Datetime.

(** A [datetime]: microseconds since 0001-01-01T00:00:00 on its own wall
    clock, and its offset from UTC in microseconds when it is aware. *)
Record datetime : Type := {
  wall : Z;
  utcoffset : option Z
}.

(** A [timedelta], always normalised: [0 <= seconds < 86400] and
    [0 <= microseconds < 1000000], the sign is carried by [days]. *)
Record timedelta : Type := {
  days : Z;
  seconds : Z;
  microseconds : Z
}.

Definition timedelta_of_us (us : Z) : timedelta :=
  {| days := us / 86400000000;
     seconds := (us mod 86400000000) / 1000000;
     microseconds := us mod 1000000 |}.

(** [a - b]: two aware values are compared on the UTC line, two naive ones
    on their wall clocks, and mixing them is a [TypeError]. *)
Definition sub (a b : datetime) : result timedelta :=
  match utcoffset a, utcoffset b with
  | Some oa, Some ob => inr (timedelta_of_us ((wall a - oa) - (wall b - ob)))
  | None, None => inr (timedelta_of_us (wall a - wall b))
  | _, _ => inl TypeError
  end.

(** [divmod(a, b)]. *)
Definition divmod (a b : Z) : Z * Z := (a / b, a mod b).

(** *** The proleptic Gregorian calendar *)

Definition is_leap (y : Z) : bool :=
  (y mod 4 =? 0) && (negb (y mod 100 =? 0) || (y mod 400 =? 0)).

Definition days_in_month (y m : Z) : Z :=
  if m =? 2 then (if is_leap y then 29 else 28)
  else if (m =? 4) || (m =? 6) || (m =? 9) || (m =? 11) then 30
  else 31.

Definition days_before_year (y : Z) : Z :=
  let p := y - 1 in p * 365 + p / 4 - p / 100 + p / 400.

Definition days_before_month (y m : Z) : Z :=
  fold_left Z.add (map (days_in_month y) (map Z.of_nat (seq 1 (Z.to_nat (m - 1))))) 0.

(** Day number of a date, 0001-01-01 being day 1. *)
Definition ymd2ord (y m d : Z) : Z :=
  days_before_year y + days_before_month y m + d.

(** The date of a day number. *)
Definition ord2ymd (ord : Z) : Z * Z * Z :=
  let n := ord - 1 in
  let '(n400, n) := divmod n 146097 in
  let '(n100, n) := divmod n 36524 in
  let '(n4, n) := divmod n 1461 in
  let '(n1, n) := divmod n 365 in
  let year := n400 * 400 + 1 + n100 * 100 + n4 * 4 + n1 in
  if (n1 =? 4) || (n100 =? 4) then (year - 1, 12, 31)
  else
    let leapyear := (n1 =? 3) && (negb (n4 =? 24) || (n100 =? 3)) in
    let month := Z.shiftr (n + 50) 5 in
    let preceding :=
      days_before_month 1 month + (if (2 <? month) && leapyear then 1 else 0) in
    if n <? preceding then
      let month' := month - 1 in
      let preceding' :=
        preceding -
        (days_in_month 1 month' + (if (month' =? 2) && leapyear then 1 else 0)) in
      (year, month', n - preceding' + 1)
    else (year, month, n - preceding + 1).

(** [f"{n:0{width}d}"] for a natural [n]. *)
Fixpoint zeros (n : nat) : string :=
  match n with
  | O => EmptyString
  | S k => String "0" (zeros k)
  end.

Definition zero_pad (width : nat) (s : string) : string :=
  zeros (width - String.length s) ++ s.

Definition padded (width : nat) (n : Z) : string := zero_pad width (str_of_int n).

(** [d.isoformat()] of a naive [datetime]. *)
Definition isoformat (d : datetime) : string :=
  let '(day, rest) := divmod (wall d) 86400000000 in
  let '(secs, us) := divmod rest 1000000 in
  let '(y, m, dd) := ord2ymd (day + 1) in
  let '(hh, r) := divmod secs 3600 in
  let '(mm, ss) := divmod r 60 in
  padded 4 y ++ "-" ++ padded 2 m ++ "-" ++ padded 2 dd ++ "T" ++
  padded 2 hh ++ ":" ++ padded 2 mm ++ ":" ++ padded 2 ss ++
  (if us =? 0 then "" else "." ++ padded 6 us).

(** *** One layout of [datetime.fromisoformat]

    The layout [YYYY-MM-DDTHH:MM:SS], alone or followed by [+HH:MM] or
    [-HH:MM].  Every version of the library reads this layout this way; what
    it does on other layouts depends on the version, and the monitor is
    modelled over an arbitrary parser. *)

Definition digit (c : ascii) : option Z :=
  let n := Z.of_N (N_of_ascii c) in
  if (48 <=? n) && (n <=? 57) then Some (n - 48) else None.

Fixpoint number_from (acc : Z) (s : string) : option Z :=
  match s with
  | EmptyString => Some acc
  | String c rest =>
      match digit c with
      | Some d => number_from (10 * acc + d) rest
      | None => None
      end
  end.

(** The decimal number written in [len] characters from [start]. *)
Definition field (s : string) (start len : nat) : option Z :=
  let f := substring start len s in
  if (String.length f =? len)%nat then number_from 0 f else None.

Definition char_at (s : string) (i : nat) : option ascii := String.get i s.

Definition is_char (s : string) (i : nat) (c : ascii) : bool :=
  match char_at s i with
  | Some c' => Ascii.eqb c' c
  | None => false
  end.

Definition parse_wall (s : string) : option Z :=
  match field s 0 4, field s 5 2, field s 8 2,
        field s 11 2, field s 14 2, field s 17 2 with
  | Some y, Some m, Some d, Some hh, Some mm, Some ss =>
      if is_char s 4 "-" && is_char s 7 "-" && is_char s 10 "T" &&
         is_char s 13 ":" && is_char s 16 ":" &&
         (1 <=? y) && (1 <=? m) && (m <=? 12) &&
         (1 <=? d) && (d <=? days_in_month y m) &&
         (hh <? 24) && (mm <? 60) && (ss <? 60)
      then Some ((((ymd2ord y m d - 1) * 24 + hh) * 60 + mm) * 60 * 1000000
                 + ss * 1000000)
      else None
  | _, _, _, _, _, _ => None
  end.

Definition parse_offset (s : string) : option Z :=
  match field s 20 2, field s 23 2 with
  | Some hh, Some mm =>
      if is_char s 22 ":" && (hh <? 24) && (mm <? 60) then
        let us := (hh * 60 + mm) * 60 * 1000000 in
        if is_char s 19 "+" then Some us
        else if is_char s 19 "-" then Some (- us)
        else None
      else None
  | _, _ => None
  end.

Definition fromisoformat_seconds (s : string) : option datetime :=
  match parse_wall s with
  | None => None
  | Some w =>
      if (String.length s =? 19)%nat then
        Some {| wall := w; utcoffset := None |}
      else if (String.length s =? 25)%nat then
        match parse_offset s with
        | Some o => Some {| wall := w; utcoffset := Some o |}
        | None => None
        end
      else None
  end.

End Datetime.

(** [len(xs)] and [sum(xs)]. *)
Definition len {A : Type} (xs : list A) : Z := Z.of_nat (List.length xs).
Definition sum (xs : list Z) : Z := fold_left Z.add xs 0.

(** ** [templates/monitor.py] *)

Module Monitor.
Import Datetime.

(** The module-level constants, read from the environment at import. *)
Record Config : Type := {
  SENTRYLAB_VERSION : string;
  BROKER : string;
  PORT : Z;
  USER : string;
  PASS : string;
  DEVICE_ID : string;
  POLL_INTERVAL : Z;
  LOG_LEVEL : string;
  DEBUG : bool
}.

Section Script.

Variable cfg : Config.

(** Successive readings of the system clock, in microseconds since
    0001-01-01T00:00:00 UTC. *)
Variable clock : nat -> Z.

(** [datetime.fromisoformat]; [None] stands for its [ValueError]. *)
Variable fromisoformat : string -> option datetime.

Definition read_clock : M Z := fun s => ([], S s, inr (clock s)).

(** [datetime.now(timezone.utc)] *)
Definition datetime_now_utc : M datetime :=
  t <- read_clock ;; ret {| wall := t; utcoffset := Some 0 |}.

(** [datetime.utcnow()] *)
Definition datetime_utcnow : M datetime :=
  t <- read_clock ;; ret {| wall := t; utcoffset := None |}.

Definition on_connect (rc : Z) : M unit :=
  if rc =? 0 then
    log LvlInfo ("Connected to MQTT broker at " ++ BROKER cfg ++ ":" ++
                 str_of_int (PORT cfg)) NoArg
  else log LvlError "Failed to connect. Return code: " (Val (JNum rc)).

Definition on_disconnect (rc : Z) : M unit :=
  if negb (rc =? 0) then
    log LvlWarning "Unexpected disconnection. Return code: " (Val (JNum rc))
  else ret tt.

(** [connect] is what [client.connect(BROKER, PORT, 60)] followed by
    [client.loop_start()] does on the fresh client. *)
Definition setup_mqtt (connect : result Client) : M (option Client) :=
  if DEBUG cfg then
    log LvlInfo "DEBUG mode: MQTT publishing disabled" NoArg ;;
    ret None
  else
    try_except
      (client <- lift connect ;; ret (Some client))
      (fun e =>
         log LvlError "Failed to connect to MQTT broker: " (Exc e) ;;
         raise e).

Definition calculate_uptime (started_at_str : json) : M string :=
  if negb (truthy started_at_str) ||
     eq_str started_at_str "0001-01-01T00:00:00Z"
  then ret "Not started"
  else
    try_except
      (text <- lift (str_replace started_at_str "Z" "+00:00") ;;
       started_at <- lift (match fromisoformat text with
                           | Some d => inr d
                           | None => inl ValueError
                           end) ;;
       now <- datetime_now_utc ;;
       uptime_delta <- lift (sub now started_at) ;;
       let days := days uptime_delta in
       let '(hours, remainder) := divmod (seconds uptime_delta) 3600 in
       let '(minutes, seconds) := divmod remainder 60 in
       if days >? 0 then
         ret (str_of_int days ++ "d " ++ str_of_int hours ++ "h " ++
              str_of_int minutes ++ "m")
       else if hours >? 0 then
         ret (str_of_int hours ++ "h " ++ str_of_int minutes ++ "m")
       else
         ret (str_of_int minutes ++ "m " ++ str_of_int seconds ++ "s"))
      (fun e =>
         log LvlDebug "Error calculating uptime: " (Exc e) ;;
         ret "Unknown").

(** Lines 132-137, the body of the inner [try]: the name and the tag of the
    container's image.  [container.image.tags] is evaluated once for the
    test and once more for the subscript. *)
Definition image_resolution (container : Container) (image : json)
  : M (json * json) :=
  tags <- lift (image_tags container 0%nat) ;;
  image_full <- (match tags with
                 | _ :: _ =>
                     tags' <- lift (image_tags container 1%nat) ;;
                     match tags' with
                     | first :: _ => ret (JStr first)
                     | [] => raise IndexError
                     end
                 | [] => ret image
                 end) ;;
  has_colon <- lift (contains ":" image_full) ;;
  if has_colon : bool then
    parts <- lift (str_rsplit image_full ":") ;;
    lift (unpack2 parts)
  else ret (image_full, JStr "latest").

(** Lines 131-140: the inner [try] with its bare [except]. *)
Definition image_version_of (container : Container) (image : json)
  : M (json * json) :=
  try_except
    (image_resolution container image)
    (fun _ => ret (image, JStr "unknown")).

Definition get_container_state (container : Container)
  : M (option (list (string * json))) :=
  try_except
    (attrs <- lift (reload container) ;;
     state <- lift (getitem attrs "State") ;;
     has_health <- lift (contains "Health" state) ;;
     health <- (if has_health : bool then
                  h <- lift (getitem state "Health") ;;
                  lift (get h "Status" (JStr "N/A"))
                else ret (JStr "N/A")) ;;
     config <- lift (getitem attrs "Config") ;;
     image <- lift (getitem config "Image") ;;
     started_at <- lift (get state "StartedAt" (JStr "")) ;;
     uptime <- calculate_uptime started_at ;;
     ' (image_name, image_version) <- image_version_of container image ;;
     running <- lift (get state "Running" (JBool false)) ;;
     status <- lift (get state "Status" (JStr "unknown")) ;;
     pid <- lift (get state "Pid" (JNum 0)) ;;
     exit_code <- lift (get state "ExitCode" (JNum 0)) ;;
     error <- lift (get state "Error" (JStr "")) ;;
     now <- datetime_utcnow ;;
     ret (Some [("running", running);
                ("state", status);
                ("health", health);
                ("image", image);
                ("image_version", image_version);
                ("uptime", JStr uptime);
                ("started_at", started_at);
                ("pid", pid);
                ("exit_code", exit_code);
                ("error", error);
                ("timestamp", JStr (isoformat now))]))
    (fun e =>
       log LvlError ("Error getting state for " ++ name container ++ ": ")
         (Exc e) ;;
       ret None).

Definition publish_container_state (mqtt_client : option Client)
  (container : Container) : M unit :=
  state <- get_container_state container ;;
  match state with
  | Some ((_ :: _) as fields) =>
      let topic := "docker/" ++ DEVICE_ID cfg ++ "/" ++ name container ++ "/state" in
      let payload := json_dumps (JDict fields) in
      if is_None mqtt_client && DEBUG cfg then
        shown <- lift (getitem (JDict fields) "state") ;;
        log LvlDebug ("DEBUG: Would publish to " ++ topic ++ ": ") (Val shown)
      else
        match mqtt_client with
        | Some client =>
            publish client topic payload true ;;
            shown <- lift (getitem (JDict fields) "state") ;;
            log LvlDebug ("Published state for " ++ name container ++ ": ")
              (Val shown)
        | None => ret tt
        end
  | _ => ret tt
  end.

Definition publish_summary (mqtt_client : option Client)
  (containers : list Container) : M unit :=
  let running :=
    sum (map (fun _ => 1)
           (filter (fun c => eq_str (status c) "running") containers)) in
  let stopped := len containers - running in
  now <- datetime_utcnow ;;
  let summary := [("total", JNum (len containers));
                  ("running", JNum running);
                  ("stopped", JNum stopped);
                  ("sentrylab_version", JStr (SENTRYLAB_VERSION cfg));
                  ("timestamp", JStr (isoformat now))] in
  let topic := "docker/" ++ DEVICE_ID cfg ++ "/summary" in
  let payload := json_dumps (JDict summary) in
  if is_None mqtt_client && DEBUG cfg then
    log LvlDebug ("DEBUG: Would publish summary: " ++ str_of_int running ++ "/" ++
                  str_of_int (len containers) ++ " running, SentryLab v" ++
                  SENTRYLAB_VERSION cfg) NoArg
  else
    match mqtt_client with
    | Some client =>
        publish client topic payload true ;;
        log LvlDebug ("Published summary: " ++ str_of_int running ++ "/" ++
                      str_of_int (len containers) ++ " running") NoArg
    | None => ret tt
    end.

(** The [for] loop of [monitor_containers]. *)
Definition monitor_each (mqtt_client : option Client)
  (containers : list Container) : M unit :=
  for_each containers (fun container =>
    try_except
      (publish_container_state mqtt_client container)
      (fun e =>
         log LvlError ("Error monitoring " ++ name container ++ ": ") (Exc e))).

Definition monitor_containers (docker_client : DockerClient)
  (mqtt_client : option Client) : M unit :=
  try_except
    (containers <- lift (containers_list docker_client true) ;;
     log LvlInfo ("Monitoring " ++ str_of_int (len containers) ++
                  " containers...") NoArg ;;
     publish_summary mqtt_client containers ;;
     monitor_each mqtt_client containers ;;
     log LvlInfo ("Updated status for " ++ str_of_int (len containers) ++
                  " containers") NoArg)
    (fun e => log LvlError "Error monitoring containers: " (Exc e)).

(** The first [cycles] rounds of the [while True] loop of [main];
    [docker i] is the daemon as round [i] finds it. *)
Fixpoint poll (docker : nat -> DockerClient) (mqtt_client : option Client)
  (i cycles : nat) : M unit :=
  match cycles with
  | O => ret tt
  | S rest =>
      monitor_containers (docker i) mqtt_client ;;
      log LvlInfo ("Sleeping for " ++ str_of_int (POLL_INTERVAL cfg) ++
                   " seconds...") NoArg ;;
      sleep (POLL_INTERVAL cfg) ;;
      poll docker mqtt_client (S i) rest
  end.

(** [main], for a run that is interrupted from the keyboard after [cycles]
    rounds of its loop.  [from_env] is what [docker.from_env()] does, with
    the daemon as each round finds it; [connect] is what connecting the
    fresh MQTT client does.  When one of the two raises, [mqtt_client] has
    not been assigned, and the test of the [finally] clause raises in its
    turn.  Once both are assigned, an exception of the loop - a sleep that
    is refused - is logged and raised again, and the [finally] clause logs
    its line on both ways out. *)
Definition main (from_env : result (nat -> DockerClient))
  (connect : result Client) (cycles : nat) : M unit :=
  log LvlInfo "SentryLab- Monitoring starting..." NoArg ;;
  log LvlInfo ("Version: " ++ SENTRYLAB_VERSION cfg) NoArg ;;
  log LvlInfo ("Device ID: " ++ DEVICE_ID cfg) NoArg ;;
  log LvlInfo ("Poll Interval: " ++ str_of_int (POLL_INTERVAL cfg) ++ "s") NoArg ;;
  (if DEBUG cfg then
     log LvlInfo "DEBUG mode enabled - no MQTT transmission" NoArg
   else ret tt) ;;
  bound <- try_except
             (docker_client <- lift from_env ;;
              log LvlInfo "Connected to Docker daemon" NoArg ;;
              mqtt_client <- setup_mqtt connect ;;
              ret (Some (docker_client, mqtt_client)))
             (fun e =>
                log LvlError "Fatal error: " (Exc e) ;;
                ret None) ;;
  match bound with
  | None => raise UnboundLocalError
  | Some (docker_client, mqtt_client) =>
      try_finally
        (try_except
           ((if is_None mqtt_client then ret tt else sleep 2) ;;
            poll docker_client mqtt_client 0%nat cycles ;;
            log LvlInfo "Shutting down..." NoArg)
           (fun e =>
              log LvlError "Fatal error: " (Exc e) ;;
              raise e))
        (log LvlInfo "Monitoring stopped" NoArg)
  end.

End Script.
End Monitor.

(** ** [templates/discovery.py] *)

Module Discovery.

Record Config : Type := {
  SENTRYLAB_VERSION : string;
  BROKER : string;
  PORT : Z;
  USER : string;
  PASS : string;
  HA_BASE_TOPIC : string;
  DEVICE_NAME : string;
  DEVICE_ID : string;
  PROXMOX_HOST : string;
  PROXMOX_VMID : string;
  LOG_LEVEL : string;
  DEBUG : bool
}.

Section Script.

Variable cfg : Config.

Definition on_connect (rc : Z) : M unit :=
  if rc =? 0 then
    log LvlInfo ("Connected to MQTT broker at " ++ BROKER cfg ++ ":" ++
                 str_of_int (PORT cfg)) NoArg
  else
    log LvlError "Failed to connect to MQTT broker. Return code: "
      (Val (JNum rc)).

Definition setup_mqtt (connect : result Client) : M (option Client) :=
  if DEBUG cfg then
    log LvlInfo "DEBUG mode: MQTT publishing disabled" NoArg ;;
    ret None
  else
    try_except
      (client <- lift connect ;; ret (Some client))
      (fun e =>
         log LvlError "Failed to connect to MQTT broker: " (Exc e) ;;
         raise e).

Definition create_device_info : json :=
  JDict [("identifiers", JList [JStr (DEVICE_ID cfg)]);
         ("name", JStr (DEVICE_NAME cfg));
         ("model", JStr "Docker Engine");
         ("manufacturer", JStr "Docker Inc.");
         ("sw_version", JStr ("SentryLab-Docker v" ++ SENTRYLAB_VERSION cfg))].

(** Lines 110-116, the body of the [try]: the name and the tag of the
    container's image. *)
Definition image_resolution (container : Container) : M (json * json) :=
  tags <- lift (image_tags container 0%nat) ;;
  image_full <- (match tags with
                 | _ :: _ =>
                     tags' <- lift (image_tags container 1%nat) ;;
                     match tags' with
                     | first :: _ => ret (JStr first)
                     | [] => raise IndexError
                     end
                 | [] =>
                     config <- lift (getitem (attrs container) "Config") ;;
                     lift (getitem config "Image")
                 end) ;;
  has_colon <- lift (contains ":" image_full) ;;
  if has_colon : bool then
    parts <- lift (str_rsplit image_full ":") ;;
    lift (unpack2 parts)
  else ret (image_full, JStr "latest").

(** Lines 109-119: the [try] with its bare [except], whose handler reads the
    configured image again. *)
Definition image_name_and_tag (container : Container) : M (json * json) :=
  try_except
    (image_resolution container)
    (fun _ =>
       config <- lift (getitem (attrs container) "Config") ;;
       image_name <- lift (getitem config "Image") ;;
       ret (image_name, JStr "unknown")).

Definition publish_container_discovery (mqtt_client : option Client)
  (container : Container) : M unit :=
  if is_None mqtt_client && DEBUG cfg then
    log LvlDebug ("DEBUG: Would publish discovery for " ++ name container) NoArg
  else
    let container_name := name container in
    let safe_name := replace "." "_" (replace "-" "_" container_name) in
    let device_info := create_device_info in
    let topic_prefix :=
      "sl_docker_" ++ PROXMOX_HOST cfg ++ "_" ++ PROXMOX_VMID cfg ++ "_" ++
      safe_name in
    ' (image_name, image_tag) <- image_name_and_tag container ;;
    let binary_sensor_config :=
      JDict [("name", JStr (container_name ++ " Status"));
             ("unique_id", JStr (topic_prefix ++ "_status"));
             ("state_topic",
              JStr ("docker/" ++ DEVICE_ID cfg ++ "/" ++ container_name ++ "/state"));
             ("value_template", JStr "{{ value_json.running }}");
             ("payload_on", JStr "true");
             ("payload_off", JStr "false");
             ("device_class", JStr "running");
             ("device", device_info);
             ("icon", JStr "mdi:docker")] in
    let topic :=
      HA_BASE_TOPIC cfg ++ "/binary_sensor/" ++ topic_prefix ++ "_status/config" in
    publish_on mqtt_client topic (json_dumps binary_sensor_config) true ;;
    log LvlInfo ("Published discovery for " ++ container_name ++ " status") NoArg ;;
    let state_sensor_config :=
      JDict [("name", JStr (container_name ++ " State"));
             ("unique_id", JStr (topic_prefix ++ "_state"));
             ("state_topic",
              JStr ("docker/" ++ DEVICE_ID cfg ++ "/" ++ container_name ++ "/state"));
             ("value_template", JStr "{{ value_json.state }}");
             ("device", device_info);
             ("icon", JStr "mdi:information-outline")] in
    let topic :=
      HA_BASE_TOPIC cfg ++ "/sensor/" ++ topic_prefix ++ "_state/config" in
    publish_on mqtt_client topic (json_dumps state_sensor_config) true ;;
    let uptime_sensor_config :=
      JDict [("name", JStr (container_name ++ " Uptime"));
             ("unique_id", JStr (topic_prefix ++ "_uptime"));
             ("state_topic",
              JStr ("docker/" ++ DEVICE_ID cfg ++ "/" ++ container_name ++ "/state"));
             ("value_template", JStr "{{ value_json.uptime }}");
             ("device", device_info);
             ("icon", JStr "mdi:clock-outline")] in
    let topic :=
      HA_BASE_TOPIC cfg ++ "/sensor/" ++ topic_prefix ++ "_uptime/config" in
    publish_on mqtt_client topic (json_dumps uptime_sensor_config) true ;;
    let health_sensor_config :=
      JDict [("name", JStr (container_name ++ " Health"));
             ("unique_id", JStr (topic_prefix ++ "_health"));
             ("state_topic",
              JStr ("docker/" ++ DEVICE_ID cfg ++ "/" ++ container_name ++ "/state"));
             ("value_template", JStr "{{ value_json.health | default('N/A') }}");
             ("device", device_info);
             ("icon", JStr "mdi:heart-pulse")] in
    let topic :=
      HA_BASE_TOPIC cfg ++ "/sensor/" ++ topic_prefix ++ "_health/config" in
    publish_on mqtt_client topic (json_dumps health_sensor_config) true ;;
    let image_sensor_config :=
      JDict [("name", JStr (container_name ++ " Image"));
             ("unique_id", JStr (topic_prefix ++ "_image"));
             ("state_topic",
              JStr ("docker/" ++ DEVICE_ID cfg ++ "/" ++ container_name ++ "/state"));
             ("value_template", JStr "{{ value_json.image }}");
             ("device", device_info);
             ("icon", JStr "mdi:package-variant")] in
    let topic :=
      HA_BASE_TOPIC cfg ++ "/sensor/" ++ topic_prefix ++ "_image/config" in
    publish_on mqtt_client topic (json_dumps image_sensor_config) true ;;
    let image_version_config :=
      JDict [("name", JStr (container_name ++ " Version"));
             ("unique_id", JStr ("docker_" ++ safe_name ++ "_version"));
             ("state_topic",
              JStr ("docker/" ++ DEVICE_ID cfg ++ "/" ++ container_name ++ "/state"));
             ("value_template", JStr "{{ value_json.image_version }}");
             ("device", device_info);
             ("icon", JStr "mdi:tag")] in
    let topic :=
      HA_BASE_TOPIC cfg ++ "/sensor/docker_" ++ safe_name ++ "/version/config" in
    publish_on mqtt_client topic (json_dumps image_version_config) true ;;
    let sentrylab_version_config :=
      JDict [("name", JStr (DEVICE_NAME cfg ++ " SentryLab Version"));
             ("unique_id", JStr ("docker_" ++ DEVICE_ID cfg ++ "_sentrylab_version"));
             ("state_topic", JStr ("docker/" ++ DEVICE_ID cfg ++ "/summary"));
             ("value_template", JStr "{{ value_json.sentrylab_version }}");
             ("device", device_info);
             ("icon", JStr "mdi:information")] in
    let topic :=
      HA_BASE_TOPIC cfg ++ "/sensor/docker_" ++ DEVICE_ID cfg ++
      "/sentrylab_version/config" in
    publish_on mqtt_client topic (json_dumps sentrylab_version_config) true.

Definition publish_summary_discovery (mqtt_client : option Client) : M unit :=
  if is_None mqtt_client && DEBUG cfg then
    log LvlDebug "DEBUG: Would publish summary discovery" NoArg
  else
    let device_info := create_device_info in
    let total_config :=
      JDict [("name", JStr (DEVICE_NAME cfg ++ " Total Containers"));
             ("unique_id", JStr ("docker_" ++ DEVICE_ID cfg ++ "_total"));
             ("state_topic", JStr ("docker/" ++ DEVICE_ID cfg ++ "/summary"));
             ("value_template", JStr "{{ value_json.total }}");
             ("device", device_info);
             ("icon", JStr "mdi:counter")] in
    let topic :=
      HA_BASE_TOPIC cfg ++ "/sensor/docker_" ++ DEVICE_ID cfg ++ "/total/config" in
    publish_on mqtt_client topic (json_dumps total_config) true ;;
    let running_config :=
      JDict [("name", JStr (DEVICE_NAME cfg ++ " Running Containers"));
             ("unique_id", JStr ("docker_" ++ DEVICE_ID cfg ++ "_running"));
             ("state_topic", JStr ("docker/" ++ DEVICE_ID cfg ++ "/summary"));
             ("value_template", JStr "{{ value_json.running }}");
             ("device", device_info);
             ("icon", JStr "mdi:play-circle")] in
    let topic :=
      HA_BASE_TOPIC cfg ++ "/sensor/docker_" ++ DEVICE_ID cfg ++ "/running/config" in
    publish_on mqtt_client topic (json_dumps running_config) true ;;
    let stopped_config :=
      JDict [("name", JStr (DEVICE_NAME cfg ++ " Stopped Containers"));
             ("unique_id", JStr ("docker_" ++ DEVICE_ID cfg ++ "_stopped"));
             ("state_topic", JStr ("docker/" ++ DEVICE_ID cfg ++ "/summary"));
             ("value_template", JStr "{{ value_json.stopped }}");
             ("device", device_info);
             ("icon", JStr "mdi:stop-circle")] in
    let topic :=
      HA_BASE_TOPIC cfg ++ "/sensor/docker_" ++ DEVICE_ID cfg ++ "/stopped/config" in
    publish_on mqtt_client topic (json_dumps stopped_config) true ;;
    let sentrylab_version_config :=
      JDict [("name", JStr (DEVICE_NAME cfg ++ " SentryLab Version"));
             ("unique_id", JStr ("docker_" ++ DEVICE_ID cfg ++ "_sentrylab_version"));
             ("state_topic", JStr ("docker/" ++ DEVICE_ID cfg ++ "/summary"));
             ("value_template", JStr "{{ value_json.sentrylab_version }}");
             ("device", device_info);
             ("icon", JStr "mdi:information")] in
    let topic :=
      HA_BASE_TOPIC cfg ++ "/sensor/docker_" ++ DEVICE_ID cfg ++
      "/sentrylab_version/config" in
    publish_on mqtt_client topic (json_dumps sentrylab_version_config) true.

(** Lines 299-305 of [main]: the fleet descriptors, then every container
    under its own [try]. *)
Definition discover (mqtt_client : option Client)
  (containers : list Container) : M unit :=
  publish_summary_discovery mqtt_client ;;
  for_each containers (fun container =>
    try_except
      (publish_container_discovery mqtt_client container)
      (fun e =>
         log LvlError ("Error publishing discovery for " ++ name container ++ ": ")
           (Exc e))).

(** [from_env] is what [docker.from_env()] does, [connect] what connecting
    the fresh MQTT client does. *)
Definition main (from_env : result DockerClient) (connect : result Client)
  : M unit :=
  log LvlInfo "SentryLab-Docker Discovery starting..." NoArg ;;
  log LvlInfo ("Device: " ++ DEVICE_NAME cfg ++ " (" ++ DEVICE_ID cfg ++ ")") NoArg ;;
  (if DEBUG cfg then
     log LvlInfo "DEBUG mode enabled - no MQTT transmission" NoArg
   else ret tt) ;;
  try_except
    (docker_client <- lift from_env ;;
     log LvlInfo "Connected to Docker daemon" NoArg ;;
     mqtt_client <- setup_mqtt connect ;;
     (if is_None mqtt_client then ret tt else sleep 2) ;;
     containers <- lift (containers_list docker_client true) ;;
     log LvlInfo ("Found " ++ str_of_int (len containers) ++ " containers") NoArg ;;
     discover mqtt_client containers ;;
     (if is_None mqtt_client then ret tt else sleep 2) ;;
     log LvlInfo ("Discovery complete for " ++ str_of_int (len containers) ++
                  " containers") NoArg)
    (fun e =>
       log LvlError "Fatal error: " (Exc e) ;;
       raise e).

End Script.
End Discovery.

(** ** The constants of the two scripts, from the environment *)

Module Environment.

(** What the process finds when a script is imported: its environment
    variables, and what opening and reading [/app/VERSION] does. *)
Record Environ : Type := {
  variables : string -> option string;
  version_file : result string
}.

(** [os.getenv(key, default)] *)
Definition getenv (env : Environ) (key default : string) : string :=
  match variables env key with
  | Some v => v
  | None => default
  end.

(** [c.isspace()]; a character is read as the code point of its byte. *)
Definition isspace (c : ascii) : bool :=
  let n := N_of_ascii c in
  (((9 <=? n) && (n <=? 13)) || ((28 <=? n) && (n <=? 32)) ||
   (n =? 133) || (n =? 160))%N.

Fixpoint lstrip (s : string) : string :=
  match s with
  | EmptyString => EmptyString
  | String c rest => if isspace c then lstrip rest else s
  end.

Fixpoint rstrip (s : string) : string :=
  match s with
  | EmptyString => EmptyString
  | String c rest =>
      match rstrip rest with
      | EmptyString => if isspace c then EmptyString else String c EmptyString
      | kept => String c kept
      end
  end.

(** [s.strip()] *)
Definition strip (s : string) : string := rstrip (lstrip s).

(** [c.lower()] on one character with a code point below 256. *)
Definition lower_char (c : ascii) : ascii :=
  let n := N_of_ascii c in
  if (((65 <=? n) && (n <=? 90)) ||
      ((192 <=? n) && (n <=? 222) && negb (n =? 215)))%N
  then ascii_of_N (n + 32)
  else c.

(** [s.lower()] *)
Fixpoint lower (s : string) : string :=
  match s with
  | EmptyString => EmptyString
  | String c rest => String (lower_char c) (lower rest)
  end.

(** Lines 27-34 of [monitor.py], 26-32 of [discovery.py]: the version from
    the environment, or else from the file, or else "unknown". *)
Definition sentrylab_version (env : Environ) : string :=
  let version := getenv env "SENTRYLAB_VERSION" "unknown" in
  if String.eqb version "unknown" then
    match version_file env with
    | inr content => strip content
    | inl _ => "unknown"
    end
  else version.

Section Constants.

(** [int] on a string; [None] stands for its [ValueError]. *)
Variable int : string -> option Z.

Definition int_of (s : string) : result Z :=
  match int s with
  | Some n => inr n
  | None => inl ValueError
  end.

(** Lines 27-44 of [monitor.py]. *)
Definition monitor_constants (env : Environ) : result Monitor.Config :=
  let version := sentrylab_version env in
  let broker := getenv env "BROKER" "localhost" in
  match int_of (getenv env "PORT" "1883") with
  | inl e => inl e
  | inr port =>
      let user := getenv env "USER" "" in
      let pass := getenv env "PASS" "" in
      let device_id := getenv env "DEVICE_ID" "docker_host" in
      match int_of (getenv env "POLL_INTERVAL" "30") with
      | inl e => inl e
      | inr poll_interval =>
          let log_level := getenv env "LOG_LEVEL" "INFO" in
          let debug := String.eqb (lower (getenv env "DEBUG" "false")) "true" in
          inr {| Monitor.SENTRYLAB_VERSION := version;
                 Monitor.BROKER := broker;
                 Monitor.PORT := port;
                 Monitor.USER := user;
                 Monitor.PASS := pass;
                 Monitor.DEVICE_ID := device_id;
                 Monitor.POLL_INTERVAL := poll_interval;
                 Monitor.LOG_LEVEL := log_level;
                 Monitor.DEBUG := debug |}
      end
  end.

(** Lines 26-45 of [discovery.py]. *)
Definition discovery_constants (env : Environ) : result Discovery.Config :=
  let version := sentrylab_version env in
  let broker := getenv env "BROKER" "localhost" in
  match int_of (getenv env "PORT" "1883") with
  | inl e => inl e
  | inr port =>
      inr {| Discovery.SENTRYLAB_VERSION := version;
             Discovery.BROKER := broker;
             Discovery.PORT := port;
             Discovery.USER := getenv env "USER" "";
             Discovery.PASS := getenv env "PASS" "";
             Discovery.HA_BASE_TOPIC := getenv env "HA_BASE_TOPIC" "homeassistant";
             Discovery.DEVICE_NAME := getenv env "DEVICE_NAME" "Docker Host";
             Discovery.DEVICE_ID := getenv env "DEVICE_ID" "docker_host";
             Discovery.PROXMOX_HOST := getenv env "PROXMOX_HOST" "proxmox";
             Discovery.PROXMOX_VMID := getenv env "PROXMOX_VMID" "0";
             Discovery.LOG_LEVEL := getenv env "LOG_LEVEL" "INFO";
             Discovery.DEBUG :=
               String.eqb (lower (getenv env "DEBUG" "false")) "true" |}
  end.

End Constants.

End Environment.

(** * Vocabulary of the properties *)

(** A computation all of whose events satisfy [P], whatever the clock. *)
Definition emits_only {A : Type} (P : Event -> Prop) (m : M A) : Prop :=
  forall s, Forall P (trace (m s)).

Definition not_publish (ev : Event) : Prop := is_publish ev = false.

(** Whether a string ends with a given character. *)
Fixpoint ends_with (c : ascii) (s : string) : bool :=
  match s with
  | EmptyString => false
  | String c' EmptyString => Ascii.eqb c' c
  | String _ rest => ends_with c rest
  end.

(** ** The monitor *)

Section MonitorVocabulary.

Import Datetime.

Variable cfg : Monitor.Config.

(** [c.status == "running"] *)
Definition is_running (c : Container) : bool := eq_str (status c) "running".

(** The topic of the fleet summary and the topic of a container's state. *)
Definition summary_topic : string :=
  "docker/" ++ Monitor.DEVICE_ID cfg ++ "/summary".

Definition state_topic (c : Container) : string :=
  "docker/" ++ Monitor.DEVICE_ID cfg ++ "/" ++ name c ++ "/state".

(** The summary dictionary with the three counts and the stamp given. *)
Definition fleet_summary (total running stopped : Z) (stamp : string) : json :=
  JDict [("total", JNum total);
         ("running", JNum running);
         ("stopped", JNum stopped);
         ("sentrylab_version", JStr (Monitor.SENTRYLAB_VERSION cfg));
         ("timestamp", JStr stamp)].

End MonitorVocabulary.

(** Whether a character occurs in a string. *)
Fixpoint has_char (c : ascii) (s : string) : bool :=
  match s with
  | EmptyString => false
  | String c' rest => Ascii.eqb c' c || has_char c rest
  end.

(** The value under a key of a dictionary, or a default. *)
Definition lookup_or (fields : list (string * json)) (k : string) (d : json)
  : json :=
  match assoc k fields with
  | Some x => x
  | None => d
  end.

(** Lines 118-127 of [get_container_state], which touch neither the clock
    nor the logger: the refreshed ["State"] record, the health, the
    configured image and the start time. *)
Definition refresh_and_read (c : Container)
  : result (json * json * json * json) :=
  match reload c with
  | inl e => inl e
  | inr attrs =>
  match getitem attrs "State" with
  | inl e => inl e
  | inr state =>
  match contains "Health" state with
  | inl e => inl e
  | inr has_health =>
  match (if has_health : bool then
           match getitem state "Health" with
           | inl e => inl e
           | inr h => get h "Status" (JStr "N/A")
           end
         else inr (JStr "N/A")) with
  | inl e => inl e
  | inr health =>
  match getitem attrs "Config" with
  | inl e => inl e
  | inr config =>
  match getitem config "Image" with
  | inl e => inl e
  | inr image =>
  match get state "StartedAt" (JStr "") with
  | inl e => inl e
  | inr started_at => inr (state, health, image, started_at)
  end end end end end end end.

(** The dictionary [get_container_state] returns, from the fields of the
    ["State"] record and the values derived on the way. *)
Definition snapshot (st : list (string * json))
  (health image image_version : json) (uptime : string) (started_at : json)
  (stamp : string) : list (string * json) :=
  [("running", lookup_or st "Running" (JBool false));
   ("state", lookup_or st "Status" (JStr "unknown"));
   ("health", health);
   ("image", image);
   ("image_version", image_version);
   ("uptime", JStr uptime);
   ("started_at", started_at);
   ("pid", lookup_or st "Pid" (JNum 0));
   ("exit_code", lookup_or st "ExitCode" (JNum 0));
   ("error", lookup_or st "Error" (JStr ""));
   ("timestamp", JStr stamp)].

(** The error line of [get_container_state]. *)
Definition state_error_log (c : Container) (e : exn) : Event :=
  Log LvlError ("Error getting state for " ++ name c ++ ": ") (Exc e).

(** What the specification asks of the name and the tag of an image
    reference [full]: the two sides of its last colon, or the whole reference
    and "latest" when it has no colon. *)
Definition resolves_to (full : string) (r : result (json * json)) : Prop :=
  (forall n v, full = n ++ ":" ++ v -> has_char ":" v = false ->
               r = inr (JStr n, JStr v)) /\
  (has_char ":" full = false -> r = inr (JStr full, JStr "latest")).

(** The inspect record of a container: its ["State"] fields and its
    configured image. *)
Definition inspect_record (st : list (string * json)) (image : string) : json :=
  JDict [("State", JDict st); ("Config", JDict [("Image", JStr image)])].

(** A handle whose refresh yields the given record and whose image carries
    the given tags. *)
Definition handle (n : string) (st : list (string * json)) (image : string)
  (tags : list string) : Container :=
  {| name := n;
     status := lookup_or st "Status" (JStr "created");
     attrs := inspect_record st image;
     reload := inr (inspect_record st image);
     image_tags := fun _ => inr tags |}.

(** A handle whose refresh fails, the container being gone. *)
Definition vanished (n : string) : Container :=
  {| name := n;
     status := JStr "running";
     attrs := inspect_record [] "busybox";
     reload := inl (LibraryError "404 Client Error: Not Found");
     image_tags := fun _ => inl (LibraryError "404 Client Error: Not Found") |}.

(** A handle whose refresh yields the given record while its image is gone
    from the daemon, so that [container.image] raises. *)
Definition orphaned (n : string) (st : list (string * json)) (image : string)
  : Container :=
  {| name := n;
     status := lookup_or st "Status" (JStr "created");
     attrs := inspect_record st image;
     reload := inr (inspect_record st image);
     image_tags := fun _ => inl (LibraryError "404 Client Error: Not Found") |}.

(** A field of the dictionary that [get_container_state] returns. *)
Definition state_field (clock : nat -> Z)
  (fromisoformat : string -> option Datetime.datetime) (c : Container) (s : nat)
  (key : string) : option json :=
  match outcome (Monitor.get_container_state clock fromisoformat c s) with
  | inr (Some fields) => assoc key fields
  | _ => None
  end.

(** A field of the snapshot is the field of the ["State"] record when the
    record has it, and the default [d] when it has not. *)
Definition defaults_to (st fields : list (string * json)) (K k : string)
  (d : json) : Prop :=
  (assoc K st = None -> assoc k fields = Some d) /\
  (forall v, assoc K st = Some v -> assoc k fields = Some v).

(** An event of the monitor that, if it is a publish, is the retained state
    message of container [c]. *)
Definition state_event (cfg : Monitor.Config) (c : Container) (ev : Event)
  : Prop :=
  match ev with
  | Publish t _ r => t = state_topic cfg c /\ r = true
  | _ => True
  end.

(** An event of the monitor that, if it is a publish, is the retained state
    message of one of the [containers]. *)
Definition state_message_of (cfg : Monitor.Config) (containers : list Container)
  (ev : Event) : Prop :=
  match ev with
  | Publish t _ r =>
      exists c, In c containers /\ t = state_topic cfg c /\ r = true
  | _ => True
  end.

(** The first and the last line of a poll cycle, and the line of a cycle
    that was given up. *)
Definition monitoring_log (containers : list Container) : Event :=
  Log LvlInfo ("Monitoring " ++ str_of_int (len containers) ++ " containers...")
    NoArg.

Definition updated_log (containers : list Container) : Event :=
  Log LvlInfo ("Updated status for " ++ str_of_int (len containers) ++
               " containers") NoArg.

Definition cycle_error_log (e : exn) : Event :=
  Log LvlError "Error monitoring containers: " (Exc e).

(** The line that stands for the state message of a container in debug
    mode. *)
Definition dry_run_log (cfg : Monitor.Config) (c : Container) (shown : json)
  : Event :=
  Log LvlDebug ("DEBUG: Would publish to " ++ state_topic cfg c ++ ": ")
    (Val shown).

(** The topics of the publishes of a trace, in order. *)
Definition topics (t : list Event) : list string :=
  flat_map (fun ev => match ev with
                      | Publish topic _ _ => [topic]
                      | _ => []
                      end) t.

(** A connected client that refuses nothing. *)
Definition broker : Client := {| refuses := fun _ _ => None |}.

Definition monitor_config : Monitor.Config :=
  {| Monitor.SENTRYLAB_VERSION := "0.1.11";
     Monitor.BROKER := "localhost";
     Monitor.PORT := 1883;
     Monitor.USER := "";
     Monitor.PASS := "";
     Monitor.DEVICE_ID := "docker_host";
     Monitor.POLL_INTERVAL := 30;
     Monitor.LOG_LEVEL := "INFO";
     Monitor.DEBUG := false |}.

(** Three containers, two of them running. *)
Definition fleet : list Container :=
  [handle "web" [("Status", JStr "running")] "nginx:1.25" ["nginx:1.25"];
   handle "db" [("Status", JStr "exited")] "postgres:16" ["postgres:16"];
   handle "cache" [("Status", JStr "running")] "redis" []].

Definition daemon (containers : list Container) : DockerClient :=
  {| containers_list := fun _ => inr containers |}.

(** The value of a call that returned. *)
Definition value_or {A : Type} (d : A) (r : result A) : A :=
  match r with
  | inr a => a
  | inl _ => d
  end.

(** The zero time of the container runtime. *)
Definition sentinel : string := "0001-01-01T00:00:00Z".

(** The three formats of [calculate_uptime], applied to a [timedelta]. *)
Definition render_delta (delta : Datetime.timedelta) : string :=
  let '(hours, remainder) := Datetime.divmod (Datetime.seconds delta) 3600 in
  let '(minutes, secs) := Datetime.divmod remainder 60 in
  if Datetime.days delta >? 0 then
    str_of_int (Datetime.days delta) ++ "d " ++ str_of_int hours ++ "h " ++
    str_of_int minutes ++ "m"
  else if hours >? 0 then str_of_int hours ++ "h " ++ str_of_int minutes ++ "m"
  else str_of_int minutes ++ "m " ++ str_of_int secs ++ "s".

(** The uptime format in the words of the specification, over an elapsed
    time in microseconds: whole days, hours and minutes when it is at least
    one day, hours and minutes when it is at least one hour, minutes and
    seconds otherwise. *)
Definition uptime_as_specified (elapsed : Z) : string :=
  let total := elapsed / 1000000 in
  let d := total / 86400 in
  let h := (total / 3600) mod 24 in
  let m := (total / 60) mod 60 in
  let s := total mod 60 in
  if 86400 <=? total then
    str_of_int d ++ "d " ++ str_of_int h ++ "h " ++ str_of_int m ++ "m"
  else if 3600 <=? total then str_of_int h ++ "h " ++ str_of_int m ++ "m"
  else str_of_int m ++ "m " ++ str_of_int s ++ "s".

(** The debug line of [calculate_uptime]. *)
Definition uptime_log (e : exn) : Event :=
  Log LvlDebug "Error calculating uptime: " (Exc e).

(** A clock that stands at 2024-01-01T00:00:00 UTC. *)
Definition new_year_2024 : Z := 63839664000000000.
Definition clock_2024 (k : nat) : Z := new_year_2024.

(** ** The discovery publisher *)

(** The sanitised name in the words of the specification: every [-] and
    every [.] becomes [_]. *)
Fixpoint sanitize (s : string) : string :=
  match s with
  | EmptyString => EmptyString
  | String c rest =>
      String (if Ascii.eqb c "-" || Ascii.eqb c "." then "_"%char else c)
        (sanitize rest)
  end.

(** The [unique_id] of a descriptor. *)
Definition unique_id_of (d : json) : option json :=
  match d with
  | JDict fields => assoc "unique_id" fields
  | _ => None
  end.

(** A descriptor as it is published: retained, on its topic. *)
Definition to_event (msg : string * json) : Event :=
  Publish (fst msg) (json_dumps (snd msg)) true.

(** Publishing descriptors one after the other. *)
Fixpoint publish_list (mqtt_client : option Client) (msgs : list (string * json))
  : M unit :=
  match msgs with
  | [] => ret tt
  | msg :: rest =>
      match rest with
      | [] => publish_on mqtt_client (fst msg) (json_dumps (snd msg)) true
      | _ :: _ =>
          publish_on mqtt_client (fst msg) (json_dumps (snd msg)) true ;;
          publish_list mqtt_client rest
      end
  end.

Section DiscoveryVocabulary.

Variable cfg : Discovery.Config.

(** A sensor descriptor: name, unique id, state topic, value template,
    device, icon. *)
Definition sensor (display unique_id state_topic template icon : string) : json :=
  JDict [("name", JStr display);
         ("unique_id", JStr unique_id);
         ("state_topic", JStr state_topic);
         ("value_template", JStr template);
         ("device", Discovery.create_device_info cfg);
         ("icon", JStr icon)].

(** The binary-sensor descriptor of the running status. *)
Definition binary_sensor (display unique_id state_topic : string) : json :=
  JDict [("name", JStr display);
         ("unique_id", JStr unique_id);
         ("state_topic", JStr state_topic);
         ("value_template", JStr "{{ value_json.running }}");
         ("payload_on", JStr "true");
         ("payload_off", JStr "false");
         ("device_class", JStr "running");
         ("device", Discovery.create_device_info cfg);
         ("icon", JStr "mdi:docker")].

Definition unique_prefix (container_name : string) : string :=
  "sl_docker_" ++ Discovery.PROXMOX_HOST cfg ++ "_" ++
  Discovery.PROXMOX_VMID cfg ++ "_" ++ sanitize container_name.

Definition container_state_topic (container_name : string) : string :=
  "docker/" ++ Discovery.DEVICE_ID cfg ++ "/" ++ container_name ++ "/state".

Definition fleet_state_topic : string :=
  "docker/" ++ Discovery.DEVICE_ID cfg ++ "/summary".

Definition config_topic (kind unique_id : string) : string :=
  Discovery.HA_BASE_TOPIC cfg ++ "/" ++ kind ++ "/" ++ unique_id ++ "/config".

(** The SentryLab-version descriptor of the host, with its topic. *)
Definition sentrylab_version_message : string * json :=
  (Discovery.HA_BASE_TOPIC cfg ++ "/sensor/docker_" ++ Discovery.DEVICE_ID cfg ++
   "/sentrylab_version/config",
   sensor (Discovery.DEVICE_NAME cfg ++ " SentryLab Version")
     ("docker_" ++ Discovery.DEVICE_ID cfg ++ "_sentrylab_version")
     fleet_state_topic "{{ value_json.sentrylab_version }}" "mdi:information").

(** The seven descriptors of a container, from the configuration and the
    name of the container. *)
Definition container_descriptors (container_name : string)
  : list (string * json) :=
  let p := unique_prefix container_name in
  let st := container_state_topic container_name in
  [(config_topic "binary_sensor" (p ++ "_status"),
    binary_sensor (container_name ++ " Status") (p ++ "_status") st);
   (config_topic "sensor" (p ++ "_state"),
    sensor (container_name ++ " State") (p ++ "_state") st
      "{{ value_json.state }}" "mdi:information-outline");
   (config_topic "sensor" (p ++ "_uptime"),
    sensor (container_name ++ " Uptime") (p ++ "_uptime") st
      "{{ value_json.uptime }}" "mdi:clock-outline");
   (config_topic "sensor" (p ++ "_health"),
    sensor (container_name ++ " Health") (p ++ "_health") st
      "{{ value_json.health | default('N/A') }}" "mdi:heart-pulse");
   (config_topic "sensor" (p ++ "_image"),
    sensor (container_name ++ " Image") (p ++ "_image") st
      "{{ value_json.image }}" "mdi:package-variant");
   (Discovery.HA_BASE_TOPIC cfg ++ "/sensor/docker_" ++
    sanitize container_name ++ "/version/config",
    sensor (container_name ++ " Version")
      ("docker_" ++ sanitize container_name ++ "_version") st
      "{{ value_json.image_version }}" "mdi:tag");
   sentrylab_version_message].

(** The four descriptors of the fleet. *)
Definition fleet_descriptors : list (string * json) :=
  let fleet_topic (leaf : string) :=
    Discovery.HA_BASE_TOPIC cfg ++ "/sensor/docker_" ++ Discovery.DEVICE_ID cfg ++
    "/" ++ leaf ++ "/config" in
  [(fleet_topic "total",
    sensor (Discovery.DEVICE_NAME cfg ++ " Total Containers")
      ("docker_" ++ Discovery.DEVICE_ID cfg ++ "_total")
      fleet_state_topic "{{ value_json.total }}" "mdi:counter");
   (fleet_topic "running",
    sensor (Discovery.DEVICE_NAME cfg ++ " Running Containers")
      ("docker_" ++ Discovery.DEVICE_ID cfg ++ "_running")
      fleet_state_topic "{{ value_json.running }}" "mdi:play-circle");
   (fleet_topic "stopped",
    sensor (Discovery.DEVICE_NAME cfg ++ " Stopped Containers")
      ("docker_" ++ Discovery.DEVICE_ID cfg ++ "_stopped")
      fleet_state_topic "{{ value_json.stopped }}" "mdi:stop-circle");
   sentrylab_version_message].

(** The lines the discovery publisher logs around a container. *)
Definition would_publish_log (c : Container) : Event :=
  Log LvlDebug ("DEBUG: Would publish discovery for " ++ name c) NoArg.

Definition published_log (c : Container) : Event :=
  Log LvlInfo ("Published discovery for " ++ name c ++ " status") NoArg.

(** The publishes of [publish_container_discovery], with the line logged
    after the first one. *)
Definition publish_with_log (mqtt_client : option Client) (c : Container)
  (msgs : list (string * json)) : M unit :=
  match msgs with
  | [] => ret tt
  | first :: rest =>
      publish_on mqtt_client (fst first) (json_dumps (snd first)) true ;;
      emit (published_log c) ;;
      publish_list mqtt_client rest
  end.

End DiscoveryVocabulary.

(** The number of publishes on a topic in a trace. *)
Definition count_topic (topic : string) (t : list Event) : nat :=
  List.length
    (filter (fun ev => match ev with
                       | Publish t' _ _ => String.eqb t' topic
                       | _ => false
                       end) t).

(** A client that takes every publish. *)
Definition accepts_all (client : Client) : Prop :=
  forall topic payload, refuses client topic payload = None.

(** The inspect record fetched by the enumeration carries the configured
    image, as every record of the Docker daemon does. *)
Definition has_configured_image (c : Container) : Prop :=
  exists config image,
    getitem (attrs c) "Config" = inr config /\ getitem config "Image" = inr image.

(** The descriptors of a whole run: the fleet, then every container. *)
Definition all_descriptors (cfg : Discovery.Config) (containers : list Container)
  : list (string * json) :=
  (fleet_descriptors cfg ++
   flat_map (fun c => container_descriptors cfg (name c)) containers)%list.

(** A publish of a run of [main] is a descriptor of the containers the
    enumeration returned. *)
Definition known_descriptor (cfg : Discovery.Config)
  (from_env : result DockerClient) (ev : Event) : Prop :=
  is_publish ev = true ->
  exists docker_client containers,
    from_env = inr docker_client /\
    containers_list docker_client true = inr containers /\
    In ev (map to_event (all_descriptors cfg containers)).

(** The loop of [main] in the discovery publisher. *)
Definition discovery_loop (cfg : Discovery.Config) (mqtt_client : option Client)
  (containers : list Container) : M unit :=
  for_each containers (fun container =>
    try_except
      (Discovery.publish_container_discovery cfg mqtt_client container)
      (fun e =>
         log LvlError ("Error publishing discovery for " ++ name container ++ ": ")
           (Exc e))).

(** A client that refuses, as the MQTT library does, a topic with a
    wildcard. *)
Definition wildcard_guard : Client :=
  {| refuses := fun topic _ =>
       if has_char "+" topic || has_char "#" topic then Some ValueError
       else None |}.

Definition discovery_config_with (device_id : string) (debug : bool)
  : Discovery.Config :=
  {| Discovery.SENTRYLAB_VERSION := "0.1.11";
     Discovery.BROKER := "localhost";
     Discovery.PORT := 1883;
     Discovery.USER := "";
     Discovery.PASS := "";
     Discovery.HA_BASE_TOPIC := "homeassistant";
     Discovery.DEVICE_NAME := "Docker Host";
     Discovery.DEVICE_ID := device_id;
     Discovery.PROXMOX_HOST := "proxmox";
     Discovery.PROXMOX_VMID := "0";
     Discovery.LOG_LEVEL := "INFO";
     Discovery.DEBUG := debug |}.

Definition discovery_config (debug : bool) : Discovery.Config :=
  discovery_config_with "docker_host" debug.

(** ** Rounds of the monitor and failures of single containers *)

(** Whether the refresh and the reads of [get_container_state] return. *)
Definition readable (c : Container) : bool :=
  match refresh_and_read c with
  | inr _ => true
  | inl _ => false
  end.

(** Whether the image lookup of the discovery publisher returns. *)
Definition resolvable (c : Container) : bool :=
  match outcome (Discovery.image_name_and_tag c 0%nat) with
  | inr _ => true
  | inl _ => false
  end.

(** The durations of the sleeps of a trace, in order. *)
Definition sleeps (t : list Event) : list Z :=
  flat_map (fun ev => match ev with
                      | Sleep seconds => [seconds]
                      | _ => []
                      end) t.

(** A line of the monitor that stands for a publish in debug mode. *)
Definition is_dry_run (ev : Event) : bool :=
  match ev with
  | Log LvlDebug msg _ => prefix "DEBUG: Would publish" msg
  | _ => false
  end.

(** The daemon of every round returns a list of containers. *)
Definition enumerates (docker : nat -> DockerClient) (i cycles : nat) : Prop :=
  forall j, (i <= j < i + cycles)%nat ->
            exists containers, containers_list (docker j) true = inr containers.

(** An event that is no sleep. *)
Definition no_sleep (ev : Event) : Prop := sleeps [ev] = [].

(** A duration that [time.sleep] takes on every host: not negative, and
    within thirty-two bits, far from the largest deadline that the clock of a
    host can hold. *)
Definition sleepable (seconds : Z) : Prop := 0 <= seconds <= 4294967295.

(** The line the loop of [main] logs before it sleeps. *)
Definition sleeping_log (cfg : Monitor.Config) : Event :=
  Log LvlInfo ("Sleeping for " ++ str_of_int (Monitor.POLL_INTERVAL cfg) ++
               " seconds...") NoArg.

(** ** Runs of the monitor's [main] *)

(** The configuration of the monitor in debug mode. *)
Definition debug_monitor_config : Monitor.Config :=
  {| Monitor.SENTRYLAB_VERSION := "0.1.11";
     Monitor.BROKER := "localhost";
     Monitor.PORT := 1883;
     Monitor.USER := "";
     Monitor.PASS := "";
     Monitor.DEVICE_ID := "docker_host";
     Monitor.POLL_INTERVAL := 30;
     Monitor.LOG_LEVEL := "INFO";
     Monitor.DEBUG := true |}.

(** The configuration of the monitor with a poll interval of minus one
    second, which [int] reads from the environment without complaint. *)
Definition hasty_monitor_config : Monitor.Config :=
  {| Monitor.SENTRYLAB_VERSION := "0.1.11";
     Monitor.BROKER := "localhost";
     Monitor.PORT := 1883;
     Monitor.USER := "";
     Monitor.PASS := "";
     Monitor.DEVICE_ID := "docker_host";
     Monitor.POLL_INTERVAL := -1;
     Monitor.LOG_LEVEL := "INFO";
     Monitor.DEBUG := false |}.

(** The log lines with which [main] starts. *)
Definition banner (cfg : Monitor.Config) : list Event :=
  [Log LvlInfo "SentryLab- Monitoring starting..." NoArg;
   Log LvlInfo ("Version: " ++ Monitor.SENTRYLAB_VERSION cfg) NoArg;
   Log LvlInfo ("Device ID: " ++ Monitor.DEVICE_ID cfg) NoArg;
   Log LvlInfo ("Poll Interval: " ++ str_of_int (Monitor.POLL_INTERVAL cfg) ++ "s") NoArg]
  ++ (if Monitor.DEBUG cfg
      then [Log LvlInfo "DEBUG mode enabled - no MQTT transmission" NoArg]
      else []).

(** The line either [main] logs before it gives up. *)
Definition fatal_log (e : exn) : Event := Log LvlError "Fatal error: " (Exc e).

(** The line of the [finally] clause of the monitor's [main]. *)
Definition stopped_log : Event := Log LvlInfo "Monitoring stopped" NoArg.

(** ** Runs of the discovery publisher *)

(** The log lines with which [main] starts. *)
Definition discovery_banner (cfg : Discovery.Config) : list Event :=
  [Log LvlInfo "SentryLab-Docker Discovery starting..." NoArg;
   Log LvlInfo ("Device: " ++ Discovery.DEVICE_NAME cfg ++ " (" ++
                Discovery.DEVICE_ID cfg ++ ")") NoArg]
  ++ (if Discovery.DEBUG cfg
      then [Log LvlInfo "DEBUG mode enabled - no MQTT transmission" NoArg]
      else []).

(** The last line of a run that returns. *)
Definition complete_log (containers : list Container) : Event :=
  Log LvlInfo ("Discovery complete for " ++ str_of_int (len containers) ++
               " containers") NoArg.

(** The error line of the loop of [main]. *)
Definition discovery_error_log (c : Container) (e : exn) : Event :=
  Log LvlError ("Error publishing discovery for " ++ name c ++ ": ") (Exc e).

(** A handle whose inspect record has no configuration and whose image is
    gone. *)
Definition imageless (n : string) : Container :=
  {| name := n;
     status := JStr "created";
     attrs := JDict [("State", JDict [])];
     reload := inr (JDict [("State", JDict [])]);
     image_tags := fun _ => inl (LibraryError "404 Client Error: Not Found") |}.

(** ** What a descriptor makes Home Assistant read *)

(** A letter, a digit or an underscore. *)
Definition is_identifier_char (c : ascii) : bool :=
  let n := nat_of_ascii c in
  ((97 <=? n) && (n <=? 122) || (65 <=? n) && (n <=? 90) ||
   (48 <=? n) && (n <=? 57) || (n =? 95))%nat.

(** The longest prefix made of such characters. *)
Fixpoint take_identifier (s : string) : string :=
  match s with
  | EmptyString => EmptyString
  | String c rest =>
      if is_identifier_char c then String c (take_identifier rest)
      else EmptyString
  end.

(** A string without its first [n] characters. *)
Fixpoint skip (n : nat) (s : string) : string :=
  match n, s with
  | S n', String _ rest => skip n' rest
  | _, _ => s
  end.

(** The key of the message that a value template of the form
    [{{ value_json.<key> ... }}] reads. *)
Definition template_key (template : string) : option string :=
  if prefix "{{ value_json." template
  then Some (take_identifier (skip 14 template))
  else None.

(** The topic a descriptor subscribes to and the key it reads there. *)
Definition reads (descriptor : json) : option (string * string) :=
  match getitem descriptor "state_topic", getitem descriptor "value_template" with
  | inr (JStr topic), inr (JStr template) =>
      option_map (pair topic) (template_key template)
  | _, _ => None
  end.

(** The keys of a dictionary. *)
Definition keys (v : json) : list string :=
  match v with
  | JDict fields => map fst fields
  | _ => []
  end.

(** ** Environments *)

(** An environment given by the list of its variables. *)
Definition environ (vars : list (string * string)) (file : result string)
  : Environment.Environ :=
  {| Environment.variables := fun key =>
       match find (fun kv => String.eqb (fst kv) key) vars with
       | Some kv => Some (snd kv)
       | None => None
       end;
     Environment.version_file := file |}.

(** [int] on a string of decimal digits with an optional sign. *)
Definition int_decimal (s : string) : option Z :=
  option_map Z.of_int (NilZero.int_of_string s).

(** One of the two cases of a letter. *)
Definition either_case (small capital c : ascii) : Prop := c = small \/ c = capital.

(** The sixteen spellings of "true". *)
Definition spells_true (value : string) : Prop :=
  exists a b c d,
    value = String a (String b (String c (String d EmptyString))) /\
    either_case "t" "T" a /\ either_case "r" "R" b /\
    either_case "u" "U" c /\ either_case "e" "E" d.

(** ** The shape of a state message *)

(** The keys of a state message, in the order of the dictionary. *)
Definition state_keys : list string :=
  ["running"; "state"; "health"; "image"; "image_version"; "uptime";
   "started_at"; "pid"; "exit_code"; "error"; "timestamp"].

(** An event that, if it is a publish, is the retained state message of
    container [c]: the dictionary that [get_container_state] returned at
    some clock count, serialised. *)
Definition state_message (cfg : Monitor.Config) (clock : nat -> Z)
  (fromisoformat : string -> option Datetime.datetime) (c : Container)
  (ev : Event) : Prop :=
  match ev with
  | Publish topic payload retain =>
      topic = state_topic cfg c /\ retain = true /\
      exists s fields,
        outcome (Monitor.get_container_state clock fromisoformat c s) =
        inr (Some fields) /\
        payload = json_dumps (JDict fields)
  | _ => True
  end.

(** The error line of the loop of [monitor_containers]. *)
Definition container_error_log (c : Container) (e : exn) : Event :=
  Log LvlError ("Error monitoring " ++ name c ++ ": ") (Exc e).

(** An event that, if it is a publish, was taken by the client. *)
Definition accepted (client : Client) (ev : Event) : Prop :=
  match ev with
  | Publish topic payload _ => refuses client topic payload = None
  | _ => True
  end.

(** A client that refuses the state topic of the container named "db". *)
Definition picky_broker : Client :=
  {| refuses := fun topic _ =>
       if String.eqb topic "docker/docker_host/db/state"
       then Some (LibraryError "The client is not currently connected.")
       else None |}.

(** * Properties *)

Arguments Datetime.isoformat : simpl never.
Arguments json_dumps : simpl never.
Arguments str_of_int : simpl never.

(** ** Traces of composed computations *)

Section TraceLemmas.

Context {A B : Type}.

Lemma bind_returns (m : M A) (k : A -> M B) s t s1 a :
  m s = (t, s1, inr a) ->
  bind m k s = ((t ++ trace (k a s1))%list, final (k a s1), outcome (k a s1)).
Proof.
  intros H. unfold bind, trace, final, outcome. rewrite H.
  destruct (k a s1) as [[t2 s2] r]. reflexivity.
Qed.

End TraceLemmas.

Lemma run_eta {A : Type} (x : list Event * nat * result A) :
  x = (trace x, final x, outcome x).
Proof. destruct x as [[t s] r]. reflexivity. Qed.

Section EmitsOnly.

Context {A B : Type} (P : Event -> Prop).

Lemma emits_only_ret (a : A) : emits_only P (ret a).
Proof. intros s. constructor. Qed.

Lemma emits_only_raise (e : exn) : emits_only P (@raise A e).
Proof. intros s. constructor. Qed.

Lemma emits_only_lift (r : result A) : emits_only P (lift r).
Proof. intros s. constructor. Qed.

Lemma emits_only_emit (ev : Event) : P ev -> emits_only P (emit ev).
Proof. intros H s. repeat constructor. exact H. Qed.

Lemma emits_only_log lvl msg arg :
  P (Log lvl msg arg) -> emits_only P (log lvl msg arg).
Proof. apply emits_only_emit. Qed.

Lemma emits_only_bind (m : M A) (k : A -> M B) :
  emits_only P m -> (forall a, emits_only P (k a)) -> emits_only P (bind m k).
Proof.
  intros Hm Hk s. specialize (Hm s). unfold bind.
  destruct (m s) as [[t1 s1] [e | a]]; simpl in *; [exact Hm |].
  specialize (Hk a s1). destruct (k a s1) as [[t2 s2] r]; simpl in *.
  apply Forall_app. split; assumption.
Qed.

Lemma emits_only_try_except (body : M A) (handler : exn -> M A) :
  emits_only P body -> (forall e, emits_only P (handler e)) ->
  emits_only P (try_except body handler).
Proof.
  intros Hb Hh s. specialize (Hb s). unfold try_except.
  destruct (body s) as [[t1 s1] [e | a]]; simpl in *; [| exact Hb].
  specialize (Hh e s1). destruct (handler e s1) as [[t2 s2] r]; simpl in *.
  apply Forall_app. split; assumption.
Qed.

End EmitsOnly.

Lemma emits_only_for_each {A : Type} (P : Event -> Prop) (xs : list A)
  (body : A -> M unit) :
  (forall x, In x xs -> emits_only P (body x)) ->
  emits_only P (for_each xs body).
Proof.
  induction xs as [| x rest IH]; intros H; simpl.
  - apply emits_only_ret.
  - apply emits_only_bind.
    + apply H. left. reflexivity.
    + intros _. apply IH. intros y Hy. apply H. right. exact Hy.
Qed.

Lemma emits_only_weaken {A : Type} (P Q : Event -> Prop) (m : M A) :
  (forall ev, P ev -> Q ev) -> emits_only P m -> emits_only Q m.
Proof.
  intros HPQ Hm s. eapply Forall_impl; [exact HPQ | apply Hm].
Qed.

Lemma publishes_none (t : list Event) :
  Forall not_publish t -> publishes t = [].
Proof.
  induction 1 as [| ev rest Hev _ IH]; [reflexivity |].
  unfold publishes in *. simpl. rewrite Hev. exact IH.
Qed.

Lemma publishes_app (t1 t2 : list Event) :
  publishes (t1 ++ t2) = (publishes t1 ++ publishes t2)%list.
Proof. apply filter_app. Qed.

(** ** Strings *)

Lemma append_inj_l (a x y : string) : a ++ x = a ++ y -> x = y.
Proof.
  induction a as [| c a IH]; simpl; intros H; [exact H |].
  inversion H. auto.
Qed.

Lemma append_assoc (a b c : string) : (a ++ b) ++ c = a ++ (b ++ c).
Proof.
  induction a as [| ch a IH]; simpl; [reflexivity | now rewrite IH].
Qed.

Lemma length_append (a b : string) :
  String.length (a ++ b) = (String.length a + String.length b)%nat.
Proof.
  induction a as [| ch a IH]; simpl; [reflexivity | now rewrite IH].
Qed.

Lemma ends_with_append (c : ascii) (a b : string) :
  b <> EmptyString -> ends_with c (a ++ b) = ends_with c b.
Proof.
  intros Hb. induction a as [| ch a IH]; simpl; [reflexivity |].
  destruct (a ++ b) eqn:E.
  - destruct a; simpl in E; [contradiction | discriminate].
  - exact IH.
Qed.

(** ** Sums of ones *)

Lemma fold_add_ones {A : Type} (xs : list A) (acc : Z) :
  fold_left Z.add (map (fun _ => 1) xs) acc = acc + len xs.
Proof.
  revert acc. induction xs as [| x rest IH]; intros acc; unfold len in *; simpl.
  - lia.
  - rewrite IH. lia.
Qed.

Lemma sum_ones {A : Type} (xs : list A) : sum (map (fun _ => 1) xs) = len xs.
Proof. unfold sum. rewrite fold_add_ones. lia. Qed.

(** ** [calculate_uptime] *)

Section Uptime.

Import Datetime.

Variable clock : nat -> Z.
Variable fromisoformat : string -> option datetime.

(** Every path of [calculate_uptime], with its events and its clock use. *)
Lemma calculate_uptime_run (v : json) (s : nat) :
  Monitor.calculate_uptime clock fromisoformat v s =
  if negb (truthy v) || eq_str v sentinel then ([], s, inr "Not started")
  else
    match str_replace v "Z" "+00:00" with
    | inl e => ([uptime_log e], s, inr "Unknown")
    | inr text =>
        match fromisoformat text with
        | None => ([uptime_log ValueError], s, inr "Unknown")
        | Some d =>
            match sub {| wall := clock s; utcoffset := Some 0 |} d with
            | inl e => ([uptime_log e], S s, inr "Unknown")
            | inr delta => ([], S s, inr (render_delta delta))
            end
        end
    end.
Proof.
  unfold Monitor.calculate_uptime, sentinel.
  destruct (negb (truthy v) || eq_str v _); [reflexivity |].
  unfold try_except, bind, lift.
  destruct (str_replace v _ _) as [e | text]; [reflexivity |].
  destruct (fromisoformat text) as [d |]; [| reflexivity].
  cbn [Monitor.datetime_now_utc Monitor.read_clock bind ret].
  simpl.
  destruct (sub _ d) as [e | delta]; [reflexivity |].
  unfold render_delta, divmod.
  destruct (days delta >? 0); [reflexivity |].
  destruct (seconds delta / 3600 >? 0); reflexivity.
Qed.

Lemma calculate_uptime_total (v : json) (s : nat) :
  exists uptime, outcome (Monitor.calculate_uptime clock fromisoformat v s) = inr uptime.
Proof.
  rewrite calculate_uptime_run.
  destruct (negb (truthy v) || eq_str v sentinel); [eexists; reflexivity |].
  destruct (str_replace v _ _) as [e | text]; [eexists; reflexivity |].
  destruct (fromisoformat text) as [d |]; [| eexists; reflexivity].
  destruct (sub _ d); eexists; reflexivity.
Qed.

Lemma calculate_uptime_quiet (v : json) :
  emits_only not_publish (Monitor.calculate_uptime clock fromisoformat v).
Proof.
  intros s. rewrite calculate_uptime_run.
  destruct (negb (truthy v) || eq_str v sentinel); [constructor |].
  destruct (str_replace v _ _) as [e | text]; [repeat constructor |].
  destruct (fromisoformat text) as [d |]; [| repeat constructor].
  destruct (sub _ d); repeat constructor.
Qed.

End Uptime.

(** The code splits a normalised [timedelta]; the specification splits the
    whole seconds.  On an elapsed time that is not negative the two agree. *)
Lemma render_delta_spec (us : Z) :
  0 <= us ->
  render_delta (Datetime.timedelta_of_us us) = uptime_as_specified us.
Proof.
  intros Hus.
  unfold render_delta, uptime_as_specified, Datetime.timedelta_of_us, Datetime.divmod.
  cbn [Datetime.days Datetime.seconds].
  assert (Hd : us / 86400000000 = us / 1000000 / 86400)
    by (Z.div_mod_to_equations; lia).
  assert (Hs : us mod 86400000000 / 1000000 = (us / 1000000) mod 86400)
    by (Z.div_mod_to_equations; lia).
  rewrite Hd, Hs.
  set (total := us / 1000000).
  assert (Ht : 0 <= total) by (subst total; Z.div_mod_to_equations; lia).
  assert (Hh : total mod 86400 / 3600 = (total / 3600) mod 24)
    by (Z.div_mod_to_equations; lia).
  assert (Hm : (total mod 86400) mod 3600 / 60 = (total / 60) mod 60)
    by (Z.div_mod_to_equations; lia).
  assert (Hsec : ((total mod 86400) mod 3600) mod 60 = total mod 60)
    by (Z.div_mod_to_equations; lia).
  rewrite Hh, Hm, Hsec.
  destruct (Z.leb_spec 86400 total) as [Hday | Hday].
  - replace (total / 86400 >? 0) with true; [reflexivity |].
    symmetry. apply Z.gtb_lt. Z.div_mod_to_equations; lia.
  - replace (total / 86400 >? 0) with false.
    2:{ symmetry. rewrite Z.gtb_ltb. apply Z.ltb_ge.
        Z.div_mod_to_equations; lia. }
    destruct (Z.leb_spec 3600 total) as [Hhour | Hhour].
    + replace ((total / 3600) mod 24 >? 0) with true; [reflexivity |].
      symmetry. apply Z.gtb_lt. Z.div_mod_to_equations; lia.
    + replace ((total / 3600) mod 24 >? 0) with false; [reflexivity |].
      symmetry. rewrite Z.gtb_ltb. apply Z.ltb_ge.
      Z.div_mod_to_equations; lia.
Qed.

Lemma string_eqb_false (a b : string) : a <> b -> String.eqb a b = false.
Proof. intros H. destruct (String.eqb_spec a b); [contradiction | reflexivity]. Qed.

(** C2, as the code has it.  On every string [calculate_uptime] returns a
    string and does not raise.  The empty string and the zero time give
    "Not started".  A string the parser rejects gives "Unknown", and so does
    one it reads as a timestamp without UTC offset, because subtracting it
    from the aware current time raises.  A timestamp with an offset that is
    not later than the clock gives the elapsed time in the format of the
    specification; 5 minutes 3 seconds, 2 hours 10 minutes and exactly one
    day print as "5m 3s", "2h 10m" and "1d 0h 0m". *)
Theorem calculate_uptime_contract :
  (forall (clock : nat -> Z)
          (fromisoformat : string -> option Datetime.datetime)
          (started_at : string) (s : nat),
      let run := Monitor.calculate_uptime clock fromisoformat (JStr started_at) s in
      let text := replace "Z" "+00:00" started_at in
      (exists uptime, outcome run = inr uptime) /\
      (started_at = "" \/ started_at = sentinel ->
       outcome run = inr "Not started") /\
      (started_at <> "" -> started_at <> sentinel ->
       (fromisoformat text = None -> outcome run = inr "Unknown") /\
       (forall d, fromisoformat text = Some d ->
                  Datetime.utcoffset d = None ->
                  outcome run = inr "Unknown") /\
       (forall d off, fromisoformat text = Some d ->
                      Datetime.utcoffset d = Some off ->
                      0 <= clock s - (Datetime.wall d - off) ->
                      outcome run =
                      inr (uptime_as_specified (clock s - (Datetime.wall d - off)))))) /\
  (let started := JStr "2024-01-01T00:00:00Z" in
   let after (us : Z) :=
     outcome (Monitor.calculate_uptime (fun _ => new_year_2024 + us)
                Datetime.fromisoformat_seconds started 0%nat) in
   after (303 * 1000000) = inr "5m 3s" /\
   after (7800 * 1000000) = inr "2h 10m" /\
   after (86400 * 1000000) = inr "1d 0h 0m").
Proof.
  split.
  - intros clock fromisoformat started_at s run text.
    split; [apply calculate_uptime_total |].
    subst run. rewrite calculate_uptime_run. cbn [truthy eq_str str_replace].
    split.
    + intros [-> | ->]; reflexivity.
    + intros Hne Hns.
      rewrite (string_eqb_false _ _ Hne), (string_eqb_false _ _ Hns).
      cbn [negb orb]. fold text.
      repeat split.
      * intros ->. reflexivity.
      * intros d -> Hoff. unfold Datetime.sub. cbn [Datetime.utcoffset].
        rewrite Hoff. reflexivity.
      * intros d off -> Hoff Hpos. unfold Datetime.sub.
        cbn [Datetime.utcoffset Datetime.wall]. rewrite Hoff.
        cbn [outcome snd]. f_equal.
        rewrite Z.sub_0_r. apply render_delta_spec. exact Hpos.
  - vm_compute. repeat split.
Qed.

(** C2 at a start time with an offset, one hour before the clock. *)
Lemma calculate_uptime_contract_witness :
  outcome (Monitor.calculate_uptime clock_2024 Datetime.fromisoformat_seconds
             (JStr "2023-12-31T23:00:00Z") 0%nat) = inr "1h 0m".
Proof.
  pose proof (proj1 calculate_uptime_contract clock_2024
                Datetime.fromisoformat_seconds "2023-12-31T23:00:00Z" 0%nat) as H.
  cbv zeta in H.
  destruct H as (_ & _ & H).
  destruct H as (_ & _ & H); [discriminate | discriminate |].
  rewrite (H {| Datetime.wall := 63839660400000000; Datetime.utcoffset := Some 0 |} 0).
  - vm_compute. reflexivity.
  - vm_compute. reflexivity.
  - reflexivity.
  - vm_compute. discriminate.
Defined.

(** C2 as stated fails twice.  With the clock at 2024-01-01T00:00:00 UTC, a
    start one second later has an elapsed time below one hour, and the
    answer is "23h 59m", which is no "<m>m <s>s".  A timestamp without
    offset is parsed, and the answer is "Unknown". *)
Lemma calculate_uptime_not_as_stated :
  (Datetime.fromisoformat_seconds "2024-01-01T00:00:01+00:00" =
   Some {| Datetime.wall := new_year_2024 + 1000000; Datetime.utcoffset := Some 0 |} /\
   new_year_2024 - (new_year_2024 + 1000000) < 3600 * 1000000 /\
   outcome (Monitor.calculate_uptime clock_2024 Datetime.fromisoformat_seconds
              (JStr "2024-01-01T00:00:01Z") 0%nat) = inr "23h 59m" /\
   forall m sec, "23h 59m" <> str_of_int m ++ "m " ++ str_of_int sec ++ "s") /\
  (Datetime.fromisoformat_seconds "2024-01-01T00:00:00" =
   Some {| Datetime.wall := new_year_2024; Datetime.utcoffset := None |} /\
   outcome (Monitor.calculate_uptime clock_2024 Datetime.fromisoformat_seconds
              (JStr "2024-01-01T00:00:00") 0%nat) = inr "Unknown").
Proof.
  split; [| split; vm_compute; reflexivity].
  split; [vm_compute; reflexivity |].
  split; [vm_compute; reflexivity |].
  split; [vm_compute; reflexivity |].
  intros m sec H.
  assert (E : ends_with "s" ((str_of_int m ++ "m " ++ str_of_int sec) ++ "s") = true)
    by (rewrite ends_with_append by discriminate; reflexivity).
  rewrite !append_assoc in E. rewrite <- H in E. discriminate E.
Qed.

(** ** Splitting an image reference *)

Lemma substring_in_char (c : ascii) (s : string) :
  substring_in (String c "") s = has_char c s.
Proof.
  induction s as [| c' rest IH]; [reflexivity |].
  cbn [substring_in has_char prefix]. rewrite IH. f_equal.
  destruct (ascii_dec c c') as [-> | Hne].
  - rewrite Ascii.eqb_refl. destruct rest; reflexivity.
  - destruct (Ascii.eqb_spec c' c); [congruence | reflexivity].
Qed.

Lemma rsplit_last_none (c : ascii) (s : string) :
  has_char c s = false -> rsplit_last c s = None.
Proof.
  induction s as [| c' rest IH]; [reflexivity |].
  cbn [has_char rsplit_last]. intros H.
  apply orb_false_iff in H. destruct H as [Hc Hrest].
  rewrite (IH Hrest), Hc. reflexivity.
Qed.

Lemma rsplit_last_some (c : ascii) (n v : string) :
  has_char c v = false -> rsplit_last c (n ++ String c v) = Some (n, v).
Proof.
  intros Hv. induction n as [| ch n IH]; cbn [append rsplit_last].
  - rewrite (rsplit_last_none _ _ Hv), Ascii.eqb_refl. reflexivity.
  - rewrite IH. reflexivity.
Qed.

Lemma has_char_append (c : ascii) (n v : string) :
  has_char c (n ++ String c v) = true.
Proof.
  induction n as [| ch n IH]; cbn [append has_char].
  - rewrite Ascii.eqb_refl. reflexivity.
  - rewrite IH. apply orb_true_r.
Qed.

(** The split of the code on a string is the split the specification asks. *)
Lemma split_resolves (full : string) :
  resolves_to full
    (match contains ":" (JStr full) with
     | inl e => inl e
     | inr true =>
         match str_rsplit (JStr full) ":" with
         | inl e => inl e
         | inr parts => unpack2 parts
         end
     | inr false => inr (JStr full, JStr "latest")
     end).
Proof.
  cbn [contains str_rsplit]. rewrite substring_in_char. split.
  - intros n v -> Hv. cbn [append].
    rewrite has_char_append. unfold rsplit.
    rewrite (rsplit_last_some _ _ _ Hv). reflexivity.
  - intros ->. reflexivity.
Qed.

(** ** The image of a container, in the monitor *)

Section MonitorImage.

Variable c : Container.
Variable image : json.

(** The resolution neither logs nor reads the clock. *)
Lemma image_resolution_pure (s : nat) :
  Monitor.image_resolution c image s =
  ([], s, outcome (Monitor.image_resolution c image 0%nat)).
Proof.
  unfold Monitor.image_resolution, bind, lift, ret, raise, outcome.
  destruct (image_tags c 0%nat) as [e | [| t0 r0]]; simpl; [reflexivity | |].
  - destruct (contains ":" image) as [e | [|]]; simpl;
      [reflexivity | | reflexivity].
    destruct (str_rsplit image ":") as [e | parts]; simpl; [reflexivity |].
    destruct (unpack2 parts); reflexivity.
  - destruct (image_tags c 1%nat) as [e | [| t r]]; simpl;
      [reflexivity | reflexivity |].
    destruct (substring_in ":" t); simpl; [| reflexivity].
    destruct (unpack2 _); reflexivity.
Qed.

Lemma image_version_of_run (s : nat) :
  Monitor.image_version_of c image s =
  ([], s, inr (value_or (image, JStr "unknown")
                 (outcome (Monitor.image_resolution c image 0%nat)))).
Proof.
  unfold Monitor.image_version_of, try_except.
  rewrite image_resolution_pure.
  destruct (outcome _) as [e | p]; reflexivity.
Qed.

(** The string the resolution works on: the first tag when the image has
    tags, the configured image otherwise. *)
Lemma image_resolution_first_tag (t0 first : string) (r0 r1 : list string) :
  image_tags c 0%nat = inr (t0 :: r0) ->
  image_tags c 1%nat = inr (first :: r1) ->
  resolves_to first (outcome (Monitor.image_resolution c image 0%nat)).
Proof.
  intros H0 H1. unfold Monitor.image_resolution, bind, lift, ret, outcome.
  rewrite H0. simpl. rewrite H1. simpl.
  pose proof (split_resolves first) as H. cbn [contains str_rsplit] in H.
  destruct (substring_in ":" first); simpl; [| exact H].
  destruct (unpack2 _); exact H.
Qed.

End MonitorImage.

Lemma image_resolution_fallback (c : Container) (raw : string) :
  image_tags c 0%nat = inr [] ->
  resolves_to raw (outcome (Monitor.image_resolution c (JStr raw) 0%nat)).
Proof.
  intros H0. unfold Monitor.image_resolution, bind, lift, ret, outcome.
  rewrite H0. simpl.
  pose proof (split_resolves raw) as H. cbn [contains str_rsplit] in H.
  destruct (substring_in ":" raw); simpl; [| exact H].
  destruct (unpack2 _); exact H.
Qed.

(** ** [get_container_state] *)

Ltac next_call := unfold bind at 1; unfold lift at 1.

Section ContainerState.

Variable clock : nat -> Z.
Variable fromisoformat : string -> option Datetime.datetime.

(** Once [refresh_and_read] has returned, the ["State"] record is a
    dictionary: [state.get] was called on it. *)
Lemma refresh_and_read_dict (c : Container) (state health image started_at : json) :
  refresh_and_read c = inr (state, health, image, started_at) ->
  exists attrs config st,
    reload c = inr attrs /\
    getitem attrs "State" = inr (JDict st) /\
    getitem attrs "Config" = inr config /\
    getitem config "Image" = inr image /\
    state = JDict st /\
    started_at = lookup_or st "StartedAt" (JStr "") /\
    (assoc "Health" st = None -> health = JStr "N/A").
Proof.
  unfold refresh_and_read.
  destruct (reload c) as [e | attrs]; [discriminate |].
  destruct (getitem attrs "State") as [e | state'] eqn:Es; [discriminate |].
  destruct (contains "Health" state') as [e | hh] eqn:Eh; [discriminate |].
  destruct (if hh then _ else _) as [e | health'] eqn:Ehv; [discriminate |].
  destruct (getitem attrs "Config") as [e | config] eqn:Ec; [discriminate |].
  destruct (getitem config "Image") as [e | image'] eqn:Ei; [discriminate |].
  destruct (get state' "StartedAt" (JStr "")) as [e | started'] eqn:E;
    [discriminate |].
  intros H. inversion H; subst. clear H.
  destruct state as [| | | | | st]; try discriminate E.
  exists attrs, config, st. repeat split; try assumption; try reflexivity.
  - cbn [get] in E. unfold lookup_or.
    destruct (assoc "StartedAt" st); inversion E; reflexivity.
  - intros Hno. cbn [contains] in Eh. rewrite Hno in Eh.
    inversion Eh; subst. inversion Ehv. reflexivity.
Qed.

(** The two ways [get_container_state] ends: the refresh or a read raised,
    and it logs one error and returns [None]; or it returns the snapshot. *)
Lemma get_container_state_run (c : Container) (s : nat) :
  Monitor.get_container_state clock fromisoformat c s =
  match refresh_and_read c with
  | inl e => ([state_error_log c e], s, inr None)
  | inr (state, health, image, started_at) =>
      let r1 := Monitor.calculate_uptime clock fromisoformat started_at s in
      ((trace r1), S (final r1),
       inr (Some (snapshot
                    (match state with JDict st => st | _ => [] end)
                    health image
                    (snd (value_or (image, JStr "unknown")
                            (outcome (Monitor.image_resolution c image 0%nat))))
                    (value_or "" (outcome r1)) started_at
                    (Datetime.isoformat
                       {| Datetime.wall := clock (final r1);
                          Datetime.utcoffset := None |}))))
  end.
Proof.
  unfold Monitor.get_container_state, refresh_and_read, state_error_log.
  unfold try_except at 1. next_call.
  destruct (reload c) as [e0 | attrs]; [reflexivity |].
  next_call.
  destruct (getitem attrs "State") as [e0 | state]; [reflexivity |].
  next_call.
  destruct (contains "Health" state) as [e0 | hh]; [reflexivity |].
  unfold bind at 1.
  assert (Hh : forall s0,
    (if hh
     then bind (lift (getitem state "Health"))
            (fun h => lift (get h "Status" (JStr "N/A")))
     else ret (JStr "N/A")) s0 =
    ([], s0, if hh then match getitem state "Health" with
                        | inl e => inl e
                        | inr h => get h "Status" (JStr "N/A")
                        end
             else inr (JStr "N/A"))).
  { intros s0. destruct hh; [| reflexivity]. unfold bind, lift.
    destruct (getitem state "Health"); [reflexivity |].
    destruct (get _ _ _); reflexivity. }
  rewrite Hh. clear Hh.
  destruct (if hh then _ else _) as [e0 | health]; [reflexivity |].
  next_call.
  destruct (getitem attrs "Config") as [e0 | config]; [reflexivity |].
  next_call.
  destruct (getitem config "Image") as [e0 | image]; [reflexivity |].
  next_call.
  destruct (get state "StartedAt" (JStr "")) as [e0 | started_at] eqn:E;
    [reflexivity |].
  destruct state as [| | | | | st]; try discriminate E.
  unfold bind at 1.
  destruct (calculate_uptime_total clock fromisoformat started_at s)
    as [uptime Hu].
  rewrite (run_eta (Monitor.calculate_uptime clock fromisoformat started_at s)).
  rewrite Hu. cbn [trace final outcome fst snd value_or].
  unfold bind at 1. rewrite image_version_of_run.
  destruct (value_or _ _) as [image_name image_version].
  cbn [get]. unfold bind, lift, ret, Monitor.datetime_utcnow, Monitor.read_clock.
  unfold snapshot, lookup_or.
  destruct (assoc "Running" st), (assoc "Status" st), (assoc "Pid" st),
    (assoc "ExitCode" st), (assoc "Error" st); cbn; rewrite ?app_nil_r;
    reflexivity.
Qed.

Lemma get_container_state_quiet (c : Container) :
  emits_only not_publish (Monitor.get_container_state clock fromisoformat c).
Proof.
  intros s. rewrite get_container_state_run.
  destruct (refresh_and_read c) as [e | [[[state health] image] started_at]].
  - repeat constructor.
  - apply calculate_uptime_quiet.
Qed.

End ContainerState.

(** The snapshot of a container whose refresh yields an inspect record
    without health check: its image is the configured one and its version
    is what the resolution gives, or "unknown". *)
Lemma snapshot_image_fields clock fromisoformat (c : Container) (s : nat)
  (st : list (string * json)) (image : string) :
  reload c = inr (inspect_record st image) ->
  assoc "Health" st = None ->
  exists fields,
    outcome (Monitor.get_container_state clock fromisoformat c s) =
    inr (Some fields) /\
    assoc "image" fields = Some (JStr image) /\
    assoc "image_version" fields =
    Some (snd (value_or (JStr image, JStr "unknown")
                 (outcome (Monitor.image_resolution c (JStr image) 0%nat)))).
Proof.
  intros Hr Hh.
  rewrite get_container_state_run. unfold refresh_and_read.
  rewrite Hr. cbn [inspect_record getitem assoc String.eqb Ascii.eqb Bool.eqb contains].
  rewrite Hh. cbn [get].
  destruct (assoc "StartedAt" st); eexists; (split; [reflexivity |]);
    split; reflexivity.
Qed.

(** C3.  The monitor takes the first tag the runtime reports for the image
    and, when the image has no tag, the configured image; the string taken is
    cut at its last colon into name and version, and without a colon the
    version is "latest" ("nginx:1.25" gives "nginx" and "1.25").  When a step
    of the resolution raises, the version is "unknown".  In every snapshot
    the field "image" is the configured image, whatever the resolution did.
    The discovery publisher resolves the same way.  [get_container_state]
    does return a snapshot for a container whose refresh yields an inspect
    record, and the fields "image" and "image_version" of that snapshot
    obey these rules. *)
Theorem image_tag_resolution :
  (forall (c : Container) (image : json) (s : nat)
          (t0 first : string) (r0 r1 : list string),
      image_tags c 0%nat = inr (t0 :: r0) ->
      image_tags c 1%nat = inr (first :: r1) ->
      resolves_to first (outcome (Monitor.image_version_of c image s))) /\
  (forall (c : Container) (raw : string) (s : nat),
      image_tags c 0%nat = inr [] ->
      resolves_to raw (outcome (Monitor.image_version_of c (JStr raw) s))) /\
  (forall (c : Container) (image : json) (s : nat) (e : exn),
      outcome (Monitor.image_resolution c image s) = inl e ->
      outcome (Monitor.image_version_of c image s) = inr (image, JStr "unknown")) /\
  (forall clock fromisoformat (c : Container) (s : nat) fields,
      outcome (Monitor.get_container_state clock fromisoformat c s) =
      inr (Some fields) ->
      exists attrs config image image_name image_version,
        reload c = inr attrs /\
        getitem attrs "Config" = inr config /\
        getitem config "Image" = inr image /\
        outcome (Monitor.image_version_of c image s) =
        inr (image_name, image_version) /\
        assoc "image" fields = Some image /\
        assoc "image_version" fields = Some image_version /\
        (forall e, outcome (Monitor.image_resolution c image s) = inl e ->
                   assoc "image_version" fields = Some (JStr "unknown"))) /\
  (forall (c : Container) (image : json) (config : json) (s : nat),
      getitem (attrs c) "Config" = inr config ->
      getitem config "Image" = inr image ->
      outcome (Discovery.image_name_and_tag c s) =
      outcome (Monitor.image_version_of c image s)) /\
  (outcome (Monitor.image_version_of (handle "web" [] "nginx:1.25" [])
              (JStr "nginx:1.25") 0%nat) = inr (JStr "nginx", JStr "1.25") /\
   outcome (Monitor.image_version_of (handle "web" [] "nginx" [])
              (JStr "nginx") 0%nat) = inr (JStr "nginx", JStr "latest") /\
   outcome (Monitor.image_version_of (vanished "web")
              (JStr "nginx:1.25") 0%nat) = inr (JStr "nginx:1.25", JStr "unknown")) /\
  (forall clock fromisoformat (c : Container) (s : nat) st image,
      reload c = inr (inspect_record st image) ->
      assoc "Health" st = None ->
      exists fields image_version,
        outcome (Monitor.get_container_state clock fromisoformat c s) =
        inr (Some fields) /\
        assoc "image" fields = Some (JStr image) /\
        assoc "image_version" fields = Some image_version /\
        (forall t0 first r0 r1,
            image_tags c 0%nat = inr (t0 :: r0) ->
            image_tags c 1%nat = inr (first :: r1) ->
            (forall n v, first = n ++ ":" ++ v -> has_char ":" v = false ->
                         image_version = JStr v) /\
            (has_char ":" first = false -> image_version = JStr "latest")) /\
        (image_tags c 0%nat = inr [] ->
         (forall n v, image = n ++ ":" ++ v -> has_char ":" v = false ->
                      image_version = JStr v) /\
         (has_char ":" image = false -> image_version = JStr "latest")) /\
        (forall e, outcome (Monitor.image_resolution c (JStr image) s) = inl e ->
                   image_version = JStr "unknown")) /\
  (let field := state_field clock_2024 Datetime.fromisoformat_seconds in
   field (handle "web" [] "nginx:1.25" []) 0%nat "image_version" =
   Some (JStr "1.25") /\
   field (handle "web" [] "nginx" []) 0%nat "image_version" =
   Some (JStr "latest") /\
   field (handle "cache" [] "sha256:0a1b" ["redis:7.2"; "redis:latest"]) 0%nat
     "image_version" = Some (JStr "7.2") /\
   field (handle "cache" [] "sha256:0a1b" ["redis:7.2"; "redis:latest"]) 0%nat
     "image" = Some (JStr "sha256:0a1b") /\
   field (orphaned "web" [] "nginx:1.25") 0%nat "image_version" =
   Some (JStr "unknown") /\
   field (orphaned "web" [] "nginx:1.25") 0%nat "image" =
   Some (JStr "nginx:1.25")).
Proof.
  split; [| split; [| split; [| split; [| split; [| split; [| split]]]]]].
  - intros c image s t0 first r0 r1 H0 H1.
    rewrite image_version_of_run. cbn [outcome snd].
    pose proof (image_resolution_first_tag c image t0 first r0 r1 H0 H1) as [Ha Hb].
    split.
    + intros n v Hf Hv. rewrite (Ha n v Hf Hv). reflexivity.
    + intros Hf. rewrite (Hb Hf). reflexivity.
  - intros c raw s H0.
    rewrite image_version_of_run. cbn [outcome snd].
    pose proof (image_resolution_fallback c raw H0) as [Ha Hb].
    split.
    + intros n v Hf Hv. rewrite (Ha n v Hf Hv). reflexivity.
    + intros Hf. rewrite (Hb Hf). reflexivity.
  - intros c image s e H.
    rewrite image_resolution_pure in H. cbn [outcome snd] in H.
    rewrite image_version_of_run, H. reflexivity.
  - intros clock fromisoformat c s fields H.
    rewrite get_container_state_run in H.
    destruct (refresh_and_read c) as [e | [[[state health] image] started_at]] eqn:R;
      [discriminate H |].
    destruct (refresh_and_read_dict c _ _ _ _ R)
      as (attrs & config & st & Hr & _ & Hc & Hi & _).
    destruct (value_or (image, JStr "unknown")
                (outcome (Monitor.image_resolution c image 0%nat)))
      as [image_name image_version] eqn:V.
    exists attrs, config, image, image_name, image_version.
    cbn [outcome snd] in H. inversion H.
    rewrite image_version_of_run, V.
    repeat split; try assumption; try reflexivity.
    intros e0 He0. rewrite image_resolution_pure in He0.
    cbn [outcome snd] in He0. rewrite He0 in V. inversion V. reflexivity.
  - intros c image config s Hc Hi.
    unfold Discovery.image_name_and_tag, Monitor.image_version_of,
      Discovery.image_resolution, Monitor.image_resolution,
      try_except, bind, lift, ret, raise, outcome.
    rewrite Hc, Hi.
    destruct (image_tags c 0%nat) as [e | [| t0 r0]]; simpl; [reflexivity | |].
    + destruct (contains ":" image) as [e | [|]]; simpl;
        [reflexivity | | reflexivity].
      destruct (str_rsplit image ":") as [e | parts]; simpl; [reflexivity |].
      destruct (unpack2 parts); reflexivity.
    + destruct (image_tags c 1%nat) as [e | [| t r]]; simpl;
        [reflexivity | reflexivity |].
      destruct (substring_in ":" t); simpl; [| reflexivity].
      destruct (unpack2 _); reflexivity.
  - repeat split; vm_compute; reflexivity.
  - intros clock fromisoformat c s st image Hr Hh.
    destruct (snapshot_image_fields clock fromisoformat c s st image Hr Hh)
      as (fields & Ho & Hi & Hv).
    exists fields. eexists.
    split; [exact Ho |]. split; [exact Hi |]. split; [exact Hv |].
    split.
    { intros t0 first r0 r1 H0 H1.
      destruct (image_resolution_first_tag c (JStr image) t0 first r0 r1 H0 H1)
        as [Ha Hb].
      split.
      - intros n v Hf Hc. rewrite (Ha n v Hf Hc). reflexivity.
      - intros Hf. rewrite (Hb Hf). reflexivity. }
    split.
    { intros H0.
      destruct (image_resolution_fallback c image H0) as [Ha Hb].
      split.
      - intros n v Hf Hc. rewrite (Ha n v Hf Hc). reflexivity.
      - intros Hf. rewrite (Hb Hf). reflexivity. }
    intros e He. rewrite image_resolution_pure in He.
    cbn [outcome snd] in He. rewrite He. reflexivity.
  - cbv zeta. repeat split; vm_compute; reflexivity.
Qed.

(** C3 at a container whose image carries the tags "redis:7.2" and
    "redis:latest" and whose configured image is a digest: the snapshot has
    the digest as image and "7.2" as version. *)
Lemma image_tag_resolution_witness :
  exists fields,
    outcome (Monitor.get_container_state clock_2024 Datetime.fromisoformat_seconds
               (handle "cache" [] "sha256:0a1b" ["redis:7.2"; "redis:latest"])
               0%nat) = inr (Some fields) /\
    assoc "image" fields = Some (JStr "sha256:0a1b") /\
    assoc "image_version" fields = Some (JStr "7.2").
Proof.
  destruct (proj1 (proj2 (proj2 (proj2 (proj2 (proj2 (proj2
              image_tag_resolution))))))
              clock_2024 Datetime.fromisoformat_seconds
              (handle "cache" [] "sha256:0a1b" ["redis:7.2"; "redis:latest"])
              0%nat [] "sha256:0a1b" eq_refl eq_refl)
    as (fields & version & Ho & Hi & Hv & Htags & _).
  exists fields. split; [exact Ho |]. split; [exact Hi |].
  rewrite Hv. f_equal.
  exact (proj1 (Htags "redis:7.2" "redis:7.2" ["redis:latest"] ["redis:latest"]
                  eq_refl eq_refl) "redis" "7.2" eq_refl eq_refl).
Defined.

Lemma lookup_or_defaults (st : list (string * json)) (K : string) (d : json)
  (k : string) (fields : list (string * json)) :
  assoc k fields = Some (lookup_or st K d) -> defaults_to st fields K k d.
Proof.
  unfold lookup_or, defaults_to. intros H. split.
  - intros Hn. rewrite Hn in H. exact H.
  - intros v Hv. rewrite Hv in H. exact H.
Qed.

(** C9.  When [get_container_state] returns a snapshot, the refreshed
    attributes hold a ["State"] dictionary, and each field the dictionary
    lacks gets its fixed default: running [False], state "unknown", pid 0,
    exit_code 0, error and started_at the empty string, uptime then being
    "Not started", and health "N/A" when there is no ["Health"] key.  A
    container whose record has the ["State"] dictionary without ["Health"]
    and a configured image does get a snapshot. *)
Theorem snapshot_defaults :
  (forall clock fromisoformat (c : Container) (s : nat) fields,
      outcome (Monitor.get_container_state clock fromisoformat c s) =
      inr (Some fields) ->
      exists attrs st,
        reload c = inr attrs /\
        getitem attrs "State" = inr (JDict st) /\
        defaults_to st fields "Running" "running" (JBool false) /\
        defaults_to st fields "Status" "state" (JStr "unknown") /\
        defaults_to st fields "Pid" "pid" (JNum 0) /\
        defaults_to st fields "ExitCode" "exit_code" (JNum 0) /\
        defaults_to st fields "Error" "error" (JStr "") /\
        defaults_to st fields "StartedAt" "started_at" (JStr "") /\
        (assoc "StartedAt" st = None ->
         assoc "uptime" fields = Some (JStr "Not started")) /\
        (assoc "Health" st = None -> assoc "health" fields = Some (JStr "N/A"))) /\
  (forall clock fromisoformat (c : Container) (s : nat) st image,
      reload c = inr (inspect_record st image) ->
      assoc "Health" st = None ->
      exists fields,
        outcome (Monitor.get_container_state clock fromisoformat c s) =
        inr (Some fields)).
Proof.
  split.
  - intros clock fromisoformat c s fields H.
    rewrite get_container_state_run in H.
    destruct (refresh_and_read c) as [e | [[[state health] image] started_at]] eqn:R;
      [discriminate H |].
    destruct (refresh_and_read_dict c _ _ _ _ R)
      as (attrs & config & st & Hr & Hs & _ & _ & -> & -> & Hhealth).
    exists attrs, st. cbn [outcome snd] in H. inversion H as [Hf]. clear H Hf.
    split; [exact Hr |]. split; [exact Hs |].
    do 6 (split; [apply lookup_or_defaults; reflexivity |]).
    split.
    + intros Hn. unfold lookup_or. rewrite Hn.
      rewrite calculate_uptime_run. reflexivity.
    + intros Hn. rewrite (Hhealth Hn). reflexivity.
  - intros clock fromisoformat c s st image Hr Hh.
    rewrite get_container_state_run. unfold refresh_and_read.
    rewrite Hr. cbn [inspect_record getitem assoc String.eqb Ascii.eqb Bool.eqb contains].
    rewrite Hh. cbn [get].
    destruct (assoc "StartedAt" st); eexists; reflexivity.
Qed.

(** C9 at a container whose ["State"] record is empty. *)
Lemma snapshot_defaults_witness :
  exists attrs st,
    reload (handle "web" [] "nginx" []) = inr attrs /\
    getitem attrs "State" = inr (JDict st) /\
    defaults_to st
      (snapshot [] (JStr "N/A") (JStr "nginx") (JStr "latest") "Not started"
         (JStr "") "2024-01-01T00:00:00")
      "Running" "running" (JBool false).
Proof.
  destruct (proj1 snapshot_defaults clock_2024 Datetime.fromisoformat_seconds
              (handle "web" [] "nginx" []) 0%nat
              (snapshot [] (JStr "N/A") (JStr "nginx") (JStr "latest")
                 "Not started" (JStr "") "2024-01-01T00:00:00"))
    as (attrs & st & Hr & Hs & Hd & _).
  - vm_compute. reflexivity.
  - exists attrs, st. repeat split; assumption || apply Hd.
Defined.

(** ** One poll cycle *)

Lemma emits_only_publish {P : Event -> Prop} (client : Client)
  (topic payload : string) (retain : bool) :
  P (Publish topic payload retain) ->
  emits_only P (publish client topic payload retain).
Proof.
  intros H. unfold publish. destruct (refuses client topic payload).
  - apply emits_only_raise.
  - apply emits_only_emit. exact H.
Qed.

(** The state topic of no container is the summary topic. *)
Lemma state_topic_not_summary (cfg : Monitor.Config) (c : Container) :
  state_topic cfg c <> summary_topic cfg.
Proof.
  unfold state_topic, summary_topic. intros H.
  apply append_inj_l in H. apply append_inj_l in H.
  cbn [append] in H. inversion H as [H'']. clear H.
  destruct (name c) as [| c1 [| c2 rest]]; cbn [append] in H''.
  - discriminate H''.
  - inversion H''.
  - apply (f_equal String.length) in H''.
    cbn [String.length] in H''. rewrite length_append in H''.
    cbn [String.length] in H''. lia.
Qed.

Section Cycle.

Variable cfg : Monitor.Config.
Variable clock : nat -> Z.
Variable fromisoformat : string -> option Datetime.datetime.
Variable mqtt_client : option Client.

Let get_state := Monitor.get_container_state clock fromisoformat.
Let publish_state := Monitor.publish_container_state cfg clock fromisoformat mqtt_client.
Let each := Monitor.monitor_each cfg clock fromisoformat mqtt_client.

(** The guarded call in the loop of [monitor_containers]. *)
Let guarded (container : Container) : M unit :=
  try_except (publish_state container)
    (fun e => log LvlError ("Error monitoring " ++ name container ++ ": ") (Exc e)).

Lemma each_cons (c : Container) (rest : list Container) :
  each (c :: rest) = bind (guarded c) (fun _ => each rest).
Proof. reflexivity. Qed.

Lemma publish_state_events (c : Container) :
  emits_only (state_event cfg c) (publish_state c).
Proof.
  unfold publish_state, Monitor.publish_container_state.
  apply emits_only_bind.
  - apply (emits_only_weaken not_publish); [| apply get_container_state_quiet].
    intros [t p r | lvl msg arg | n] H; cbn; try exact I. discriminate H.
  - intros [[| field fields] |]; try apply emits_only_ret.
    destruct (is_None mqtt_client && Monitor.DEBUG cfg).
    + apply emits_only_bind; [apply emits_only_lift |].
      intros shown. apply emits_only_log. exact I.
    + destruct mqtt_client as [client |]; [| apply emits_only_ret].
      apply emits_only_bind.
      * apply emits_only_publish. split; reflexivity.
      * intros _. apply emits_only_bind; [apply emits_only_lift |].
        intros shown. apply emits_only_log. exact I.
Qed.

Lemma guarded_events (c : Container) : emits_only (state_event cfg c) (guarded c).
Proof.
  apply emits_only_try_except; [apply publish_state_events |].
  intros e. apply emits_only_log. exact I.
Qed.

(** The guarded call returns, whatever the container does. *)
Lemma guarded_returns (c : Container) (s : nat) : outcome (guarded c s) = inr tt.
Proof.
  unfold guarded, try_except, outcome.
  destruct (publish_state c s) as [[t s1] [e | []]]; reflexivity.
Qed.

Lemma guarded_run (c : Container) (s : nat) :
  guarded c s = (trace (guarded c s), final (guarded c s), inr tt).
Proof. rewrite <- (guarded_returns c s). apply run_eta. Qed.

Lemma each_returns (containers : list Container) (s : nat) :
  outcome (each containers s) = inr tt.
Proof.
  revert s. induction containers as [| c rest IH]; intros s; [reflexivity |].
  rewrite each_cons, (bind_returns _ _ _ _ _ _ (guarded_run c s)).
  apply IH.
Qed.

Lemma each_cons_trace (c : Container) (rest : list Container) (s : nat) :
  trace (each (c :: rest) s) =
  (trace (guarded c s) ++ trace (each rest (final (guarded c s))))%list.
Proof.
  rewrite each_cons, (bind_returns _ _ _ _ _ _ (guarded_run c s)). reflexivity.
Qed.

Lemma each_cons_final (c : Container) (rest : list Container) (s : nat) :
  final (each (c :: rest) s) = final (each rest (final (guarded c s))).
Proof.
  rewrite each_cons, (bind_returns _ _ _ _ _ _ (guarded_run c s)). reflexivity.
Qed.

(** The loop over a list cut in two is the loop over the first part, then
    the loop over the second part from the clock count the first one left. *)
Lemma each_app (l1 l2 : list Container) (s : nat) :
  trace (each (l1 ++ l2) s) =
  (trace (each l1 s) ++ trace (each l2 (final (each l1 s))))%list /\
  final (each (l1 ++ l2) s) = final (each l2 (final (each l1 s))).
Proof.
  revert s. induction l1 as [| c rest IH]; intros s.
  - split; reflexivity.
  - cbn [app]. rewrite !each_cons_trace, !each_cons_final.
    destruct (IH (final (guarded c s))) as [Ht Hf].
    rewrite Ht, Hf, app_assoc. split; reflexivity.
Qed.

Lemma each_events (containers : list Container) :
  emits_only (fun ev => exists c, In c containers /\ state_event cfg c ev)
    (each containers).
Proof.
  apply emits_only_for_each. intros c Hc.
  apply (emits_only_weaken (state_event cfg c)); [| apply guarded_events].
  intros ev H. exists c. split; assumption.
Qed.

Lemma each_state_messages (containers : list Container) :
  emits_only (state_message_of cfg containers) (each containers).
Proof.
  apply (emits_only_weaken
           (fun ev => exists c, In c containers /\ state_event cfg c ev));
    [| apply each_events].
  intros [t p r | lvl msg arg | n] (c & Hc & Hev); cbn; try exact I.
  exists c. cbn in Hev. tauto.
Qed.

(** A container whose refresh or whose reads raise: one error line, no
    publish, no clock reading. *)
Lemma guarded_unavailable (c : Container) (e : exn) (s : nat) :
  refresh_and_read c = inl e ->
  guarded c s = ([state_error_log c e], s, inr tt).
Proof.
  intros H. unfold guarded, publish_state, Monitor.publish_container_state.
  unfold try_except, bind. rewrite get_container_state_run, H. reflexivity.
Qed.

(** A container whose state is read, under a connected client that takes
    the message: the message is published on the container's topic. *)
Lemma guarded_available (c : Container) (client : Client) (s : nat)
  (state health image started_at : json) :
  mqtt_client = Some client ->
  (forall payload, refuses client (state_topic cfg c) payload = None) ->
  refresh_and_read c = inr (state, health, image, started_at) ->
  exists fields,
    outcome (get_state c s) = inr (Some fields) /\
    In (Publish (state_topic cfg c) (json_dumps (JDict fields)) true)
      (trace (guarded c s)).
Proof.
  intros Hclient Hacc H.
  unfold guarded, publish_state, get_state, Monitor.publish_container_state.
  unfold try_except, bind. rewrite get_container_state_run, H.
  cbv zeta. cbn [outcome snd]. eexists. split; [reflexivity |].
  rewrite Hclient. cbn [snapshot is_None andb].
  unfold publish. fold (state_topic cfg c). rewrite Hacc.
  unfold lift, log, emit.
  cbn [getitem assoc String.eqb Ascii.eqb Bool.eqb trace fst snd].
  apply in_or_app. right. left. reflexivity.
Qed.

(** The same container in debug mode, without client: the line of the dry
    run is logged. *)
Lemma guarded_dry_run (c : Container) (s : nat)
  (state health image started_at : json) :
  mqtt_client = None ->
  Monitor.DEBUG cfg = true ->
  refresh_and_read c = inr (state, health, image, started_at) ->
  exists shown, In (dry_run_log cfg c shown) (trace (guarded c s)).
Proof.
  intros Hclient Hdebug H.
  unfold guarded, publish_state, Monitor.publish_container_state.
  unfold try_except, bind. rewrite get_container_state_run, H.
  cbv zeta. rewrite Hclient, Hdebug. cbn [snapshot is_None andb].
  unfold lift, log, emit, dry_run_log. fold (state_topic cfg c).
  cbn [getitem assoc String.eqb Ascii.eqb Bool.eqb trace fst snd].
  eexists. apply in_or_app. right. left. reflexivity.
Qed.

Lemma each_dry_runs (containers : list Container) (c : Container)
  (state health image started_at : json) (s : nat) :
  mqtt_client = None ->
  Monitor.DEBUG cfg = true ->
  refresh_and_read c = inr (state, health, image, started_at) ->
  In c containers ->
  exists shown, In (dry_run_log cfg c shown) (trace (each containers s)).
Proof.
  intros Hclient Hdebug H. revert s.
  induction containers as [| c' rest IH]; intros s Hin; [contradiction |].
  rewrite each_cons_trace. destruct Hin as [-> | Hin].
  - destruct (guarded_dry_run c s _ _ _ _ Hclient Hdebug H) as [shown Hp].
    exists shown. apply in_or_app. left. exact Hp.
  - destruct (IH (final (guarded c' s)) Hin) as [shown Hp].
    exists shown. apply in_or_app. right. exact Hp.
Qed.

Lemma each_publishes (containers : list Container) (c : Container)
  (client : Client) (state health image started_at : json) (s : nat) :
  mqtt_client = Some client ->
  (forall payload, refuses client (state_topic cfg c) payload = None) ->
  refresh_and_read c = inr (state, health, image, started_at) ->
  In c containers ->
  exists payload, In (Publish (state_topic cfg c) payload true)
                    (trace (each containers s)).
Proof.
  intros Hclient Hacc H. revert s.
  induction containers as [| c' rest IH]; intros s Hin; [contradiction |].
  rewrite each_cons_trace. destruct Hin as [-> | Hin].
  - destruct (guarded_available c client s _ _ _ _ Hclient Hacc H)
      as (fields & _ & Hp).
    eexists. apply in_or_app. left. exact Hp.
  - destruct (IH (final (guarded c' s)) Hin) as [payload Hp].
    exists payload. apply in_or_app. right. exact Hp.
Qed.

End Cycle.

(** Without a client the loop publishes nothing. *)
Lemma each_quiet_offline cfg clock fromisoformat (containers : list Container) :
  emits_only not_publish
    (Monitor.monitor_each cfg clock fromisoformat None containers).
Proof.
  apply emits_only_for_each. intros c _.
  apply emits_only_try_except; [| intros e; apply emits_only_log; reflexivity].
  unfold Monitor.publish_container_state.
  apply emits_only_bind; [apply get_container_state_quiet |].
  intros [[| field fields] |]; try apply emits_only_ret.
  cbn [is_None andb].
  destruct (Monitor.DEBUG cfg); [| apply emits_only_ret].
  apply emits_only_bind; [apply emits_only_lift |].
  intros shown. apply emits_only_log. reflexivity.
Qed.

Section Summary.

Variable cfg : Monitor.Config.
Variable clock : nat -> Z.

(** The stamp of the summary of a cycle that starts at clock count [s]. *)
Let stamp (s : nat) : string :=
  Datetime.isoformat {| Datetime.wall := clock s; Datetime.utcoffset := None |}.

Let summary_payload (containers : list Container) (s : nat) : string :=
  json_dumps
    (fleet_summary cfg (len containers) (len (filter is_running containers))
       (len containers - len (filter is_running containers)) (stamp s)).

(** Every path of [publish_summary]. *)
Lemma publish_summary_run (mqtt_client : option Client)
  (containers : list Container) (s : nat) :
  Monitor.publish_summary cfg clock mqtt_client containers s =
  let running := len (filter is_running containers) in
  match mqtt_client with
  | None =>
      if Monitor.DEBUG cfg then
        ([Log LvlDebug
            ("DEBUG: Would publish summary: " ++ str_of_int running ++ "/" ++
             str_of_int (len containers) ++ " running, SentryLab v" ++
             Monitor.SENTRYLAB_VERSION cfg) NoArg], S s, inr tt)
      else ([], S s, inr tt)
  | Some client =>
      match refuses client (summary_topic cfg) (summary_payload containers s) with
      | Some e => ([], S s, inl e)
      | None =>
          ([Publish (summary_topic cfg) (summary_payload containers s) true;
            Log LvlDebug
              ("Published summary: " ++ str_of_int running ++ "/" ++
               str_of_int (len containers) ++ " running") NoArg], S s, inr tt)
      end
  end.
Proof.
  unfold Monitor.publish_summary. rewrite sum_ones. fold is_running.
  unfold summary_payload, fleet_summary, stamp, summary_topic.
  destruct mqtt_client as [client |]; cbn [is_None andb].
  - unfold bind, Monitor.datetime_utcnow, Monitor.read_clock, bind, ret, publish.
    cbn [fst snd].
    destruct (refuses client _ _); reflexivity.
  - destruct (Monitor.DEBUG cfg); reflexivity.
Qed.

Variable fromisoformat : string -> option Datetime.datetime.

(** Every path of [monitor_containers]: the enumeration raises; the summary
    publish raises; or the loop runs over every container. *)
Lemma monitor_containers_run (docker_client : DockerClient)
  (mqtt_client : option Client) (s : nat) :
  Monitor.monitor_containers cfg clock fromisoformat docker_client mqtt_client s =
  match containers_list docker_client true with
  | inl e => ([cycle_error_log e], s, inr tt)
  | inr containers =>
      let r1 := Monitor.publish_summary cfg clock mqtt_client containers s in
      match outcome r1 with
      | inl e =>
          ((monitoring_log containers :: trace r1 ++ [cycle_error_log e])%list,
           final r1, inr tt)
      | inr _ =>
          let r2 := Monitor.monitor_each cfg clock fromisoformat mqtt_client
                      containers (final r1) in
          ((monitoring_log containers :: trace r1 ++ trace r2 ++
            [updated_log containers])%list, final r2, inr tt)
      end
  end.
Proof.
  unfold Monitor.monitor_containers, try_except. next_call.
  destruct (containers_list docker_client true) as [e | containers];
    [reflexivity |].
  unfold bind at 1. unfold log at 1, emit at 1.
  unfold bind at 1. cbv zeta.
  rewrite (run_eta (Monitor.publish_summary cfg clock mqtt_client containers s)).
  cbn [trace final outcome fst snd].
  destruct (outcome (Monitor.publish_summary cfg clock mqtt_client containers s))
    as [e | []]; [reflexivity |].
  unfold bind at 1.
  rewrite (run_eta (Monitor.monitor_each cfg clock fromisoformat mqtt_client
                      containers _)).
  rewrite each_returns. reflexivity.
Qed.

End Summary.

(** The loop publishes nothing that could be taken for the summary. *)
Lemma each_never_summary cfg clock fromisoformat mqtt_client containers s
  (payload : string) (retain : bool) :
  ~ In (Publish (summary_topic cfg) payload retain)
      (trace (Monitor.monitor_each cfg clock fromisoformat mqtt_client containers s)).
Proof.
  intros Hin.
  pose proof (each_events cfg clock fromisoformat mqtt_client containers s) as Hall.
  rewrite Forall_forall in Hall.
  destruct (Hall _ Hin) as (c & _ & Hev). cbn in Hev. destruct Hev as [Ht _].
  exact (state_topic_not_summary cfg c (eq_sym Ht)).
Qed.

(** C1.  In every poll cycle, a message published on the summary topic
    carries the number of containers the enumeration with [all=True]
    returned as total, the number of those whose status equals "running" as
    running, and total minus running as stopped. *)
Theorem fleet_summary_counts :
  forall cfg clock fromisoformat (docker_client : DockerClient)
         (mqtt_client : option Client) (s : nat)
         (topic payload : string) (retain : bool),
    In (Publish topic payload retain)
      (trace (Monitor.monitor_containers cfg clock fromisoformat
                docker_client mqtt_client s)) ->
    topic = summary_topic cfg ->
    exists containers total running stopped stamp,
      containers_list docker_client true = inr containers /\
      payload = json_dumps (fleet_summary cfg total running stopped stamp) /\
      total = len containers /\
      running = len (filter is_running containers) /\
      stopped = total - running /\
      retain = true.
Proof.
  intros cfg clock fromisoformat docker_client mqtt_client s topic payload retain
    Hin ->.
  rewrite monitor_containers_run in Hin.
  destruct (containers_list docker_client true) as [e | containers].
  - destruct Hin as [H | []]. discriminate H.
  - cbv zeta in Hin. rewrite publish_summary_run in Hin. cbv zeta in Hin.
    assert (Hloop : forall s',
      In (Publish (summary_topic cfg) payload retain)
        (trace (Monitor.monitor_each cfg clock fromisoformat mqtt_client
                  containers s') ++ [updated_log containers]) -> False).
    { intros s' H. apply in_app_or in H. destruct H as [H | [H | []]].
      - exact (each_never_summary _ _ _ _ _ _ _ _ H).
      - discriminate H. }
    destruct mqtt_client as [client |].
    + destruct (refuses client _ _) as [e |];
        cbn [outcome trace final fst snd app In] in Hin.
      * destruct Hin as [H | [H | []]]; discriminate H.
      * destruct Hin as [H | [H | [H | Hin]]]; try discriminate H.
        -- inversion H; subst. clear H.
           eexists containers, _, _, _, _. repeat split; reflexivity.
        -- exfalso. exact (Hloop _ Hin).
    + destruct (Monitor.DEBUG cfg);
        cbn [outcome trace final fst snd app In] in Hin.
      * destruct Hin as [H | [H | Hin]]; try discriminate H.
        exfalso. exact (Hloop _ Hin).
      * destruct Hin as [H | Hin]; try discriminate H.
        exfalso. exact (Hloop _ Hin).
Qed.

(** C1 at a cycle over three containers, two of them running. *)
Lemma fleet_summary_counts_witness :
  exists containers total running stopped stamp,
    containers_list (daemon fleet) true = inr containers /\
    json_dumps (fleet_summary monitor_config 3 2 1 "2024-01-01T00:00:00") =
    json_dumps (fleet_summary monitor_config total running stopped stamp) /\
    total = len containers /\
    running = len (filter is_running containers) /\
    stopped = total - running /\
    true = true.
Proof.
  apply (fleet_summary_counts monitor_config clock_2024
           Datetime.fromisoformat_seconds (daemon fleet) (Some broker) 0%nat
           "docker/docker_host/summary").
  - vm_compute. right. left. reflexivity.
  - reflexivity.
Defined.

(** C8.  A poll cycle either publishes nothing, or its trace is cut by the
    publish of the summary on [docker/<DEVICE_ID>/summary]: nothing is
    published before it, and every publish after it is the retained state
    message of an enumerated container, on a topic that is not the summary
    topic.  Over three containers the topics come out in this order:
    summary, then the containers as enumerated. *)
Theorem summary_precedes_states :
  (forall cfg clock fromisoformat (docker_client : DockerClient)
          (mqtt_client : option Client) (s : nat),
      let t := trace (Monitor.monitor_containers cfg clock fromisoformat
                        docker_client mqtt_client s) in
      publishes t = [] \/
      exists containers before payload after,
        containers_list docker_client true = inr containers /\
        t = (before ++ Publish (summary_topic cfg) payload true :: after)%list /\
        Forall not_publish before /\
        Forall (state_message_of cfg containers) after /\
        (forall c, state_topic cfg c <> summary_topic cfg)) /\
  topics (trace (Monitor.monitor_containers monitor_config clock_2024
                   Datetime.fromisoformat_seconds (daemon fleet)
                   (Some broker) 0%nat)) =
  ["docker/docker_host/summary";
   "docker/docker_host/web/state";
   "docker/docker_host/db/state";
   "docker/docker_host/cache/state"].
Proof.
  split; [| vm_compute; reflexivity].
  intros cfg clock fromisoformat docker_client mqtt_client s t. subst t.
  rewrite monitor_containers_run.
  destruct (containers_list docker_client true) as [e | containers];
    [left; reflexivity |].
  cbv zeta. rewrite publish_summary_run. cbv zeta.
  destruct mqtt_client as [client |].
  - destruct (refuses client _ _) as [e |]; cbn [outcome trace final fst snd];
      [left; reflexivity |].
    right. eexists containers, [monitoring_log containers], _, _.
    split; [reflexivity |]. split; [reflexivity |].
    split; [repeat constructor |].
    split; [| apply state_topic_not_summary].
    cbn [app]. constructor; [exact I |].
    apply Forall_app. split; [| repeat constructor].
    apply each_state_messages.
  - left.
    pose proof (each_quiet_offline cfg clock fromisoformat containers (S s))
      as Hloop.
    apply publishes_none.
    destruct (Monitor.DEBUG cfg); cbn [outcome trace final fst snd app];
      repeat match goal with
             | |- Forall _ (_ :: _) => constructor; [reflexivity |]
             end;
      (apply Forall_app; split; [exact Hloop | repeat constructor]).
Qed.

(** C6.  Take a poll cycle that reaches its loop (the enumeration returned
    and the summary step did not raise) and a container of it whose refresh
    or whose reads raise [e].  The exception is caught and logged: the
    container contributes the one error line of [get_container_state] and
    nothing else, so no message at all is published for it.  The containers
    before it and after it are processed as the loop over them alone
    processes them.  Each of them whose state is read has its message
    published when a connected client takes it, and has the line of its dry
    run logged in debug mode. *)
Theorem failing_container_is_isolated :
  forall cfg clock fromisoformat (docker_client : DockerClient)
         (mqtt_client : option Client) (s : nat)
         (before after : list Container) (failing : Container) (e : exn),
    let all := (before ++ failing :: after)%list in
    let each := Monitor.monitor_each cfg clock fromisoformat mqtt_client in
    let summary := Monitor.publish_summary cfg clock mqtt_client all s in
    let cycle := Monitor.monitor_containers cfg clock fromisoformat
                   docker_client mqtt_client s in
    containers_list docker_client true = inr all ->
    outcome summary = inr tt ->
    refresh_and_read failing = inl e ->
    trace cycle =
    (monitoring_log all :: trace summary ++
     (trace (each before (S s)) ++
      [state_error_log failing e] ++
      trace (each after (final (each before (S s))))) ++
     [updated_log all])%list /\
    trace (each (before ++ after)%list (S s)) =
    (trace (each before (S s)) ++
     trace (each after (final (each before (S s)))))%list /\
    outcome cycle = inr tt /\
    (forall c state health image started_at,
        In c (before ++ after) ->
        refresh_and_read c = inr (state, health, image, started_at) ->
        (forall client,
            mqtt_client = Some client ->
            (forall payload, refuses client (state_topic cfg c) payload = None) ->
            exists payload,
              In (Publish (state_topic cfg c) payload true) (trace cycle)) /\
        (mqtt_client = None ->
         Monitor.DEBUG cfg = true ->
         exists shown, In (dry_run_log cfg c shown) (trace cycle))).
Proof.
  intros cfg clock fromisoformat docker_client mqtt_client s before after
    failing e all each summary cycle Hlist Hsum Hfail.
  assert (Hfinal : final summary = S s).
  { subst summary. rewrite publish_summary_run. cbv zeta.
    destruct mqtt_client as [client |].
    - destruct (refuses client _ _); reflexivity.
    - destruct (Monitor.DEBUG cfg); reflexivity. }
  assert (Hloop : trace (each all (S s)) =
                  (trace (each before (S s)) ++ [state_error_log failing e] ++
                   trace (each after (final (each before (S s)))))%list).
  { subst all each.
    destruct (each_app cfg clock fromisoformat mqtt_client before
                (failing :: after) (S s)) as [Ht _].
    rewrite Ht, each_cons_trace.
    rewrite (guarded_unavailable cfg clock fromisoformat mqtt_client failing e _ Hfail).
    reflexivity. }
  assert (Hcycle : cycle =
                   ((monitoring_log all :: trace summary ++
                     trace (each all (S s)) ++ [updated_log all])%list,
                    final (each all (S s)), inr tt)).
  { subst cycle. rewrite monitor_containers_run, Hlist. cbv zeta.
    fold summary. rewrite Hsum, Hfinal. reflexivity. }
  rewrite Hcycle. cbn [trace outcome fst snd]. rewrite Hloop.
  split; [reflexivity |].
  split; [exact (proj1 (each_app cfg clock fromisoformat mqtt_client before after (S s))) |].
  split; [reflexivity |].
  intros c state health image started_at Hin Hread.
  assert (Hin' : In c all).
  { subst all. apply in_or_app. apply in_app_or in Hin.
    destruct Hin; [left | right; right]; assumption. }
  assert (Hev : forall ev, In ev (trace (each all (S s))) ->
            In ev (monitoring_log all :: trace summary ++
                   (trace (each before (S s)) ++ [state_error_log failing e] ++
                    trace (each after (final (each before (S s))))) ++
                   [updated_log all])).
  { intros ev Hp. right. apply in_or_app. right. apply in_or_app. left.
    rewrite Hloop in Hp. exact Hp. }
  split.
  - intros client Hclient Hacc.
    destruct (each_publishes cfg clock fromisoformat mqtt_client all c client
                state health image started_at (S s) Hclient Hacc Hread Hin')
      as [payload Hp].
    exists payload. apply Hev. exact Hp.
  - intros Hclient Hdebug.
    destruct (each_dry_runs cfg clock fromisoformat mqtt_client all c
                state health image started_at (S s) Hclient Hdebug Hread Hin')
      as [shown Hp].
    exists shown. apply Hev. exact Hp.
Qed.

(** C6 at a cycle over a running container, a container that is gone and a
    container that was never started. *)
Lemma failing_container_is_isolated_witness :
  let cycle := Monitor.monitor_containers monitor_config clock_2024
                 Datetime.fromisoformat_seconds
                 (daemon [handle "web" [("Status", JStr "running")] "nginx:1.25" [];
                          vanished "gone";
                          handle "job" [] "busybox" []])
                 (Some broker) 0%nat in
  In (state_error_log (vanished "gone")
        (LibraryError "404 Client Error: Not Found")) (trace cycle) /\
  exists payload,
    In (Publish "docker/docker_host/job/state" payload true) (trace cycle).
Proof.
  intros cycle.
  destruct (failing_container_is_isolated monitor_config clock_2024
              Datetime.fromisoformat_seconds
              (daemon [handle "web" [("Status", JStr "running")] "nginx:1.25" [];
                       vanished "gone";
                       handle "job" [] "busybox" []])
              (Some broker) 0%nat
              [handle "web" [("Status", JStr "running")] "nginx:1.25" []]
              [handle "job" [] "busybox" []]
              (vanished "gone") (LibraryError "404 Client Error: Not Found")
              eq_refl eq_refl eq_refl) as (Ht & _ & _ & Hp).
  split.
  - subst cycle. rewrite Ht. right. apply in_or_app. right.
    apply in_or_app. left. apply in_or_app. right. left. reflexivity.
  - apply (proj1 (Hp (handle "job" [] "busybox" [])
                    (JDict []) (JStr "N/A") (JStr "busybox") (JStr "")
                    (or_intror (or_introl eq_refl)) eq_refl) broker).
    + reflexivity.
    + reflexivity.
Defined.

(** ** The discovery publisher *)

Lemma sanitize_replace (n : string) :
  replace "." "_" (replace "-" "_" n) = sanitize n.
Proof.
  induction n as [| c rest IH]; [reflexivity |].
  cbn [replace sanitize].
  destruct (Ascii.eqb_spec c "-") as [-> | Hd].
  - cbn. rewrite IH. reflexivity.
  - cbn [replace orb]. rewrite IH.
    destruct (Ascii.eqb c "."); reflexivity.
Qed.

Lemma image_name_and_tag_pure (c : Container) (s : nat) :
  Discovery.image_name_and_tag c s =
  ([], s, outcome (Discovery.image_name_and_tag c 0%nat)).
Proof.
  unfold Discovery.image_name_and_tag, Discovery.image_resolution,
    try_except, bind, lift, ret, raise, outcome.
  destruct (image_tags c 0%nat) as [e | [| t0 r0]]; cbn [fst snd app].
  - destruct (getitem (attrs c) "Config") as [e' | config]; [reflexivity |].
    destruct (getitem config "Image"); reflexivity.
  - destruct (getitem (attrs c) "Config") as [e' | config]; [reflexivity |].
    destruct (getitem config "Image") as [e' | image]; [reflexivity |].
    destruct (contains ":" image) as [e' | [|]]; [reflexivity | | reflexivity].
    destruct (str_rsplit image ":") as [e' | parts]; [reflexivity |].
    destruct (unpack2 parts); reflexivity.
  - destruct (image_tags c 1%nat) as [e | [| t r]]; cbn [fst snd app].
    + destruct (getitem (attrs c) "Config") as [e' | config]; [reflexivity |].
      destruct (getitem config "Image"); reflexivity.
    + destruct (getitem (attrs c) "Config") as [e' | config]; [reflexivity |].
      destruct (getitem config "Image"); reflexivity.
    + cbn [contains str_rsplit]. destruct (substring_in ":" t); [| reflexivity].
      destruct (unpack2 _); [| reflexivity].
      destruct (getitem (attrs c) "Config") as [e' | config]; [reflexivity |].
      destruct (getitem config "Image"); reflexivity.
Qed.

Lemma publish_container_discovery_run cfg mqtt_client c s :
  Discovery.publish_container_discovery cfg mqtt_client c s =
  if is_None mqtt_client && Discovery.DEBUG cfg then
    ([would_publish_log c], s, inr tt)
  else
    match outcome (Discovery.image_name_and_tag c 0%nat) with
    | inl e => ([], s, inl e)
    | inr _ =>
        publish_with_log mqtt_client c (container_descriptors cfg (name c)) s
    end.
Proof.
  unfold Discovery.publish_container_discovery.
  destruct (is_None mqtt_client && Discovery.DEBUG cfg); [reflexivity |].
  cbv zeta. unfold bind at 1. rewrite image_name_and_tag_pure.
  destruct (outcome _) as [e | [image_name image_tag]]; [reflexivity |].
  rewrite !sanitize_replace.
  unfold container_descriptors, publish_with_log, publish_list, config_topic,
    unique_prefix, container_state_topic, sentrylab_version_message,
    fleet_state_topic, sensor, binary_sensor, published_log.
  cbv zeta. cbn [fst snd].
  rewrite !append_assoc.
  match goal with
  | |- (let (p, r) := ?X in _) = ?Y => change X with Y; destruct Y as [[t2 s2] r]
  end.
  reflexivity.
Qed.

Lemma publish_summary_discovery_run cfg mqtt_client s :
  Discovery.publish_summary_discovery cfg mqtt_client s =
  if is_None mqtt_client && Discovery.DEBUG cfg then
    ([Log LvlDebug "DEBUG: Would publish summary discovery" NoArg], s, inr tt)
  else publish_list mqtt_client (fleet_descriptors cfg) s.
Proof.
  unfold Discovery.publish_summary_discovery.
  destruct (is_None mqtt_client && Discovery.DEBUG cfg); [reflexivity |].
  unfold fleet_descriptors, publish_list, sentrylab_version_message,
    fleet_state_topic, sensor.
  cbv zeta. cbn [fst snd].
  reflexivity.
Qed.

Lemma publish_list_cons mqtt_client msg rest s :
  publish_list mqtt_client (msg :: rest) s =
  bind (publish_on mqtt_client (fst msg) (json_dumps (snd msg)) true)
    (fun _ => publish_list mqtt_client rest) s.
Proof.
  destruct rest as [| msg' rest]; [| reflexivity].
  cbn [publish_list]. unfold bind.
  destruct (publish_on mqtt_client _ _ _ s) as [[t s1] [e | []]];
    [reflexivity |].
  cbn. rewrite app_nil_r. reflexivity.
Qed.

Lemma publish_list_accepting client msgs s :
  accepts_all client ->
  publish_list (Some client) msgs s = (map to_event msgs, s, inr tt).
Proof.
  intros Hacc. induction msgs as [| msg rest IH]; [reflexivity |].
  rewrite publish_list_cons. unfold bind, publish_on, publish.
  rewrite Hacc. cbn [emit]. rewrite IH. reflexivity.
Qed.

(** Whatever the client does, what gets published is a first part of the
    list, in order, and nothing else happens. *)
Lemma publish_list_prefix mqtt_client msgs s :
  exists k, trace (publish_list mqtt_client msgs s) = firstn k (map to_event msgs).
Proof.
  induction msgs as [| msg rest IH]; [exists 0%nat; reflexivity |].
  rewrite publish_list_cons. unfold bind, publish_on.
  destruct mqtt_client as [client |]; [| exists 0%nat; reflexivity].
  unfold publish. destruct (refuses client _ _); [exists 0%nat; reflexivity |].
  cbn [emit]. destruct IH as [k Hk].
  destruct (publish_list (Some client) rest s) as [[t2 s2] r].
  cbn [trace fst] in *. exists (S k). cbn. rewrite Hk. reflexivity.
Qed.

Lemma publishes_to_events msgs : publishes (map to_event msgs) = map to_event msgs.
Proof.
  induction msgs as [| msg rest IH]; [reflexivity |].
  unfold publishes in *. cbn. rewrite IH. reflexivity.
Qed.

Lemma publishes_firstn k msgs :
  publishes (firstn k (map to_event msgs)) = firstn k (map to_event msgs).
Proof.
  rewrite firstn_map. apply publishes_to_events.
Qed.

Lemma publish_with_log_prefix mqtt_client c msgs s :
  exists k,
    publishes (trace (publish_with_log mqtt_client c msgs s)) =
    firstn k (map to_event msgs).
Proof.
  destruct msgs as [| first rest]; [exists 0%nat; reflexivity |].
  unfold publish_with_log, bind, publish_on.
  destruct mqtt_client as [client |]; [| exists 0%nat; reflexivity].
  unfold publish. destruct (refuses client _ _); [exists 0%nat; reflexivity |].
  cbn [emit]. destruct (publish_list_prefix (Some client) rest s) as [k Hk].
  destruct (publish_list (Some client) rest s) as [[t2 s2] r].
  cbn [trace fst] in *. exists (S k). subst t2.
  cbn. rewrite publishes_firstn. reflexivity.
Qed.

Lemma publish_with_log_accepting client c msgs s :
  accepts_all client ->
  outcome (publish_with_log (Some client) c msgs s) = inr tt /\
  final (publish_with_log (Some client) c msgs s) = s /\
  publishes (trace (publish_with_log (Some client) c msgs s)) = map to_event msgs.
Proof.
  intros Hacc. destruct msgs as [| first rest]; [repeat split |].
  unfold publish_with_log, bind, publish_on, publish. rewrite Hacc.
  cbn [emit]. rewrite (publish_list_accepting _ _ _ Hacc).
  repeat split. cbn. rewrite publishes_to_events. reflexivity.
Qed.

Lemma configured_image_resolves (c : Container) :
  has_configured_image c ->
  exists x, outcome (Discovery.image_name_and_tag c 0%nat) = inr x.
Proof.
  intros (config & image & Hc & Hi).
  unfold Discovery.image_name_and_tag, Discovery.image_resolution,
    try_except, bind, lift, ret, raise, outcome.
  rewrite Hc, Hi.
  destruct (image_tags c 0%nat) as [e | [| t0 r0]]; cbn [fst snd app].
  - eexists; reflexivity.
  - destruct (contains ":" image) as [e' | [|]]; try (eexists; reflexivity).
    destruct (str_rsplit image ":") as [e' | parts]; [eexists; reflexivity |].
    destruct (unpack2 parts); eexists; reflexivity.
  - destruct (image_tags c 1%nat) as [e | [| t r]]; cbn [fst snd app];
      try (eexists; reflexivity).
    cbn [contains str_rsplit]. destruct (substring_in ":" t); [| eexists; reflexivity].
    destruct (unpack2 _); eexists; reflexivity.
Qed.

Section Discover.

Variable cfg : Discovery.Config.
Variable mqtt_client : option Client.

(** The guarded call in the loop of [main]. *)
Let guarded (c : Container) : M unit :=
  try_except (Discovery.publish_container_discovery cfg mqtt_client c)
    (fun e => log LvlError ("Error publishing discovery for " ++ name c ++ ": ") (Exc e)).

Lemma discovery_guarded_returns c s : outcome (guarded c s) = inr tt.
Proof.
  unfold guarded, try_except, outcome.
  destruct (Discovery.publish_container_discovery cfg mqtt_client c s)
    as [[t s1] [e | []]]; reflexivity.
Qed.

Lemma discovery_guarded_final c s : final (guarded c s) = s.
Proof.
  unfold guarded, try_except, final.
  rewrite publish_container_discovery_run.
  destruct (is_None mqtt_client && Discovery.DEBUG cfg); [reflexivity |].
  destruct (outcome (Discovery.image_name_and_tag c 0%nat)) as [e | x];
    [reflexivity |].
  assert (H : forall msgs s', final (publish_list mqtt_client msgs s') = s').
  { induction msgs as [| msg rest IH]; intros s'; [reflexivity |].
    rewrite publish_list_cons. unfold bind, publish_on.
    destruct mqtt_client as [client |]; [| reflexivity].
    unfold publish. destruct (refuses client _ _); [reflexivity |].
    cbn [emit]. specialize (IH s').
    destruct (publish_list (Some client) rest s') as [[t2 s2] r].
    exact IH. }
  unfold container_descriptors, publish_with_log. cbv zeta.
  unfold bind at 1. unfold publish_on.
  destruct mqtt_client as [client |]; [| reflexivity].
  unfold publish. destruct (refuses client _ _); [reflexivity |].
  cbn [emit]. unfold bind, emit. 
  match goal with
  | |- context [publish_list ?m ?l ?s'] =>
      pose proof (H l s') as H'; destruct (publish_list m l s') as [[t2 s2] [e | []]]
  end; exact H'.
Qed.

Let loop := discovery_loop cfg mqtt_client.

Lemma loop_cons c rest s :
  loop (c :: rest) s =
  ((trace (guarded c s) ++ trace (loop rest s))%list, final (loop rest s),
   outcome (loop rest s)).
Proof.
  unfold loop, discovery_loop. cbn [for_each]. fold (guarded c).
  rewrite (bind_returns _ _ s (trace (guarded c s)) s tt).
  - reflexivity.
  - rewrite <- (discovery_guarded_final c s) at 3.
    rewrite <- (discovery_guarded_returns c s). apply run_eta.
Qed.

Lemma loop_returns containers s :
  outcome (loop containers s) = inr tt /\ final (loop containers s) = s.
Proof.
  induction containers as [| c rest IH]; [split; reflexivity |].
  rewrite loop_cons. exact IH.
Qed.

Lemma loop_prefixes containers s :
  exists ks,
    List.length ks = List.length containers /\
    publishes (trace (loop containers s)) =
    concat (map (fun '(k, c) =>
                   firstn k (map to_event (container_descriptors cfg (name c))))
              (combine ks containers)).
Proof.
  induction containers as [| c rest IH]; [exists []; split; reflexivity |].
  destruct IH as (ks & Hlen & Hks).
  rewrite loop_cons. cbn [trace fst]. rewrite publishes_app, Hks.
  assert (Hc : exists k, publishes (trace (guarded c s)) =
                         firstn k (map to_event (container_descriptors cfg (name c)))).
  { unfold guarded, try_except. rewrite publish_container_discovery_run.
    destruct (is_None mqtt_client && Discovery.DEBUG cfg);
      [exists 0%nat; reflexivity |].
    destruct (outcome (Discovery.image_name_and_tag c 0%nat)) as [e | x];
      [exists 0%nat; reflexivity |].
    destruct (publish_with_log_prefix mqtt_client c
                (container_descriptors cfg (name c)) s) as [k Hk].
    exists k.
    destruct (publish_with_log mqtt_client c _ s) as [[t s1] [e | []]];
      cbn [trace fst] in *; [| exact Hk].
    unfold log, emit. cbn [trace fst]. rewrite publishes_app, Hk.
    cbn. apply app_nil_r. }
  destruct Hc as [k Hk]. exists (k :: ks). split; [cbn; now rewrite Hlen |].
  rewrite Hk. reflexivity.
Qed.

End Discover.

Lemma container_discovery_prefix cfg mqtt_client c s :
  exists k,
    publishes (trace (Discovery.publish_container_discovery cfg mqtt_client c s)) =
    firstn k (map to_event (container_descriptors cfg (name c))).
Proof.
  rewrite publish_container_discovery_run.
  destruct (is_None mqtt_client && Discovery.DEBUG cfg);
    [exists 0%nat; reflexivity |].
  destruct (outcome (Discovery.image_name_and_tag c 0%nat)) as [e | x];
    [exists 0%nat; reflexivity |].
  apply publish_with_log_prefix.
Qed.

Lemma container_discovery_complete cfg client c s :
  accepts_all client ->
  has_configured_image c ->
  outcome (Discovery.publish_container_discovery cfg (Some client) c s) = inr tt /\
  publishes (trace (Discovery.publish_container_discovery cfg (Some client) c s)) =
  map to_event (container_descriptors cfg (name c)).
Proof.
  intros Hacc Himg. rewrite publish_container_discovery_run.
  cbn [is_None andb].
  destruct (configured_image_resolves c Himg) as [x ->].
  destruct (publish_with_log_accepting client c
              (container_descriptors cfg (name c)) s Hacc) as (Ho & _ & Hp).
  split; assumption.
Qed.

Lemma loop_complete cfg client containers s :
  accepts_all client ->
  Forall has_configured_image containers ->
  publishes (trace (discovery_loop cfg (Some client) containers s)) =
  map to_event (flat_map (fun c => container_descriptors cfg (name c)) containers).
Proof.
  intros Hacc Hall.
  induction Hall as [| c rest Hc _ IH]; [reflexivity |].
  rewrite loop_cons. cbn [trace fst flat_map]. rewrite publishes_app, IH, map_app.
  f_equal.
  destruct (container_discovery_complete cfg client c s Hacc Hc) as [Hout Hp].
  unfold try_except.
  rewrite (run_eta (Discovery.publish_container_discovery cfg (Some client) c s)).
  rewrite Hout. exact Hp.
Qed.

Lemma discover_complete cfg client containers s :
  accepts_all client ->
  Forall has_configured_image containers ->
  outcome (Discovery.discover cfg (Some client) containers s) = inr tt /\
  final (Discovery.discover cfg (Some client) containers s) = s /\
  publishes (trace (Discovery.discover cfg (Some client) containers s)) =
  map to_event (all_descriptors cfg containers).
Proof.
  intros Hacc Hall.
  assert (E : Discovery.discover cfg (Some client) containers s =
              ((map to_event (fleet_descriptors cfg) ++
                trace (discovery_loop cfg (Some client) containers s))%list, s, inr tt)).
  { unfold Discovery.discover, bind.
    rewrite publish_summary_discovery_run. cbn [is_None andb].
    rewrite (publish_list_accepting _ _ _ Hacc).
    fold (discovery_loop cfg (Some client) containers).
    destruct (loop_returns cfg (Some client) containers s) as [Ho Hf].
    rewrite (run_eta (discovery_loop cfg (Some client) containers s)), Ho, Hf.
    reflexivity. }
  rewrite E. unfold all_descriptors.
  cbn [outcome final trace fst snd]. split; [reflexivity |]. split; [reflexivity |].
  rewrite publishes_app, publishes_to_events, map_app. f_equal.
  apply loop_complete; assumption.
Qed.

Lemma main_publishes cfg docker_client client containers s :
  Discovery.DEBUG cfg = false ->
  containers_list docker_client true = inr containers ->
  accepts_all client ->
  Forall has_configured_image containers ->
  outcome (Discovery.main cfg (inr docker_client) (inr client) s) = inr tt /\
  publishes (trace (Discovery.main cfg (inr docker_client) (inr client) s)) =
  map to_event (all_descriptors cfg containers).
Proof.
  intros Hd Hlist Hacc Hall.
  destruct (discover_complete cfg client containers s Hacc Hall) as (Ho & Hf & Hp).
  unfold Discovery.main, Discovery.setup_mqtt. rewrite Hd.
  change (sleep 2) with (emit (Sleep 2)).
  unfold try_except, bind, log, emit, lift, ret.
  cbn [is_None]. rewrite Hlist.
  rewrite (run_eta (Discovery.discover cfg (Some client) containers s)), Ho, Hf.
  cbn [outcome trace fst snd app]. split; [reflexivity |].
  unfold publishes in *. cbn [filter is_publish].
  rewrite filter_app, Hp. cbn [filter is_publish]. apply app_nil_r.
Qed.

Lemma discover_debug_quiet cfg containers :
  Discovery.DEBUG cfg = true ->
  emits_only not_publish (Discovery.discover cfg None containers).
Proof.
  intros Hd. unfold Discovery.discover.
  apply emits_only_bind.
  - intros s. rewrite publish_summary_discovery_run. cbn [is_None andb].
    rewrite Hd. repeat constructor.
  - intros _. apply emits_only_for_each. intros c _.
    apply emits_only_try_except; [| intros e; apply emits_only_log; reflexivity].
    intros s. rewrite publish_container_discovery_run. cbn [is_None andb].
    rewrite Hd. repeat constructor.
Qed.

Lemma main_debug_quiet cfg from_env connect s :
  Discovery.DEBUG cfg = true ->
  publishes (trace (Discovery.main cfg from_env connect s)) = [].
Proof.
  intros Hd. apply publishes_none.
  unfold Discovery.main, Discovery.setup_mqtt. rewrite Hd.
  change (sleep 2) with (emit (Sleep 2)).
  unfold try_except, bind, log, emit, lift, ret, raise.
  destruct from_env as [e | docker_client]; [repeat constructor |].
  cbn [is_None].
  destruct (containers_list docker_client true) as [e | containers];
    [repeat constructor |].
  pose proof (discover_debug_quiet cfg containers Hd s) as Hq.
  destruct (Discovery.discover cfg None containers s) as [[t s1] [e | []]];
    cbn [trace fst snd app] in *;
    repeat match goal with
           | |- Forall _ (_ :: _) => constructor; [reflexivity |]
           end;
    (apply Forall_app; split; [exact Hq | repeat constructor]).
Qed.

Lemma append_inj_r (a x y : string) : x ++ a = y ++ a -> x = y.
Proof.
  revert y. induction x as [| c x IH]; intros [| d y] H; cbn [append] in H.
  - reflexivity.
  - exfalso. apply (f_equal String.length) in H.
    cbn [String.length] in H. rewrite length_append in H. lia.
  - exfalso. apply (f_equal String.length) in H.
    cbn [String.length] in H. rewrite length_append in H. lia.
  - inversion H. f_equal. apply IH. assumption.
Qed.

Section SentrylabTopic.

Variable cfg : Discovery.Config.

Let vt : string := fst (sentrylab_version_message cfg).

Lemma status_topic_differs (uid : string) :
  config_topic cfg "binary_sensor" uid <> vt.
Proof.
  unfold vt, config_topic, sentrylab_version_message. cbn [fst].
  intros H. apply append_inj_l in H. discriminate H.
Qed.

Lemma prefixed_topic_differs (n suffix : string) :
  config_topic cfg "sensor" (unique_prefix cfg n ++ suffix) <> vt.
Proof.
  unfold vt, config_topic, sentrylab_version_message, unique_prefix. cbn [fst].
  intros H. apply append_inj_l in H. discriminate H.
Qed.

Lemma version_topic_differs (n : string) :
  Discovery.HA_BASE_TOPIC cfg ++ "/sensor/docker_" ++ sanitize n ++
  "/version/config" <> vt.
Proof.
  unfold vt, sentrylab_version_message. cbn [fst].
  intros H. apply append_inj_l in H. apply append_inj_l in H.
  change (sanitize n ++ "/version/config")
    with (sanitize n ++ "/" ++ "version/config") in H.
  change (Discovery.DEVICE_ID cfg ++ "/sentrylab_version/config")
    with (Discovery.DEVICE_ID cfg ++ "/sentrylab_" ++ "version/config") in H.
  rewrite <- !append_assoc in H. apply append_inj_r in H.
  apply (f_equal (ends_with "_")) in H.
  rewrite !ends_with_append in H by discriminate. discriminate H.
Qed.

Lemma fleet_topic_differs (leaf : string) :
  leaf <> "sentrylab_version" ->
  Discovery.HA_BASE_TOPIC cfg ++ "/sensor/docker_" ++ Discovery.DEVICE_ID cfg ++
  "/" ++ leaf ++ "/config" <> vt.
Proof.
  unfold vt, sentrylab_version_message. cbn [fst].
  intros Hleaf H. apply append_inj_l in H. apply append_inj_l in H.
  apply append_inj_l in H.
  change "/sentrylab_version/config" with ("/" ++ "sentrylab_version" ++ "/config") in H.
  apply append_inj_l in H. apply append_inj_r in H. contradiction.
Qed.

Lemma count_container_descriptors (n : string) :
  count_topic vt (map to_event (container_descriptors cfg n)) = 1%nat.
Proof.
  unfold container_descriptors, count_topic. cbv zeta.
  cbn [map to_event fst snd filter].
  rewrite (string_eqb_false _ _ (status_topic_differs _)).
  rewrite !(string_eqb_false _ _ (prefixed_topic_differs _ _)).
  rewrite (string_eqb_false _ _ (version_topic_differs _)).
  fold vt. rewrite String.eqb_refl. reflexivity.
Qed.

Lemma count_fleet_descriptors :
  count_topic vt (map to_event (fleet_descriptors cfg)) = 1%nat.
Proof.
  unfold fleet_descriptors, count_topic. cbv zeta.
  cbn [map to_event fst snd filter].
  rewrite (string_eqb_false _ _ (fleet_topic_differs "total" ltac:(discriminate))).
  rewrite (string_eqb_false _ _ (fleet_topic_differs "running" ltac:(discriminate))).
  rewrite (string_eqb_false _ _ (fleet_topic_differs "stopped" ltac:(discriminate))).
  fold vt. rewrite String.eqb_refl. reflexivity.
Qed.

End SentrylabTopic.

Lemma count_topic_app topic t1 t2 :
  count_topic topic (t1 ++ t2) = (count_topic topic t1 + count_topic topic t2)%nat.
Proof. unfold count_topic. rewrite filter_app. apply length_app. Qed.

Lemma count_topic_publishes topic t :
  count_topic topic (publishes t) = count_topic topic t.
Proof.
  unfold count_topic, publishes.
  induction t as [| [tp p r | lvl msg arg | n] rest IH]; cbn [filter is_publish];
    [reflexivity | | exact IH | exact IH].
  destruct (String.eqb tp topic); cbn [List.length]; now rewrite IH.
Qed.

Lemma count_all_descriptors cfg containers :
  count_topic (fst (sentrylab_version_message cfg))
    (map to_event (all_descriptors cfg containers)) =
  (List.length containers + 1)%nat.
Proof.
  unfold all_descriptors. rewrite map_app, count_topic_app, count_fleet_descriptors.
  induction containers as [| c rest IH]; [reflexivity |].
  cbn [flat_map List.length]. rewrite map_app, count_topic_app in *.
  rewrite count_container_descriptors. lia.
Qed.

(** A descriptor on the topic of the SentryLab-version descriptor is that
    descriptor. *)
Lemma on_sentrylab_topic cfg containers (msg : string * json) :
  In msg (all_descriptors cfg containers) ->
  fst msg = fst (sentrylab_version_message cfg) ->
  msg = sentrylab_version_message cfg.
Proof.
  unfold all_descriptors. intros Hin Ht. apply in_app_or in Hin.
  destruct Hin as [Hin | Hin].
  - unfold fleet_descriptors in Hin. cbv zeta in Hin. cbn [In] in Hin.
    destruct Hin as [<- | [<- | [<- | [<- | []]]]]; cbn [fst] in Ht;
      try reflexivity; exfalso.
    + exact (fleet_topic_differs cfg "total" ltac:(discriminate) Ht).
    + exact (fleet_topic_differs cfg "running" ltac:(discriminate) Ht).
    + exact (fleet_topic_differs cfg "stopped" ltac:(discriminate) Ht).
  - apply in_flat_map in Hin. destruct Hin as (c & _ & Hin).
    unfold container_descriptors in Hin. cbv zeta in Hin. cbn [In] in Hin.
    destruct Hin as [<- | [<- | [<- | [<- | [<- | [<- | [<- | []]]]]]]];
      cbn [fst] in Ht; try reflexivity; exfalso.
    + exact (status_topic_differs cfg _ Ht).
    + exact (prefixed_topic_differs cfg _ _ Ht).
    + exact (prefixed_topic_differs cfg _ _ Ht).
    + exact (prefixed_topic_differs cfg _ _ Ht).
    + exact (prefixed_topic_differs cfg _ _ Ht).
    + exact (version_topic_differs cfg _ Ht).
Qed.

Lemma in_firstn {A : Type} (k : nat) (l : list A) (x : A) :
  In x (firstn k l) -> In x l.
Proof.
  revert l. induction k as [| k IH]; intros [| y l] H; cbn in H; try contradiction.
  destruct H as [-> | H]; [left; reflexivity | right; apply IH; exact H].
Qed.

(** Whatever the clients do, a run publishes only descriptors of the run. *)
Lemma discover_publishes_known cfg mqtt_client containers s ev :
  In ev (publishes (trace (Discovery.discover cfg mqtt_client containers s))) ->
  In ev (map to_event (all_descriptors cfg containers)).
Proof.
  unfold Discovery.discover, all_descriptors, bind.
  rewrite publish_summary_discovery_run. rewrite map_app.
  fold (discovery_loop cfg mqtt_client containers).
  assert (Hloop : forall s', In ev (publishes (trace (discovery_loop cfg mqtt_client containers s'))) ->
            In ev (map to_event (flat_map (fun c => container_descriptors cfg (name c))
                                   containers))).
  { intros s' H.
    destruct (loop_prefixes cfg mqtt_client containers s') as (ks & _ & Hks).
    rewrite Hks in H. clear Hks. revert ks H.
    induction containers as [| c rest IH]; intros [| k ks] H; cbn in H;
      try contradiction.
    apply in_app_or in H. cbn [flat_map]. rewrite map_app. apply in_or_app.
    destruct H as [H | H]; [left; exact (in_firstn _ _ _ H) | right; exact (IH ks H)]. }
  destruct (is_None mqtt_client && Discovery.DEBUG cfg).
  - cbn [trace fst]. intros H.
    destruct (discovery_loop cfg mqtt_client containers s) as [[t2 s2] r] eqn:E.
    cbn [trace fst app] in H. apply in_or_app. right. apply (Hloop s).
    rewrite E. exact H.
  - destruct (publish_list_prefix mqtt_client (fleet_descriptors cfg) s) as [k Hk].
    destruct (publish_list mqtt_client (fleet_descriptors cfg) s)
      as [[t1 s1] [e | []]]; cbn [trace fst] in *; subst t1.
    + rewrite publishes_firstn. intros H. apply in_or_app. left.
      exact (in_firstn _ _ _ H).
    + destruct (discovery_loop cfg mqtt_client containers s1) as [[t2 s2] r] eqn:E.
      cbn [trace fst]. rewrite publishes_app, publishes_firstn. intros H.
      apply in_app_or in H. apply in_or_app.
      destruct H as [H | H]; [left; exact (in_firstn _ _ _ H) |].
      right. apply (Hloop s1). rewrite E. exact H.
Qed.

Lemma emits_only_bind_lift {A B : Type} (P : Event -> Prop) (r : result A)
  (k : A -> M B) :
  (forall a, r = inr a -> emits_only P (k a)) -> emits_only P (bind (lift r) k).
Proof.
  intros H s. unfold bind, lift. destruct r as [e | a]; [constructor |].
  specialize (H a eq_refl s). destruct (k a s) as [[t2 s2] r2]. exact H.
Qed.

Ltac log_line := apply emits_only_log; intros Hpub; discriminate Hpub.

Lemma main_events cfg from_env connect :
  emits_only (known_descriptor cfg from_env) (Discovery.main cfg from_env connect).
Proof.
  unfold Discovery.main.
  apply emits_only_bind; [log_line | intros _].
  apply emits_only_bind; [log_line | intros _].
  apply emits_only_bind;
    [destruct (Discovery.DEBUG cfg); [log_line | apply emits_only_ret] | intros _].
  apply emits_only_try_except.
  2:{ intros e. apply emits_only_bind; [log_line | intros _; apply emits_only_raise]. }
  apply emits_only_bind_lift. intros docker_client Henv.
  apply emits_only_bind; [log_line | intros _].
  apply emits_only_bind.
  { unfold Discovery.setup_mqtt. destruct (Discovery.DEBUG cfg).
    - apply emits_only_bind; [log_line | intros _; apply emits_only_ret].
    - apply emits_only_try_except.
      + apply emits_only_bind; [apply emits_only_lift | intros; apply emits_only_ret].
      + intros e. apply emits_only_bind; [log_line | intros _; apply emits_only_raise]. }
  intros mqtt_client.
  apply emits_only_bind.
  { destruct (is_None mqtt_client); [apply emits_only_ret |].
    apply emits_only_emit. intros Hpub. discriminate Hpub. }
  intros _. apply emits_only_bind_lift. intros containers Hlist.
  apply emits_only_bind; [log_line | intros _].
  apply emits_only_bind.
  { intros s. apply Forall_forall. intros ev Hin Hpub.
    exists docker_client, containers. split; [exact Henv |]. split; [exact Hlist |].
    apply (discover_publishes_known cfg mqtt_client containers s).
    apply filter_In. split; assumption. }
  intros _. apply emits_only_bind; [| intros _; log_line].
  destruct (is_None mqtt_client); [apply emits_only_ret |].
  apply emits_only_emit. intros Hpub. discriminate Hpub.
Qed.

Lemma main_publishes_known cfg from_env connect s ev :
  In ev (publishes (trace (Discovery.main cfg from_env connect s))) ->
  exists docker_client containers,
    from_env = inr docker_client /\
    containers_list docker_client true = inr containers /\
    In ev (map to_event (all_descriptors cfg containers)).
Proof.
  intros H. apply filter_In in H. destruct H as [Hin Hpub].
  pose proof (main_events cfg from_env connect s) as Hall.
  rewrite Forall_forall in Hall. exact (Hall ev Hin Hpub).
Qed.

(** C4.  The sanitised name is the name with every [-] and every [.]
    replaced by [_] ("my-app.v2" gives "my_app_v2").  The seven descriptors
    of a container have these topics and unique ids: the status, state,
    uptime, health and image descriptors carry the unique id
    [sl_docker_<PROXMOX_HOST>_<PROXMOX_VMID>_<sanitised name>] followed by
    their kind and go to [<HA_BASE_TOPIC>/binary_sensor/<unique_id>/config]
    for the status and [<HA_BASE_TOPIC>/sensor/<unique_id>/config] for the
    others; the image-version descriptor carries
    [docker_<sanitised name>_version] and goes to
    [<HA_BASE_TOPIC>/sensor/docker_<sanitised name>/version/config].  What
    [publish_container_discovery] publishes is a first part of these seven,
    in this order, and all seven when the client takes every publish and
    the record carries the configured image. *)
Theorem discovery_naming :
  (forall n, replace "." "_" (replace "-" "_" n) = sanitize n) /\
  sanitize "my-app.v2" = "my_app_v2" /\
  (forall cfg n,
      let ha := Discovery.HA_BASE_TOPIC cfg in
      let p := "sl_docker_" ++ Discovery.PROXMOX_HOST cfg ++ "_" ++
               Discovery.PROXMOX_VMID cfg ++ "_" ++ sanitize n in
      map (fun msg => (fst msg, unique_id_of (snd msg)))
        (container_descriptors cfg n) =
      [(ha ++ "/binary_sensor/" ++ (p ++ "_status") ++ "/config",
        Some (JStr (p ++ "_status")));
       (ha ++ "/sensor/" ++ (p ++ "_state") ++ "/config",
        Some (JStr (p ++ "_state")));
       (ha ++ "/sensor/" ++ (p ++ "_uptime") ++ "/config",
        Some (JStr (p ++ "_uptime")));
       (ha ++ "/sensor/" ++ (p ++ "_health") ++ "/config",
        Some (JStr (p ++ "_health")));
       (ha ++ "/sensor/" ++ (p ++ "_image") ++ "/config",
        Some (JStr (p ++ "_image")));
       (ha ++ "/sensor/docker_" ++ sanitize n ++ "/version/config",
        Some (JStr ("docker_" ++ sanitize n ++ "_version")));
       (ha ++ "/sensor/docker_" ++ Discovery.DEVICE_ID cfg ++
        "/sentrylab_version/config",
        Some (JStr ("docker_" ++ Discovery.DEVICE_ID cfg ++ "_sentrylab_version")))]) /\
  (forall cfg mqtt_client c s,
      exists k,
        publishes (trace (Discovery.publish_container_discovery cfg mqtt_client c s)) =
        firstn k (map to_event (container_descriptors cfg (name c)))) /\
  (forall cfg client c s,
      accepts_all client ->
      has_configured_image c ->
      publishes (trace (Discovery.publish_container_discovery cfg (Some client) c s)) =
      map to_event (container_descriptors cfg (name c))).
Proof.
  split; [exact sanitize_replace |].
  split; [reflexivity |].
  split; [intros cfg n; reflexivity |].
  split; [exact container_discovery_prefix |].
  intros cfg client c s Hacc Himg.
  exact (proj2 (container_discovery_complete cfg client c s Hacc Himg)).
Qed.

Lemma handle_has_configured_image n st image tags :
  has_configured_image (handle n st image tags).
Proof. exists (JDict [("Image", JStr image)]), (JStr image). split; reflexivity. Qed.

Lemma broker_accepts_all : accepts_all broker.
Proof. intros topic payload. reflexivity. Qed.

(** C4 at the container "my-app.v2". *)
Lemma discovery_naming_witness :
  map (fun ev => match ev with Publish t _ _ => t | _ => "" end)
    (publishes (trace (Discovery.publish_container_discovery (discovery_config false)
                         (Some broker) (handle "my-app.v2" [] "busybox" []) 0%nat))) =
  ["homeassistant/binary_sensor/sl_docker_proxmox_0_my_app_v2_status/config";
   "homeassistant/sensor/sl_docker_proxmox_0_my_app_v2_state/config";
   "homeassistant/sensor/sl_docker_proxmox_0_my_app_v2_uptime/config";
   "homeassistant/sensor/sl_docker_proxmox_0_my_app_v2_health/config";
   "homeassistant/sensor/sl_docker_proxmox_0_my_app_v2_image/config";
   "homeassistant/sensor/docker_my_app_v2/version/config";
   "homeassistant/sensor/docker_docker_host/sentrylab_version/config"].
Proof.
  rewrite (proj2 (proj2 (proj2 (proj2 discovery_naming))) (discovery_config false)
             broker (handle "my-app.v2" [] "busybox" []) 0%nat
             broker_accepts_all (handle_has_configured_image _ _ _ _)).
  reflexivity.
Defined.

Lemma nth_error_firstn_some {A : Type} (k i : nat) (l : list A) (x : A) :
  nth_error (firstn k l) i = Some x -> nth_error l i = Some x.
Proof.
  revert k l. induction i as [| j IH]; intros [| k] [| y l] H;
    cbn in H; try discriminate H; [exact H |].
  cbn. exact (IH k l H).
Qed.

(** C7.  The descriptors [publish_container_discovery] produces depend on
    the configuration and on the name of the container only.  Two runs on
    containers of the same name, whatever their state, health, tags and
    clients, agree on every descriptor both of them publish; and with the
    same client, on containers whose records carry the configured image,
    the two runs are the same run. *)
Theorem descriptors_depend_on_name_only :
  (forall cfg (client1 client2 : option Client) (c1 c2 : Container)
          (s1 s2 i : nat) (ev1 ev2 : Event),
      name c1 = name c2 ->
      nth_error (publishes (trace (Discovery.publish_container_discovery
                                     cfg client1 c1 s1))) i = Some ev1 ->
      nth_error (publishes (trace (Discovery.publish_container_discovery
                                     cfg client2 c2 s2))) i = Some ev2 ->
      ev1 = ev2) /\
  (forall cfg (mqtt_client : option Client) (c1 c2 : Container) (s : nat),
      name c1 = name c2 ->
      has_configured_image c1 ->
      has_configured_image c2 ->
      Discovery.publish_container_discovery cfg mqtt_client c1 s =
      Discovery.publish_container_discovery cfg mqtt_client c2 s).
Proof.
  split.
  - intros cfg client1 client2 c1 c2 s1 s2 i ev1 ev2 Hname H1 H2.
    destruct (container_discovery_prefix cfg client1 c1 s1) as [k1 E1].
    destruct (container_discovery_prefix cfg client2 c2 s2) as [k2 E2].
    rewrite E1 in H1. rewrite E2, <- Hname in H2.
    apply nth_error_firstn_some in H1. apply nth_error_firstn_some in H2.
    congruence.
  - intros cfg mqtt_client c1 c2 s Hname Hc1 Hc2.
    rewrite !publish_container_discovery_run.
    destruct (configured_image_resolves c1 Hc1) as [x1 ->].
    destruct (configured_image_resolves c2 Hc2) as [x2 ->].
    unfold would_publish_log, publish_with_log, published_log.
    rewrite Hname. reflexivity.
Qed.

(** C7 at two containers named "web": one running and healthy with a
    tagged image, one never started with an untagged image. *)
Lemma descriptors_depend_on_name_only_witness :
  Discovery.publish_container_discovery (discovery_config false) (Some broker)
    (handle "web"
       [("Status", JStr "running"); ("Running", JBool true);
        ("Health", JDict [("Status", JStr "healthy")])]
       "nginx:1.25" ["nginx:1.25"; "nginx:latest"]) 0%nat =
  Discovery.publish_container_discovery (discovery_config false) (Some broker)
    (handle "web" [] "sha256:0a1b" []) 0%nat.
Proof.
  apply (proj2 descriptors_depend_on_name_only).
  - reflexivity.
  - apply handle_has_configured_image.
  - apply handle_has_configured_image.
Defined.

(** C5, as the code has it.  A run that is not in debug mode, whose client
    is connected and takes every publish, over [n] containers whose records
    carry the configured image, publishes the four fleet descriptors (total,
    running, stopped, SentryLab version) once and then the seven descriptors
    of each container (status, state, uptime, health, image, image version,
    SentryLab version), all retained: [4 + 7 * n] messages, four of them
    when there is no container.  A run in debug mode publishes nothing. *)
Theorem discovery_message_count :
  (forall cfg (docker_client : DockerClient) (client : Client)
          (containers : list Container) (s : nat),
      Discovery.DEBUG cfg = false ->
      containers_list docker_client true = inr containers ->
      accepts_all client ->
      Forall has_configured_image containers ->
      let published :=
        publishes (trace (Discovery.main cfg (inr docker_client) (inr client) s)) in
      published =
      (map to_event (fleet_descriptors cfg) ++
       flat_map (fun c => map to_event (container_descriptors cfg (name c)))
         containers)%list /\
      List.length published = (4 + 7 * List.length containers)%nat) /\
  (forall cfg n,
      List.length (fleet_descriptors cfg) = 4%nat /\
      List.length (container_descriptors cfg n) = 7%nat) /\
  (forall cfg from_env connect s,
      Discovery.DEBUG cfg = true ->
      publishes (trace (Discovery.main cfg from_env connect s)) = []).
Proof.
  split; [| split; [intros cfg n; split; reflexivity | exact main_debug_quiet]].
  intros cfg docker_client client containers s Hd Hlist Hacc Hall published.
  destruct (main_publishes cfg docker_client client containers s Hd Hlist Hacc Hall)
    as [_ Hp].
  subst published. rewrite Hp. unfold all_descriptors. rewrite map_app.
  assert (Hflat : map to_event
                    (flat_map (fun c => container_descriptors cfg (name c)) containers) =
                  flat_map (fun c => map to_event (container_descriptors cfg (name c)))
                    containers).
  { clear. induction containers as [| c rest IH]; [reflexivity |].
    cbn [flat_map]. rewrite map_app, IH. reflexivity. }
  rewrite Hflat. split; [reflexivity |].
  rewrite length_app. cbn [fleet_descriptors map List.length].
  clear. induction containers as [| c rest IH]; [reflexivity |].
  cbn [flat_map]. rewrite length_app, length_map.
  cbn [container_descriptors List.length] in *. lia.
Qed.

(** C5 at a run over three containers. *)
Lemma discovery_message_count_witness :
  List.length
    (publishes (trace (Discovery.main (discovery_config false)
                         (inr (daemon fleet)) (inr broker) 0%nat))) = 25%nat.
Proof.
  apply (proj1 discovery_message_count (discovery_config false) (daemon fleet)
           broker fleet 0%nat eq_refl eq_refl broker_accepts_all).
  repeat constructor; apply handle_has_configured_image.
Defined.

(** C5 as stated fails in debug mode, where [setup_mqtt] returns [None] and
    both publishers return at their first test: over three containers and
    over none, nothing is published.  It fails as well when the client
    refuses the topics, here because the device id holds a wildcard: the
    first publish raises and the run ends on the fatal error. *)
Lemma debug_run_publishes_no_descriptor :
  (List.length
     (publishes (trace (Discovery.main (discovery_config true)
                          (inr (daemon fleet)) (inr broker) 0%nat))) = 0%nat /\
   (0 <> 4 + 7 * List.length fleet)%nat) /\
  (List.length
     (publishes (trace (Discovery.main (discovery_config true)
                          (inr (daemon [])) (inr broker) 0%nat))) = 0%nat /\
   (0 <> 4)%nat) /\
  (List.length
     (publishes (trace (Discovery.main (discovery_config_with "rack#1" false)
                          (inr (daemon [])) (inr wildcard_guard) 0%nat))) = 0%nat /\
   outcome (Discovery.main (discovery_config_with "rack#1" false)
              (inr (daemon [])) (inr wildcard_guard) 0%nat) = inl ValueError).
Proof.
  repeat split; try (vm_compute; reflexivity); discriminate.
Qed.

(** C10, as the code has it.  In a run that is not in debug mode, whose
    client takes every publish, over [n] containers whose records carry the
    configured image, the topic of the SentryLab-version descriptor is
    published [n + 1] times.  It closes the fleet descriptors and the
    descriptors of every container.  In every run whatsoever, a message on
    that topic is the one descriptor built from the configuration alone,
    retained.  A run in debug mode publishes it not once. *)
Theorem sentrylab_version_repeats :
  (forall cfg (docker_client : DockerClient) (client : Client)
          (containers : list Container) (s : nat),
      Discovery.DEBUG cfg = false ->
      containers_list docker_client true = inr containers ->
      accepts_all client ->
      Forall has_configured_image containers ->
      count_topic (fst (sentrylab_version_message cfg))
        (trace (Discovery.main cfg (inr docker_client) (inr client) s)) =
      (List.length containers + 1)%nat) /\
  (forall cfg n,
      fst (sentrylab_version_message cfg) =
      Discovery.HA_BASE_TOPIC cfg ++ "/sensor/docker_" ++ Discovery.DEVICE_ID cfg ++
      "/sentrylab_version/config" /\
      last (fleet_descriptors cfg) ("", JNull) = sentrylab_version_message cfg /\
      last (container_descriptors cfg n) ("", JNull) = sentrylab_version_message cfg) /\
  (forall cfg from_env connect s payload retain,
      In (Publish (fst (sentrylab_version_message cfg)) payload retain)
        (trace (Discovery.main cfg from_env connect s)) ->
      payload = json_dumps (snd (sentrylab_version_message cfg)) /\ retain = true) /\
  (forall cfg from_env connect s,
      Discovery.DEBUG cfg = true ->
      count_topic (fst (sentrylab_version_message cfg))
        (trace (Discovery.main cfg from_env connect s)) = 0%nat).
Proof.
  split; [| split; [| split]].
  - intros cfg docker_client client containers s Hd Hlist Hacc Hall.
    destruct (main_publishes cfg docker_client client containers s Hd Hlist Hacc Hall)
      as [_ Hp].
    rewrite <- count_topic_publishes, Hp. apply count_all_descriptors.
  - intros cfg n. repeat split; reflexivity.
  - intros cfg from_env connect s payload retain Hin.
    assert (Hp : In (Publish (fst (sentrylab_version_message cfg)) payload retain)
                   (publishes (trace (Discovery.main cfg from_env connect s))))
      by (apply filter_In; split; [exact Hin | reflexivity]).
    destruct (main_publishes_known _ _ _ _ _ Hp)
      as (docker_client & containers & _ & _ & Hknown).
    apply in_map_iff in Hknown. destruct Hknown as (msg & Hev & Hmsg).
    unfold to_event in Hev. inversion Hev as [[Ht Hpay Hret]].
    rewrite (on_sentrylab_topic cfg containers msg Hmsg Ht). split; reflexivity.
  - intros cfg from_env connect s Hd.
    rewrite <- count_topic_publishes, (main_debug_quiet _ _ _ _ Hd). reflexivity.
Qed.

(** C10 at a run over three containers. *)
Lemma sentrylab_version_repeats_witness :
  count_topic "homeassistant/sensor/docker_docker_host/sentrylab_version/config"
    (trace (Discovery.main (discovery_config false)
              (inr (daemon fleet)) (inr broker) 0%nat)) = 4%nat.
Proof.
  apply (proj1 sentrylab_version_repeats (discovery_config false) (daemon fleet)
           broker fleet 0%nat eq_refl eq_refl broker_accepts_all).
  repeat constructor; apply handle_has_configured_image.
Defined.

(** C10 as stated fails in debug mode: over three containers the topic of
    the SentryLab-version descriptor is published not four times but not at
    all. *)
Lemma debug_run_publishes_no_version :
  count_topic (fst (sentrylab_version_message (discovery_config true)))
    (trace (Discovery.main (discovery_config true)
              (inr (daemon fleet)) (inr broker) 0%nat)) = 0%nat /\
  (0 <> List.length fleet + 1)%nat.
Proof.
  split; [vm_compute; reflexivity | discriminate].
Qed.

(** * Further properties of the two scripts *)

(** ** The rounds of the monitor *)

Lemma topics_app (t1 t2 : list Event) : topics (t1 ++ t2) = (topics t1 ++ topics t2)%list.
Proof. unfold topics. apply flat_map_app. Qed.

Lemma topics_quiet (t : list Event) : Forall not_publish t -> topics t = [].
Proof.
  induction 1 as [| ev rest Hev _ IH]; [reflexivity |].
  destruct ev; try discriminate Hev; exact IH.
Qed.

Section CycleTopics.

Variable cfg : Monitor.Config.
Variable clock : nat -> Z.
Variable fromisoformat : string -> option Datetime.datetime.

(** The guarded call of the loop, under a client that takes every publish:
    one state message when the state is read, none otherwise. *)
Lemma guarded_topics (client : Client) (c : Container) (s : nat) :
  accepts_all client ->
  topics (trace (Monitor.monitor_each cfg clock fromisoformat (Some client) [c] s)) =
  if readable c then [state_topic cfg c] else [].
Proof.
  intros Hacc. unfold Monitor.monitor_each. cbn [for_each].
  unfold bind at 1, try_except, Monitor.publish_container_state, readable.
  unfold bind at 1. rewrite get_container_state_run.
  destruct (refresh_and_read c) as [e | [[[state health] image] started_at]].
  - reflexivity.
  - cbv zeta. cbn [snapshot is_None andb]. unfold publish.
    fold (state_topic cfg c). rewrite Hacc.
    unfold bind, lift, log, emit, ret, snapshot.
    cbn [getitem assoc String.eqb Ascii.eqb Bool.eqb trace fst snd].
    rewrite ?app_nil_r, topics_app.
    rewrite (topics_quiet _ (calculate_uptime_quiet clock fromisoformat started_at s)).
    reflexivity.
Qed.

Lemma each_topics (client : Client) (containers : list Container) (s : nat) :
  accepts_all client ->
  topics (trace (Monitor.monitor_each cfg clock fromisoformat (Some client) containers s)) =
  map (state_topic cfg) (filter readable containers).
Proof.
  intros Hacc. revert s. induction containers as [| c rest IH]; intros s; [reflexivity |].
  destruct (each_app cfg clock fromisoformat (Some client) [c] rest s) as [Ht _].
  change (c :: rest) with ([c] ++ rest)%list. rewrite Ht, topics_app, IH.
  rewrite (guarded_topics client c s Hacc).
  cbn [app filter]. destruct (readable c); reflexivity.
Qed.

End CycleTopics.

Lemma count_topic_absent (topic : string) (t : list Event) :
  (forall payload retain, ~ In (Publish topic payload retain) t) ->
  count_topic topic t = 0%nat.
Proof.
  unfold count_topic. induction t as [| ev rest IH]; intros H; [reflexivity |].
  cbn [filter].
  destruct ev as [tp p r | lvl msg arg | n];
    try (apply IH; intros p' r' Hin; exact (H p' r' (or_intror Hin))).
  destruct (String.eqb_spec tp topic) as [-> | Hne].
  - exfalso. exact (H p r (or_introl eq_refl)).
  - apply IH. intros p' r' Hin. exact (H p' r' (or_intror Hin)).
Qed.

Lemma count_topic_log (topic : string) lvl msg arg (t : list Event) :
  count_topic topic (Log lvl msg arg :: t) = count_topic topic t.
Proof. reflexivity. Qed.

Lemma count_topic_hit (topic payload : string) (retain : bool) (t : list Event) :
  count_topic topic (Publish topic payload retain :: t) = S (count_topic topic t).
Proof. unfold count_topic. cbn [filter]. rewrite String.eqb_refl. reflexivity. Qed.

Lemma sleeps_app (t1 t2 : list Event) : sleeps (t1 ++ t2) = (sleeps t1 ++ sleeps t2)%list.
Proof. unfold sleeps. apply flat_map_app. Qed.

Lemma sleeps_none (t : list Event) : Forall no_sleep t -> sleeps t = [].
Proof.
  induction 1 as [| ev rest Hev _ IH]; [reflexivity |].
  change (ev :: rest) with ([ev] ++ rest)%list. rewrite sleeps_app, Hev, IH.
  reflexivity.
Qed.

(** What [time.sleep] takes and what it refuses. *)
Lemma sleepable_accepted (seconds : Z) :
  sleepable seconds -> sleep_error seconds = None.
Proof.
  unfold sleepable, sleep_error. intros H.
  destruct (Z.ltb_spec seconds (-9223372036)); [lia |].
  destruct (Z.ltb_spec 9223372036 seconds); [lia |].
  destruct (Z.ltb_spec seconds 0); [lia | reflexivity].
Qed.

Lemma negative_refused (seconds : Z) :
  -9223372036 <= seconds < 0 -> sleep_error seconds = Some ValueError.
Proof.
  unfold sleep_error. intros H.
  destruct (Z.ltb_spec seconds (-9223372036)); [lia |].
  destruct (Z.ltb_spec 9223372036 seconds); [lia |].
  destruct (Z.ltb_spec seconds 0); [reflexivity | lia].
Qed.

Lemma emits_only_sleep {P : Event -> Prop} (seconds : Z) :
  P (Sleep seconds) -> emits_only P (sleep seconds).
Proof.
  intros H s. unfold sleep.
  destruct (sleep_error seconds); repeat constructor. exact H.
Qed.

Lemma emits_only_try_finally {A : Type} {P : Event -> Prop} (body : M A)
  (cleanup : M unit) :
  emits_only P body -> emits_only P cleanup ->
  emits_only P (try_finally body cleanup).
Proof.
  intros Hb Hc s. specialize (Hb s). unfold try_finally.
  destruct (body s) as [[t1 s1] r]. specialize (Hc s1).
  destruct (cleanup s1) as [[t2 s2] [e | u]]; cbn [trace fst] in *;
    apply Forall_app; split; assumption.
Qed.

Section Rounds.

Variable cfg : Monitor.Config.
Variable clock : nat -> Z.
Variable fromisoformat : string -> option Datetime.datetime.
Variable mqtt_client : option Client.

Let cycle (docker_client : DockerClient) : M unit :=
  Monitor.monitor_containers cfg clock fromisoformat docker_client mqtt_client.

Lemma cycle_returns (docker_client : DockerClient) (s : nat) :
  outcome (cycle docker_client s) = inr tt.
Proof.
  unfold cycle. rewrite monitor_containers_run.
  destruct (containers_list docker_client true) as [e | containers]; [reflexivity |].
  cbv zeta.
  destruct (outcome (Monitor.publish_summary cfg clock mqtt_client containers s));
    reflexivity.
Qed.

Lemma cycle_never_sleeps (docker_client : DockerClient) :
  emits_only no_sleep (cycle docker_client).
Proof.
  unfold cycle, Monitor.monitor_containers.
  apply emits_only_try_except; [| intros e; apply emits_only_log; reflexivity].
  apply emits_only_bind; [apply emits_only_lift | intros containers].
  apply emits_only_bind; [apply emits_only_log; reflexivity | intros _].
  apply emits_only_bind.
  { intros s. rewrite publish_summary_run. cbv zeta.
    destruct mqtt_client as [client |].
    - destruct (refuses client _ _); repeat constructor.
    - destruct (Monitor.DEBUG cfg); repeat constructor. }
  intros _.
  apply emits_only_bind; [| intros _; apply emits_only_log; reflexivity].
  apply emits_only_for_each. intros c _.
  apply emits_only_try_except; [| intros e; apply emits_only_log; reflexivity].
  unfold Monitor.publish_container_state.
  apply emits_only_bind.
  { intros s. rewrite get_container_state_run.
    destruct (refresh_and_read c) as [e | [[[state health] image] started_at]];
      [repeat constructor |].
    cbv zeta. cbn [trace fst]. rewrite calculate_uptime_run.
    destruct (negb (truthy started_at) || eq_str started_at sentinel);
      [constructor |].
    destruct (str_replace started_at _ _) as [e | text]; [repeat constructor |].
    destruct (fromisoformat text) as [d |]; [| repeat constructor].
    destruct (Datetime.sub _ d); repeat constructor. }
  intros [[| field fields] |]; try apply emits_only_ret.
  destruct (is_None mqtt_client && Monitor.DEBUG cfg).
  - apply emits_only_bind; [apply emits_only_lift |].
    intros shown. apply emits_only_log. reflexivity.
  - destruct mqtt_client as [client |]; [| apply emits_only_ret].
    apply emits_only_bind; [apply emits_only_publish; reflexivity |].
    intros _. apply emits_only_bind; [apply emits_only_lift |].
    intros shown. apply emits_only_log. reflexivity.
Qed.

Lemma cycle_summary_at_most_once (docker_client : DockerClient) (s : nat) :
  (count_topic (summary_topic cfg) (trace (cycle docker_client s)) <= 1)%nat.
Proof.
  unfold cycle. rewrite monitor_containers_run.
  destruct (containers_list docker_client true) as [e | containers];
    [cbn; lia |].
  cbv zeta. rewrite publish_summary_run. cbv zeta.
  assert (Hloop : forall s',
    count_topic (summary_topic cfg)
      (trace (Monitor.monitor_each cfg clock fromisoformat mqtt_client containers s') ++
       [updated_log containers]) = 0%nat).
  { intros s'. rewrite count_topic_app.
    rewrite (count_topic_absent _ _ (each_never_summary cfg clock fromisoformat
                                       mqtt_client containers s')).
    reflexivity. }
  unfold monitoring_log, cycle_error_log.
  destruct mqtt_client as [client |].
  - destruct (refuses client _ _); cbn [outcome trace final fst snd app].
    + rewrite !count_topic_log. cbn. lia.
    + rewrite count_topic_log, count_topic_hit, count_topic_log, Hloop. lia.
  - destruct (Monitor.DEBUG cfg); cbn [outcome trace final fst snd app];
      rewrite ?count_topic_log, Hloop; lia.
Qed.

Lemma cycle_summary_once (docker_client : DockerClient) (client : Client)
  (containers : list Container) (s : nat) :
  mqtt_client = Some client ->
  accepts_all client ->
  containers_list docker_client true = inr containers ->
  count_topic (summary_topic cfg) (trace (cycle docker_client s)) = 1%nat.
Proof.
  intros Hc Hacc Hlist. unfold cycle. rewrite monitor_containers_run, Hlist.
  cbv zeta. rewrite publish_summary_run. cbv zeta. rewrite Hc, Hacc.
  cbn [outcome trace final fst snd app]. unfold monitoring_log.
  rewrite count_topic_log, count_topic_hit, count_topic_log, count_topic_app.
  rewrite (count_topic_absent _ _ (each_never_summary cfg clock fromisoformat
                                     (Some client) containers (S s))).
  reflexivity.
Qed.

Let poll := Monitor.poll cfg clock fromisoformat.

(** One round of the loop: the cycle, the line, and the sleep, which ends the
    loop when it is refused. *)
Lemma poll_round (docker : nat -> DockerClient) (i cycles : nat) (s : nat) :
  poll docker mqtt_client i (S cycles) s =
  let r := cycle (docker i) s in
  match sleep_error (Monitor.POLL_INTERVAL cfg) with
  | Some e => ((trace r ++ [sleeping_log cfg])%list, final r, inl e)
  | None =>
      let r' := poll docker mqtt_client (S i) cycles (final r) in
      ((trace r ++ sleeping_log cfg ::
        Sleep (Monitor.POLL_INTERVAL cfg) :: trace r')%list,
       final r', outcome r')
  end.
Proof.
  unfold poll. cbn [Monitor.poll]. fold (cycle (docker i)).
  unfold bind at 1. rewrite (run_eta (cycle (docker i) s)), cycle_returns.
  cbn [trace final outcome fst snd].
  unfold sleep, sleeping_log.
  destruct (sleep_error (Monitor.POLL_INTERVAL cfg)) as [e |].
  - unfold bind, log, emit, raise. reflexivity.
  - unfold bind, log, emit.
    destruct (Monitor.poll cfg clock fromisoformat docker mqtt_client (S i) cycles _)
      as [[t2 s2] r2].
    reflexivity.
Qed.

Lemma poll_step (docker : nat -> DockerClient) (i cycles : nat) (s : nat) :
  sleepable (Monitor.POLL_INTERVAL cfg) ->
  poll docker mqtt_client i (S cycles) s =
  let r := cycle (docker i) s in
  let r' := poll docker mqtt_client (S i) cycles (final r) in
  ((trace r ++
    Log LvlInfo ("Sleeping for " ++ str_of_int (Monitor.POLL_INTERVAL cfg) ++
                 " seconds...") NoArg ::
    Sleep (Monitor.POLL_INTERVAL cfg) :: trace r')%list,
   final r', outcome r').
Proof.
  intros H. rewrite poll_round, (sleepable_accepted _ H). reflexivity.
Qed.

End Rounds.

(** X1.  A poll cycle whose enumeration returns, under a connected client
    that takes every publish, publishes the summary and then, in the order
    of the enumeration, exactly one state message for each container whose
    state is read; a container whose refresh or reads raise gets none. *)
Theorem cycle_publishes_readable_containers :
  forall cfg clock fromisoformat (docker_client : DockerClient) (client : Client)
         (containers : list Container) (s : nat),
    containers_list docker_client true = inr containers ->
    accepts_all client ->
    topics (trace (Monitor.monitor_containers cfg clock fromisoformat
                     docker_client (Some client) s)) =
    summary_topic cfg :: map (state_topic cfg) (filter readable containers).
Proof.
  intros cfg clock fromisoformat docker_client client containers s Hlist Hacc.
  rewrite monitor_containers_run, Hlist. cbv zeta.
  rewrite publish_summary_run. cbv zeta. rewrite Hacc.
  cbn [outcome trace final fst snd app]. unfold monitoring_log.
  cbn [topics flat_map app]. fold (topics
    (trace (Monitor.monitor_each cfg clock fromisoformat (Some client) containers (S s)) ++
     [updated_log containers])).
  rewrite topics_app, (each_topics cfg clock fromisoformat client containers (S s) Hacc).
  cbn. rewrite app_nil_r. reflexivity.
Qed.

Lemma cycle_publishes_readable_containers_witness :
  topics (trace (Monitor.monitor_containers monitor_config clock_2024
                   Datetime.fromisoformat_seconds
                   (daemon [handle "web" [] "nginx" []; vanished "gone"])
                   (Some broker) 0%nat)) =
  ["docker/docker_host/summary"; "docker/docker_host/web/state"].
Proof.
  apply (cycle_publishes_readable_containers monitor_config clock_2024
           Datetime.fromisoformat_seconds
           (daemon [handle "web" [] "nginx" []; vanished "gone"]) broker
           [handle "web" [] "nginx" []; vanished "gone"] 0%nat eq_refl
           broker_accepts_all).
Defined.

Section Poll.

Variable cfg : Monitor.Config.
Variable clock : nat -> Z.
Variable fromisoformat : string -> option Datetime.datetime.
Variable docker : nat -> DockerClient.
Variable mqtt_client : option Client.

Hypothesis Hsleep : sleepable (Monitor.POLL_INTERVAL cfg).

Let poll := Monitor.poll cfg clock fromisoformat docker mqtt_client.

Lemma poll_returns (i cycles s : nat) : outcome (poll i cycles s) = inr tt.
Proof.
  revert i s. induction cycles as [| n IH]; intros i s; [reflexivity |].
  unfold poll. rewrite poll_step by exact Hsleep. apply IH.
Qed.

Lemma poll_sleeps (i cycles s : nat) :
  sleeps (trace (poll i cycles s)) = repeat (Monitor.POLL_INTERVAL cfg) cycles.
Proof.
  revert i s. induction cycles as [| n IH]; intros i s; [reflexivity |].
  unfold poll. rewrite poll_step by exact Hsleep. cbv zeta. cbn [trace fst].
  rewrite sleeps_app.
  rewrite (sleeps_none _ (cycle_never_sleeps cfg clock fromisoformat mqtt_client
                            (docker i) s)).
  cbn [app]. change (sleeps (?a :: Sleep ?z :: ?t)) with (z :: sleeps t).
  unfold poll in IH. rewrite IH. reflexivity.
Qed.

Lemma poll_step_count (i cycles s : nat) :
  count_topic (summary_topic cfg) (trace (poll i (S cycles) s)) =
  (count_topic (summary_topic cfg)
     (trace (Monitor.monitor_containers cfg clock fromisoformat (docker i) mqtt_client s)) +
   count_topic (summary_topic cfg)
     (trace (poll (S i) cycles
               (final (Monitor.monitor_containers cfg clock fromisoformat (docker i)
                         mqtt_client s)))))%nat.
Proof.
  unfold poll. rewrite poll_step by exact Hsleep. cbv zeta. cbn [trace fst].
  rewrite count_topic_app, count_topic_log. reflexivity.
Qed.

Lemma poll_summary_bound (i cycles s : nat) :
  (count_topic (summary_topic cfg) (trace (poll i cycles s)) <= cycles)%nat.
Proof.
  revert i s. induction cycles as [| n IH]; intros i s; [cbn; lia |].
  rewrite poll_step_count.
  pose proof (cycle_summary_at_most_once cfg clock fromisoformat mqtt_client
                (docker i) s) as H1.
  specialize (IH (S i) (final (Monitor.monitor_containers cfg clock fromisoformat
                                 (docker i) mqtt_client s))).
  lia.
Qed.

Lemma poll_summary_count (client : Client) (i cycles s : nat) :
  mqtt_client = Some client ->
  accepts_all client ->
  enumerates docker i cycles ->
  count_topic (summary_topic cfg) (trace (poll i cycles s)) = cycles.
Proof.
  intros Hc Hacc. revert i s.
  induction cycles as [| n IH]; intros i s Henum; [reflexivity |].
  rewrite poll_step_count.
  destruct (Henum i ltac:(lia)) as [containers Hlist].
  rewrite (cycle_summary_once cfg clock fromisoformat mqtt_client (docker i)
             client containers s Hc Hacc Hlist).
  rewrite IH; [reflexivity |].
  intros j Hj. apply Henum. lia.
Qed.

End Poll.

Lemma cycle_quiet_offline cfg clock fromisoformat (docker_client : DockerClient) :
  emits_only not_publish
    (Monitor.monitor_containers cfg clock fromisoformat docker_client None).
Proof.
  unfold Monitor.monitor_containers.
  apply emits_only_try_except; [| intros e; apply emits_only_log; reflexivity].
  apply emits_only_bind; [apply emits_only_lift | intros containers].
  apply emits_only_bind; [apply emits_only_log; reflexivity | intros _].
  apply emits_only_bind.
  { intros s. rewrite publish_summary_run. cbv zeta.
    destruct (Monitor.DEBUG cfg); repeat constructor. }
  intros _.
  apply emits_only_bind; [| intros _; apply emits_only_log; reflexivity].
  apply each_quiet_offline.
Qed.

Lemma poll_quiet_offline cfg clock fromisoformat (docker : nat -> DockerClient)
  (i cycles : nat) :
  emits_only not_publish (Monitor.poll cfg clock fromisoformat docker None i cycles).
Proof.
  revert i. induction cycles as [| n IH]; intros i; [apply emits_only_ret |].
  cbn [Monitor.poll].
  apply emits_only_bind; [apply cycle_quiet_offline | intros _].
  apply emits_only_bind; [apply emits_only_log; reflexivity | intros _].
  apply emits_only_bind; [apply emits_only_sleep; reflexivity | intros _].
  apply IH.
Qed.

(** X2.  With a poll interval that [time.sleep] takes, the loop of [main]
    never ends on an exception: whatever the daemon, the client and the
    clock do, every round returns, the loop sleeps [POLL_INTERVAL] once
    after each round, and a round publishes the summary at most once -
    exactly once when the enumeration returns and a connected client takes
    every publish. *)
Theorem poll_never_stops :
  forall cfg clock fromisoformat (docker : nat -> DockerClient)
         (mqtt_client : option Client) (i cycles s : nat),
    sleepable (Monitor.POLL_INTERVAL cfg) ->
    let run := Monitor.poll cfg clock fromisoformat docker mqtt_client i cycles s in
    outcome run = inr tt /\
    sleeps (trace run) = repeat (Monitor.POLL_INTERVAL cfg) cycles /\
    (count_topic (summary_topic cfg) (trace run) <= cycles)%nat /\
    (forall client,
        mqtt_client = Some client ->
        accepts_all client ->
        enumerates docker i cycles ->
        count_topic (summary_topic cfg) (trace run) = cycles).
Proof.
  intros cfg clock fromisoformat docker mqtt_client i cycles s Hsleep run.
  subst run.
  split; [apply poll_returns; exact Hsleep |].
  split; [apply poll_sleeps; exact Hsleep |].
  split; [apply poll_summary_bound; exact Hsleep |].
  intros client Hc Hacc Henum.
  exact (poll_summary_count cfg clock fromisoformat docker mqtt_client Hsleep client
           i cycles s Hc Hacc Henum).
Qed.

Lemma poll_never_stops_witness :
  let run := Monitor.poll monitor_config clock_2024 Datetime.fromisoformat_seconds
               (fun _ => daemon fleet) (Some broker) 0%nat 3%nat 0%nat in
  outcome run = inr tt /\
  sleeps (trace run) = [30; 30; 30] /\
  count_topic "docker/docker_host/summary" (trace run) = 3%nat.
Proof.
  intros run.
  destruct (poll_never_stops monitor_config clock_2024 Datetime.fromisoformat_seconds
              (fun _ => daemon fleet) (Some broker) 0%nat 3%nat 0%nat
              ltac:(unfold sleepable; simpl; lia))
    as (Ho & Hs & _ & Hc).
  split; [exact Ho |]. split; [exact Hs |].
  apply (Hc broker eq_refl broker_accepts_all).
  intros j _. exists fleet. reflexivity.
Defined.

(** ** The dry run of the monitor *)

Lemma dry_runs_app (t1 t2 : list Event) :
  filter is_dry_run (t1 ++ t2) = (filter is_dry_run t1 ++ filter is_dry_run t2)%list.
Proof. apply filter_app. Qed.

Lemma dry_runs_none (t : list Event) :
  Forall (fun ev => is_dry_run ev = false) t -> filter is_dry_run t = [].
Proof.
  induction 1 as [| ev rest Hev _ IH]; [reflexivity |].
  cbn [filter]. rewrite Hev. exact IH.
Qed.

Lemma length_topics (t : list Event) : length (topics t) = length (publishes t).
Proof.
  unfold topics, publishes.
  induction t as [| [tp p r | lvl msg arg | n] rest IH];
    cbn [flat_map filter is_publish app length]; congruence.
Qed.

Section DryRun.

Variable cfg : Monitor.Config.
Variable clock : nat -> Z.
Variable fromisoformat : string -> option Datetime.datetime.

Lemma calculate_uptime_no_dry_run (v : json) :
  emits_only (fun ev => is_dry_run ev = false)
    (Monitor.calculate_uptime clock fromisoformat v).
Proof.
  intros s. rewrite calculate_uptime_run.
  destruct (negb (truthy v) || eq_str v sentinel); [constructor |].
  destruct (str_replace v _ _) as [e | text]; [repeat constructor |].
  destruct (fromisoformat text) as [d |]; [| repeat constructor].
  destruct (Datetime.sub _ d); repeat constructor.
Qed.

(** The guarded call of the loop in debug mode, without client: one line of
    dry run when the state is read, none otherwise. *)
Lemma guarded_dry_runs (c : Container) (s : nat) :
  Monitor.DEBUG cfg = true ->
  length (filter is_dry_run
            (trace (Monitor.monitor_each cfg clock fromisoformat None [c] s))) =
  if readable c then 1%nat else 0%nat.
Proof.
  intros Hdebug. unfold Monitor.monitor_each. cbn [for_each].
  unfold bind at 1, try_except, Monitor.publish_container_state, readable.
  unfold bind at 1. rewrite get_container_state_run.
  destruct (refresh_and_read c) as [e | [[[state health] image] started_at]].
  - reflexivity.
  - cbv zeta. rewrite Hdebug. cbn [snapshot is_None andb].
    unfold bind, lift, log, emit, ret, snapshot.
    cbn [getitem assoc String.eqb Ascii.eqb Bool.eqb trace fst snd].
    rewrite ?app_nil_r, dry_runs_app.
    rewrite (dry_runs_none _ (calculate_uptime_no_dry_run started_at s)).
    reflexivity.
Qed.

Lemma each_dry_run_count (containers : list Container) (s : nat) :
  Monitor.DEBUG cfg = true ->
  length (filter is_dry_run
            (trace (Monitor.monitor_each cfg clock fromisoformat None containers s))) =
  length (filter readable containers).
Proof.
  intros Hdebug. revert s. induction containers as [| c rest IH]; intros s; [reflexivity |].
  destruct (each_app cfg clock fromisoformat None [c] rest s) as [Ht _].
  change (c :: rest) with ([c] ++ rest)%list.
  rewrite Ht, dry_runs_app, length_app, IH, (guarded_dry_runs c s Hdebug).
  cbn [app filter]. destruct (readable c); reflexivity.
Qed.

End DryRun.

(** X3.  The dry run mirrors the live run: in debug mode, without client,
    a cycle publishes nothing and logs one line "DEBUG: Would publish" for
    each message that the same cycle publishes under a connected client
    that takes every publish, the summary included. *)
Theorem dry_run_mirrors_publishes :
  forall cfg clock fromisoformat (docker_client : DockerClient) (client : Client)
         (containers : list Container) (s s' : nat),
    Monitor.DEBUG cfg = true ->
    containers_list docker_client true = inr containers ->
    accepts_all client ->
    let dry := trace (Monitor.monitor_containers cfg clock fromisoformat
                        docker_client None s) in
    let live := trace (Monitor.monitor_containers cfg clock fromisoformat
                         docker_client (Some client) s') in
    publishes dry = [] /\
    length (filter is_dry_run dry) = length (publishes live).
Proof.
  intros cfg clock fromisoformat docker_client client containers s s'
         Hdebug Hlist Hacc dry live.
  assert (Hlive : length (publishes live) = S (length (filter readable containers))).
  { subst live. rewrite <- length_topics.
    rewrite monitor_containers_run, Hlist. cbv zeta.
    rewrite publish_summary_run. cbv zeta. rewrite Hacc.
    cbn [outcome trace final fst snd app]. unfold monitoring_log.
    change (topics (?a :: Publish ?tp ?p ?r :: ?b :: ?t)) with (tp :: topics t).
    cbn [length]. rewrite topics_app, length_app.
    rewrite (each_topics cfg clock fromisoformat client containers (S s') Hacc).
    rewrite length_map. cbn. lia. }
  rewrite Hlive. subst dry.
  rewrite monitor_containers_run, Hlist. cbv zeta.
  rewrite publish_summary_run. cbv zeta. rewrite Hdebug.
  cbn [outcome trace final fst snd app]. unfold monitoring_log.
  split.
  - apply publishes_none.
    constructor; [reflexivity |]. constructor; [reflexivity |].
    apply Forall_app. split; [apply each_quiet_offline | repeat constructor].
  - change (filter is_dry_run (?a :: ?b :: ?t)) with (b :: filter is_dry_run t).
    cbn [length]. rewrite dry_runs_app, length_app.
    rewrite (each_dry_run_count cfg clock fromisoformat containers (S s) Hdebug).
    cbn. lia.
Qed.

Lemma dry_run_mirrors_publishes_witness :
  let dry := trace (Monitor.monitor_containers debug_monitor_config clock_2024
                      Datetime.fromisoformat_seconds (daemon fleet) None 0%nat) in
  let live := trace (Monitor.monitor_containers debug_monitor_config clock_2024
                       Datetime.fromisoformat_seconds (daemon fleet)
                       (Some broker) 0%nat) in
  publishes dry = [] /\
  length (filter is_dry_run dry) = length (publishes live).
Proof.
  apply (dry_run_mirrors_publishes debug_monitor_config clock_2024
           Datetime.fromisoformat_seconds (daemon fleet) broker fleet 0%nat 0%nat
           eq_refl eq_refl broker_accepts_all).
Defined.

(** ** The monitor's [main] *)

Section Main.

Variable cfg : Monitor.Config.
Variable clock : nat -> Z.
Variable fromisoformat : string -> option Datetime.datetime.

Let main := Monitor.main cfg clock fromisoformat.

(** The run of [main] when the daemon cannot be reached. *)
Lemma main_without_daemon (connect : result Client) (cycles s : nat) (e : exn) :
  main (inl e) connect cycles s =
  ((banner cfg ++ [fatal_log e])%list, s, inl UnboundLocalError).
Proof.
  unfold main, Monitor.main, banner, fatal_log.
  destruct (Monitor.DEBUG cfg); reflexivity.
Qed.

(** The run of [main] when the broker cannot be reached. *)
Lemma main_without_broker (docker : nat -> DockerClient) (cycles s : nat) (e : exn) :
  Monitor.DEBUG cfg = false ->
  main (inr docker) (inl e) cycles s =
  ((banner cfg ++
    [Log LvlInfo "Connected to Docker daemon" NoArg;
     Log LvlError "Failed to connect to MQTT broker: " (Exc e);
     fatal_log e])%list, s, inl UnboundLocalError).
Proof.
  intros Hdebug.
  unfold main, Monitor.main, Monitor.setup_mqtt, banner, fatal_log.
  rewrite Hdebug. reflexivity.
Qed.

(** The run of [main] once both connections are made: the loop, and then
    the lines of the way out it took. *)
Lemma main_connected (docker : nat -> DockerClient) (connect : result Client)
  (cycles s : nat) :
  (Monitor.DEBUG cfg = true \/ exists client, connect = inr client) ->
  let mqtt_client := if Monitor.DEBUG cfg then None
                     else match connect with inr client => Some client | inl _ => None end in
  let r := Monitor.poll cfg clock fromisoformat docker mqtt_client 0%nat cycles s in
  main (inr docker) connect cycles s =
  ((banner cfg ++
    Log LvlInfo "Connected to Docker daemon" NoArg ::
    (if Monitor.DEBUG cfg
     then [Log LvlInfo "DEBUG mode: MQTT publishing disabled" NoArg]
     else [Sleep 2]) ++
    trace r ++
    match outcome r with
    | inl e => [fatal_log e; stopped_log]
    | inr _ => [Log LvlInfo "Shutting down..." NoArg; stopped_log]
    end)%list,
   final r,
   match outcome r with
   | inl e => inl e
   | inr _ => inr tt
   end).
Proof.
  intros H. cbv zeta.
  unfold main, Monitor.main, Monitor.setup_mqtt, banner, stopped_log, fatal_log.
  change (sleep 2) with (emit (Sleep 2)).
  destruct (Monitor.DEBUG cfg) eqn:Hdebug.
  - unfold try_finally, try_except, bind, log, emit, lift, ret, raise.
    cbn [is_None].
    rewrite (run_eta (Monitor.poll cfg clock fromisoformat docker None 0%nat cycles s)).
    destruct (outcome (Monitor.poll cfg clock fromisoformat docker None 0%nat cycles s))
      as [e | []];
      cbn [trace final outcome fst snd app]; rewrite ?app_nil_r;
      cbn [app]; rewrite <- ?app_assoc; reflexivity.
  - destruct H as [H | [client ->]]; [discriminate H |].
    unfold try_finally, try_except, bind, log, emit, lift, ret, raise.
    cbn [is_None].
    rewrite (run_eta (Monitor.poll cfg clock fromisoformat docker (Some client)
                        0%nat cycles s)).
    destruct (outcome (Monitor.poll cfg clock fromisoformat docker (Some client)
                         0%nat cycles s)) as [e | []];
      cbn [trace final outcome fst snd app]; rewrite ?app_nil_r;
      cbn [app]; rewrite <- ?app_assoc; reflexivity.
Qed.

(** The same run when the poll interval is one that [time.sleep] takes: the
    loop is left by the interrupt only. *)
Lemma main_running (docker : nat -> DockerClient) (connect : result Client)
  (cycles s : nat) :
  sleepable (Monitor.POLL_INTERVAL cfg) ->
  (Monitor.DEBUG cfg = true \/ exists client, connect = inr client) ->
  let mqtt_client := if Monitor.DEBUG cfg then None
                     else match connect with inr client => Some client | inl _ => None end in
  let r := Monitor.poll cfg clock fromisoformat docker mqtt_client 0%nat cycles s in
  main (inr docker) connect cycles s =
  ((banner cfg ++
    Log LvlInfo "Connected to Docker daemon" NoArg ::
    (if Monitor.DEBUG cfg
     then [Log LvlInfo "DEBUG mode: MQTT publishing disabled" NoArg]
     else [Sleep 2]) ++
    trace r ++
    [Log LvlInfo "Shutting down..." NoArg; stopped_log])%list,
   final r, inr tt).
Proof.
  intros Hsleep H. cbv zeta. rewrite (main_connected docker connect cycles s H).
  cbv zeta. rewrite (poll_returns cfg clock fromisoformat docker _ Hsleep).
  reflexivity.
Qed.

End Main.

Lemma banner_quiet (cfg : Monitor.Config) : Forall not_publish (banner cfg).
Proof. unfold banner. destruct (Monitor.DEBUG cfg); repeat constructor. Qed.

Lemma banner_never_sleeps (cfg : Monitor.Config) : sleeps (banner cfg) = [].
Proof. unfold banner. destruct (Monitor.DEBUG cfg); reflexivity. Qed.

Lemma banner_not_stopped (cfg : Monitor.Config) : ~ In stopped_log (banner cfg).
Proof.
  unfold banner, stopped_log. intros H. apply in_app_or in H.
  destruct H as [H | H].
  - cbn [In] in H. repeat (destruct H as [H | H]; [discriminate H |]). exact H.
  - destruct (Monitor.DEBUG cfg); cbn [In] in H;
      repeat (destruct H as [H | H]; [discriminate H |]); exact H.
Qed.

(** X4.  When the Docker daemon cannot be reached, or, outside debug mode,
    the broker cannot be reached, [main] logs the fatal error and then ends
    on [UnboundLocalError], raised by the test of [mqtt_client] in its
    [finally] clause: the original exception is not the one that leaves
    [main], "Monitoring stopped" is never logged, and nothing is published
    and no sleep is made. *)
Theorem monitor_main_startup_failure :
  forall cfg clock fromisoformat (from_env : result (nat -> DockerClient))
         (connect : result Client) (cycles s : nat) (e : exn),
    (from_env = inl e \/
     (exists docker, from_env = inr docker) /\
     Monitor.DEBUG cfg = false /\ connect = inl e) ->
    let run := Monitor.main cfg clock fromisoformat from_env connect cycles s in
    outcome run = inl UnboundLocalError /\
    In (fatal_log e) (trace run) /\
    ~ In stopped_log (trace run) /\
    publishes (trace run) = [] /\
    sleeps (trace run) = [].
Proof.
  intros cfg clock fromisoformat from_env connect cycles s e H run. subst run.
  destruct H as [-> | ([docker ->] & Hdebug & ->)].
  - rewrite main_without_daemon. cbn [outcome trace fst snd].
    split; [reflexivity |].
    split; [apply in_or_app; right; left; reflexivity |].
    split.
    { intros Hin. apply in_app_or in Hin. destruct Hin as [Hin | [Hin | []]].
      - exact (banner_not_stopped cfg Hin).
      - discriminate Hin. }
    split.
    + apply publishes_none, Forall_app. split; [apply banner_quiet |].
      repeat constructor.
    + rewrite sleeps_app, banner_never_sleeps. reflexivity.
  - rewrite (main_without_broker cfg clock fromisoformat docker cycles s e Hdebug).
    cbn [outcome trace fst snd].
    split; [reflexivity |].
    split; [apply in_or_app; right; right; right; left; reflexivity |].
    split.
    { intros Hin. apply in_app_or in Hin. destruct Hin as [Hin | Hin].
      - exact (banner_not_stopped cfg Hin).
      - cbn [In] in Hin.
        repeat (destruct Hin as [Hin | Hin]; [discriminate Hin |]). exact Hin. }
    split.
    + apply publishes_none, Forall_app. split; [apply banner_quiet |].
      repeat constructor.
    + rewrite sleeps_app, banner_never_sleeps. reflexivity.
Qed.

Lemma monitor_main_startup_failure_witness :
  let run := Monitor.main monitor_config clock_2024 Datetime.fromisoformat_seconds
               (inr (fun _ => daemon fleet))
               (inl (LibraryError "[Errno 111] Connection refused")) 3%nat 0%nat in
  outcome run = inl UnboundLocalError /\
  In (fatal_log (LibraryError "[Errno 111] Connection refused")) (trace run) /\
  ~ In stopped_log (trace run) /\
  publishes (trace run) = [] /\
  sleeps (trace run) = [].
Proof.
  apply (monitor_main_startup_failure monitor_config clock_2024
           Datetime.fromisoformat_seconds (inr (fun _ => daemon fleet))
           (inl (LibraryError "[Errno 111] Connection refused")) 3%nat 0%nat
           (LibraryError "[Errno 111] Connection refused")).
  right. split; [exists (fun _ => daemon fleet); reflexivity |].
  split; reflexivity.
Defined.

(** X5.  Once the daemon is reached and, outside debug mode, the broker is
    connected, and with a poll interval that [time.sleep] takes, the run of
    [main] that is interrupted after any number of rounds returns without
    exception; its last two lines are "Shutting down..." and "Monitoring
    stopped"; and its sleeps are the two seconds of settling, made only
    with a connected client, followed by [POLL_INTERVAL] once for each
    round. *)
Theorem monitor_main_interrupted :
  forall cfg clock fromisoformat (docker : nat -> DockerClient)
         (connect : result Client) (cycles s : nat),
    sleepable (Monitor.POLL_INTERVAL cfg) ->
    (Monitor.DEBUG cfg = true \/ exists client, connect = inr client) ->
    let run := Monitor.main cfg clock fromisoformat (inr docker) connect cycles s in
    outcome run = inr tt /\
    (exists t, trace run =
               (t ++ [Log LvlInfo "Shutting down..." NoArg; stopped_log])%list) /\
    sleeps (trace run) =
    ((if Monitor.DEBUG cfg then [] else [2]) ++
     repeat (Monitor.POLL_INTERVAL cfg) cycles)%list.
Proof.
  intros cfg clock fromisoformat docker connect cycles s Hsleep H run. subst run.
  rewrite (main_running cfg clock fromisoformat docker connect cycles s Hsleep H).
  cbn [outcome trace fst snd].
  split; [reflexivity |].
  split.
  - eexists. rewrite app_comm_cons, !app_assoc. reflexivity.
  - rewrite sleeps_app, banner_never_sleeps. cbn [app].
    change (sleeps (?a :: ?t)) with (sleeps [a] ++ sleeps t)%list.
    rewrite !sleeps_app, (poll_sleeps cfg clock fromisoformat docker _ Hsleep).
    destruct (Monitor.DEBUG cfg); cbn; rewrite app_nil_r; reflexivity.
Qed.

Lemma monitor_main_interrupted_witness :
  let run := Monitor.main monitor_config clock_2024 Datetime.fromisoformat_seconds
               (inr (fun _ => daemon fleet)) (inr broker) 3%nat 0%nat in
  outcome run = inr tt /\
  (exists t, trace run =
             (t ++ [Log LvlInfo "Shutting down..." NoArg; stopped_log])%list) /\
  sleeps (trace run) = [2; 30; 30; 30].
Proof.
  apply (monitor_main_interrupted monitor_config clock_2024
           Datetime.fromisoformat_seconds (fun _ => daemon fleet) (inr broker)
           3%nat 0%nat).
  - unfold sleepable. simpl. lia.
  - right. exists broker. reflexivity.
Defined.

(** X6.  In debug mode [main] never uses the broker: its run is the same
    whatever connecting would do, and it publishes nothing. *)
Theorem monitor_main_debug_offline :
  forall cfg clock fromisoformat (from_env : result (nat -> DockerClient))
         (connect connect' : result Client) (cycles s : nat),
    Monitor.DEBUG cfg = true ->
    Monitor.main cfg clock fromisoformat from_env connect cycles s =
    Monitor.main cfg clock fromisoformat from_env connect' cycles s /\
    publishes (trace (Monitor.main cfg clock fromisoformat from_env connect
                        cycles s)) = [].
Proof.
  intros cfg clock fromisoformat from_env connect connect' cycles s Hdebug.
  split.
  - unfold Monitor.main, Monitor.setup_mqtt. rewrite Hdebug. reflexivity.
  - destruct from_env as [e | docker].
    + rewrite main_without_daemon. cbn [trace fst].
      apply publishes_none, Forall_app. split; [apply banner_quiet |].
      repeat constructor.
    + rewrite (main_connected cfg clock fromisoformat docker connect cycles s
                 (or_introl Hdebug)).
      cbn [trace fst]. rewrite Hdebug.
      apply publishes_none, Forall_app. split; [apply banner_quiet |].
      constructor; [reflexivity |]. cbn [app]. constructor; [reflexivity |].
      apply Forall_app. split; [apply poll_quiet_offline |].
      destruct (outcome (Monitor.poll cfg clock fromisoformat docker None 0%nat
                           cycles s)); repeat constructor.
Qed.

Lemma monitor_main_debug_offline_witness :
  Monitor.main debug_monitor_config clock_2024 Datetime.fromisoformat_seconds
    (inr (fun _ => daemon fleet)) (inr broker) 2%nat 0%nat =
  Monitor.main debug_monitor_config clock_2024 Datetime.fromisoformat_seconds
    (inr (fun _ => daemon fleet))
    (inl (LibraryError "[Errno 111] Connection refused")) 2%nat 0%nat /\
  publishes (trace (Monitor.main debug_monitor_config clock_2024
                      Datetime.fromisoformat_seconds
                      (inr (fun _ => daemon fleet)) (inr broker) 2%nat 0%nat)) = [].
Proof.
  apply (monitor_main_debug_offline debug_monitor_config clock_2024
           Datetime.fromisoformat_seconds (inr (fun _ => daemon fleet))
           (inr broker) (inl (LibraryError "[Errno 111] Connection refused"))
           2%nat 0%nat).
  reflexivity.
Defined.

(** ** The run of the discovery publisher *)

Lemma publish_list_final mqtt_client msgs s :
  final (publish_list mqtt_client msgs s) = s.
Proof.
  induction msgs as [| msg rest IH]; [reflexivity |].
  rewrite publish_list_cons. unfold bind, publish_on.
  destruct mqtt_client as [client |]; [| reflexivity].
  unfold publish. destruct (refuses client _ _); [reflexivity |].
  cbn [emit].
  destruct (publish_list (Some client) rest s) as [[t2 s2] r]. exact IH.
Qed.

(** A list of publishes that ends on an exception has stopped short of its
    last message; one that returns has published them all. *)
Lemma publish_list_outcome mqtt_client msgs s :
  match outcome (publish_list mqtt_client msgs s) with
  | inl _ =>
      exists k, (k < length msgs)%nat /\
                trace (publish_list mqtt_client msgs s) = firstn k (map to_event msgs)
  | inr _ => trace (publish_list mqtt_client msgs s) = map to_event msgs
  end.
Proof.
  induction msgs as [| msg rest IH]; [reflexivity |].
  rewrite publish_list_cons. unfold bind, publish_on.
  destruct mqtt_client as [client |];
    [| exists 0%nat; split; [cbn; lia | reflexivity]].
  unfold publish. destruct (refuses client _ _);
    [exists 0%nat; split; [cbn; lia | reflexivity] |].
  cbn [emit].
  destruct (publish_list (Some client) rest s) as [[t2 s2] [e | []]];
    cbn [outcome trace fst snd] in *.
  - destruct IH as (k & Hk & Ht). exists (S k). split; [cbn; lia |].
    cbn. rewrite Ht. reflexivity.
  - cbn. rewrite IH. reflexivity.
Qed.

Section DiscoverRun.

Variable cfg : Discovery.Config.

Lemma discover_run mqtt_client containers s :
  Discovery.discover cfg mqtt_client containers s =
  let r1 := Discovery.publish_summary_discovery cfg mqtt_client s in
  match outcome r1 with
  | inl e => (trace r1, s, inl e)
  | inr _ =>
      ((trace r1 ++ trace (discovery_loop cfg mqtt_client containers s))%list,
       s, inr tt)
  end.
Proof.
  cbv zeta. unfold Discovery.discover.
  fold (discovery_loop cfg mqtt_client containers).
  unfold bind.
  assert (Hf : final (Discovery.publish_summary_discovery cfg mqtt_client s) = s).
  { rewrite publish_summary_discovery_run.
    destruct (is_None mqtt_client && Discovery.DEBUG cfg); [reflexivity |].
    apply publish_list_final. }
  rewrite (run_eta (Discovery.publish_summary_discovery cfg mqtt_client s)), Hf.
  cbn [outcome trace fst snd].
  destruct (outcome (Discovery.publish_summary_discovery cfg mqtt_client s))
    as [e | []]; [reflexivity |].
  destruct (loop_returns cfg mqtt_client containers s) as [Ho Hfl].
  rewrite (run_eta (discovery_loop cfg mqtt_client containers s)), Ho, Hfl.
  reflexivity.
Qed.

(** The run of [main], step by step. *)
Lemma discovery_main_run from_env connect s :
  Discovery.main cfg from_env connect s =
  match from_env with
  | inl e => ((discovery_banner cfg ++ [fatal_log e])%list, s, inl e)
  | inr docker_client =>
      let connected := Log LvlInfo "Connected to Docker daemon" NoArg in
      if Discovery.DEBUG cfg then
        let disabled := Log LvlInfo "DEBUG mode: MQTT publishing disabled" NoArg in
        match containers_list docker_client true with
        | inl e =>
            ((discovery_banner cfg ++ [connected; disabled; fatal_log e])%list,
             s, inl e)
        | inr containers =>
            ((discovery_banner cfg ++
              connected :: disabled ::
              Log LvlInfo ("Found " ++ str_of_int (len containers) ++ " containers")
                NoArg ::
              trace (Discovery.discover cfg None containers s) ++
              [complete_log containers])%list, s, inr tt)
        end
      else
        match connect with
        | inl e =>
            ((discovery_banner cfg ++
              [connected;
               Log LvlError "Failed to connect to MQTT broker: " (Exc e);
               fatal_log e])%list, s, inl e)
        | inr client =>
            match containers_list docker_client true with
            | inl e =>
                ((discovery_banner cfg ++ [connected; Sleep 2; fatal_log e])%list,
                 s, inl e)
            | inr containers =>
                let r := Discovery.discover cfg (Some client) containers s in
                match outcome r with
                | inl e =>
                    ((discovery_banner cfg ++
                      connected :: Sleep 2 ::
                      Log LvlInfo ("Found " ++ str_of_int (len containers) ++
                                   " containers") NoArg ::
                      trace r ++ [fatal_log e])%list, s, inl e)
                | inr _ =>
                    ((discovery_banner cfg ++
                      connected :: Sleep 2 ::
                      Log LvlInfo ("Found " ++ str_of_int (len containers) ++
                                   " containers") NoArg ::
                      trace r ++ [Sleep 2; complete_log containers])%list,
                     s, inr tt)
                end
            end
        end
  end.
Proof.
  unfold Discovery.main, Discovery.setup_mqtt, discovery_banner, fatal_log,
    complete_log.
  change (sleep 2) with (emit (Sleep 2)).
  destruct from_env as [e | docker_client].
  { destruct (Discovery.DEBUG cfg); reflexivity. }
  destruct (Discovery.DEBUG cfg) eqn:Hdebug.
  - destruct (containers_list docker_client true) as [e | containers] eqn:Hlist.
    + unfold try_except, bind, log, emit, lift, ret, raise.
      cbn [is_None]. rewrite Hlist. reflexivity.
    + unfold try_except, bind, log, emit, lift, ret, raise.
      cbn [is_None]. rewrite Hlist.
      rewrite (discover_run None containers s). cbv zeta.
      rewrite publish_summary_discovery_run. cbn [is_None andb]. rewrite Hdebug.
      cbn [outcome trace final fst snd app]. rewrite ?app_nil_r.
      cbn [app]. rewrite <- ?app_assoc. reflexivity.
  - destruct connect as [e | client].
    { unfold try_except, bind, log, emit, lift, ret, raise. reflexivity. }
    destruct (containers_list docker_client true) as [e | containers] eqn:Hlist.
    + unfold try_except, bind, log, emit, lift, ret, raise.
      cbn [is_None]. rewrite Hlist. reflexivity.
    + cbv zeta.
      unfold try_except, bind, log, emit, lift, ret, raise.
      cbn [is_None]. rewrite Hlist.
      pose proof (discover_run (Some client) containers s) as Hrun.
      cbv zeta in Hrun.
      destruct (Discovery.discover cfg (Some client) containers s)
        as [[t s1] [e | []]] eqn:Hd; cbn [outcome trace final fst snd app].
      * destruct (outcome (Discovery.publish_summary_discovery cfg (Some client) s));
          inversion Hrun; subst.
        rewrite ?app_nil_r. cbn [app]. rewrite <- ?app_assoc. reflexivity.
      * destruct (outcome (Discovery.publish_summary_discovery cfg (Some client) s));
          inversion Hrun; subst.
        rewrite ?app_nil_r. cbn [app]. rewrite <- ?app_assoc. reflexivity.
Qed.

End DiscoverRun.

Lemma discovery_banner_quiet (cfg : Discovery.Config) :
  Forall not_publish (discovery_banner cfg).
Proof. unfold discovery_banner. destruct (Discovery.DEBUG cfg); repeat constructor. Qed.

Lemma discovery_banner_never_sleeps (cfg : Discovery.Config) :
  sleeps (discovery_banner cfg) = [].
Proof. unfold discovery_banner. destruct (Discovery.DEBUG cfg); reflexivity. Qed.

Lemma publishes_banner (cfg : Discovery.Config) (t : list Event) :
  publishes (discovery_banner cfg ++ t) = publishes t.
Proof.
  rewrite publishes_app, (publishes_none _ (discovery_banner_quiet cfg)).
  reflexivity.
Qed.

Lemma publish_on_never_sleeps mqtt_client topic payload retain :
  emits_only no_sleep (publish_on mqtt_client topic payload retain).
Proof.
  destruct mqtt_client as [client |]; [| apply emits_only_raise].
  apply emits_only_publish. reflexivity.
Qed.

Lemma publish_list_never_sleeps mqtt_client msgs :
  emits_only no_sleep (publish_list mqtt_client msgs).
Proof.
  induction msgs as [| msg rest IH]; [apply emits_only_ret |].
  intros s. rewrite publish_list_cons. revert s.
  apply emits_only_bind; [apply publish_on_never_sleeps | intros _; exact IH].
Qed.

Lemma discovery_loop_never_sleeps cfg mqtt_client containers :
  emits_only no_sleep (discovery_loop cfg mqtt_client containers).
Proof.
  apply emits_only_for_each. intros c _.
  apply emits_only_try_except; [| intros e; apply emits_only_log; reflexivity].
  intros s. rewrite publish_container_discovery_run.
  destruct (is_None mqtt_client && Discovery.DEBUG cfg); [repeat constructor |].
  destruct (outcome (Discovery.image_name_and_tag c 0%nat)); [constructor |].
  revert s. unfold publish_with_log, container_descriptors. cbv zeta.
  apply emits_only_bind; [apply publish_on_never_sleeps | intros _].
  apply emits_only_bind; [apply emits_only_emit; reflexivity | intros _].
  apply publish_list_never_sleeps.
Qed.

Lemma discover_never_sleeps cfg mqtt_client containers :
  emits_only no_sleep (Discovery.discover cfg mqtt_client containers).
Proof.
  unfold Discovery.discover.
  apply emits_only_bind; [| intros _; apply discovery_loop_never_sleeps].
  intros s. rewrite publish_summary_discovery_run.
  destruct (is_None mqtt_client && Discovery.DEBUG cfg); [repeat constructor |].
  apply publish_list_never_sleeps.
Qed.

Section DiscoveryIsolation.

Variable cfg : Discovery.Config.
Variable client : Client.
Hypothesis Hacc : accepts_all client.

(** The guarded call of the loop under a client that takes every publish:
    the seven descriptors when the image lookup returns, one error line
    otherwise. *)
Lemma discovery_guarded_run (c : Container) (s : nat) :
  let g := try_except
             (Discovery.publish_container_discovery cfg (Some client) c)
             (fun e => log LvlError ("Error publishing discovery for " ++ name c ++ ": ")
                         (Exc e)) in
  publishes (trace (g s)) =
  (if resolvable c then map to_event (container_descriptors cfg (name c)) else []) /\
  (resolvable c = false -> exists e, trace (g s) = [discovery_error_log c e]).
Proof.
  cbv zeta. unfold try_except, resolvable.
  rewrite publish_container_discovery_run. cbn [is_None andb].
  destruct (outcome (Discovery.image_name_and_tag c 0%nat)) as [e | x].
  - split; [reflexivity |]. intros _. exists e. reflexivity.
  - destruct (publish_with_log_accepting client c
                (container_descriptors cfg (name c)) s Hacc) as (Ho & Hf & Hp).
    rewrite (run_eta (publish_with_log (Some client) c _ s)), Ho.
    cbn [trace fst]. split; [exact Hp | discriminate].
Qed.

Lemma loop_resolvable (containers : list Container) (s : nat) :
  publishes (trace (discovery_loop cfg (Some client) containers s)) =
  map to_event (flat_map (fun c => container_descriptors cfg (name c))
                  (filter resolvable containers)) /\
  (forall c, In c containers -> resolvable c = false ->
             exists e, In (discovery_error_log c e)
                         (trace (discovery_loop cfg (Some client) containers s))).
Proof.
  induction containers as [| c rest [IHp IHe]].
  - split; [reflexivity | intros c []].
  - rewrite (loop_cons cfg (Some client) c rest s). cbn [trace fst].
    destruct (discovery_guarded_run c s) as [Hp He]. cbv zeta in Hp, He.
    split.
    + rewrite publishes_app, Hp, IHp. cbn [filter].
      destruct (resolvable c); [| reflexivity].
      cbn [flat_map]. rewrite map_app. reflexivity.
    + intros c' [<- | Hin] Hr.
      * destruct (He Hr) as [e Ht]. exists e. rewrite Ht. left. reflexivity.
      * destruct (IHe c' Hin Hr) as [e Hi]. exists e.
        apply in_or_app. right. exact Hi.
Qed.

End DiscoveryIsolation.

(** X7.  Outside debug mode, with the broker connected and taking every
    publish, a run of the discovery publisher returns; it publishes the four
    descriptors of the fleet and then, in the order of the enumeration, the
    seven descriptors of each container whose image lookup returns; a
    container whose lookup raises gets no descriptor and one error line,
    and the containers after it are served; the run sleeps two seconds
    before and two seconds after publishing. *)
Theorem discovery_skips_unresolvable_containers :
  forall cfg (docker_client : DockerClient) (client : Client)
         (containers : list Container) (s : nat),
    Discovery.DEBUG cfg = false ->
    containers_list docker_client true = inr containers ->
    accepts_all client ->
    let run := Discovery.main cfg (inr docker_client) (inr client) s in
    outcome run = inr tt /\
    publishes (trace run) =
    map to_event
      (fleet_descriptors cfg ++
       flat_map (fun c => container_descriptors cfg (name c))
         (filter resolvable containers)) /\
    (forall c, In c containers -> resolvable c = false ->
               exists e, In (discovery_error_log c e) (trace run)) /\
    sleeps (trace run) = [2; 2].
Proof.
  intros cfg docker_client client containers s Hdebug Hlist Hacc run. subst run.
  pose proof (discover_never_sleeps cfg (Some client) containers s) as Hns.
  rewrite discovery_main_run, Hdebug, Hlist. cbv zeta.
  rewrite discover_run in *. cbv zeta in *.
  rewrite publish_summary_discovery_run in *. cbn [is_None andb] in *.
  rewrite (publish_list_accepting _ _ _ Hacc) in *.
  cbn [outcome trace final fst snd] in *.
  destruct (loop_resolvable cfg client Hacc containers s) as [Hp He].
  split; [reflexivity |].
  split.
  { rewrite publishes_banner.
    change (publishes (?a :: Sleep 2 :: ?b :: ?t)) with (publishes t).
    rewrite !publishes_app, publishes_to_events, Hp, map_app.
    cbn. rewrite app_nil_r. reflexivity. }
  split.
  { intros c Hin Hr. destruct (He c Hin Hr) as [e Hi]. exists e.
    apply in_or_app. right. do 3 right.
    apply in_or_app. left. apply in_or_app. right. exact Hi. }
  rewrite sleeps_app, discovery_banner_never_sleeps. cbn [app].
  change (sleeps (?a :: Sleep 2 :: ?b :: ?t)) with (2 :: sleeps t).
  rewrite sleeps_app, (sleeps_none _ Hns). reflexivity.
Qed.

Lemma discovery_skips_unresolvable_containers_witness :
  let run := Discovery.main (discovery_config false)
               (inr (daemon [handle "web" [] "nginx:1.25" []; imageless "odd";
                             handle "db" [] "postgres" []]))
               (inr broker) 0%nat in
  outcome run = inr tt /\
  publishes (trace run) =
  map to_event
    (fleet_descriptors (discovery_config false) ++
     flat_map (fun c => container_descriptors (discovery_config false) (name c))
       (filter resolvable [handle "web" [] "nginx:1.25" []; imageless "odd";
                           handle "db" [] "postgres" []])) /\
  (forall c, In c [handle "web" [] "nginx:1.25" []; imageless "odd";
                   handle "db" [] "postgres" []] ->
             resolvable c = false ->
             exists e, In (discovery_error_log c e) (trace run)) /\
  sleeps (trace run) = [2; 2].
Proof.
  apply (discovery_skips_unresolvable_containers (discovery_config false)
           (daemon [handle "web" [] "nginx:1.25" []; imageless "odd";
                    handle "db" [] "postgres" []])
           broker
           [handle "web" [] "nginx:1.25" []; imageless "odd";
            handle "db" [] "postgres" []] 0%nat eq_refl eq_refl
           broker_accepts_all).
Defined.

Lemma imageless_is_skipped :
  filter resolvable [handle "web" [] "nginx:1.25" []; imageless "odd";
                     handle "db" [] "postgres" []] =
  [handle "web" [] "nginx:1.25" []; handle "db" [] "postgres" []].
Proof. reflexivity. Qed.

(** X8.  A run of the discovery publisher that ends on an exception ends on
    the exception that stopped it, logged as its last line; it has then
    published fewer than the four descriptors of the fleet and no
    descriptor of a container.  A run that returns has enumerated the
    containers and logs "Discovery complete" as its last line; outside
    debug mode its first four publishes are the descriptors of the
    fleet. *)
Theorem discovery_main_outcome :
  forall cfg (from_env : result DockerClient) (connect : result Client) (s : nat),
    let run := Discovery.main cfg from_env connect s in
    match outcome run with
    | inl e =>
        (exists t, trace run = (t ++ [fatal_log e])%list) /\
        (exists k, (k < 4)%nat /\
                   publishes (trace run) =
                   firstn k (map to_event (fleet_descriptors cfg)))
    | inr _ =>
        exists docker_client containers,
          from_env = inr docker_client /\
          containers_list docker_client true = inr containers /\
          (exists t, trace run = (t ++ [complete_log containers])%list) /\
          (Discovery.DEBUG cfg = false ->
           firstn 4 (publishes (trace run)) =
           map to_event (fleet_descriptors cfg))
    end.
Proof.
  intros cfg from_env connect s run. subst run.
  rewrite discovery_main_run.
  destruct from_env as [e | docker_client].
  { cbn [outcome snd]. split; [eexists; reflexivity |].
    exists 0%nat. split; [lia |]. cbn [trace fst]. apply publishes_banner. }
  cbv zeta.
  destruct (Discovery.DEBUG cfg) eqn:Hdebug.
  - destruct (containers_list docker_client true) as [e | containers] eqn:Hlist;
      cbn [outcome trace fst snd].
    + split.
      * exists (discovery_banner cfg ++
                [Log LvlInfo "Connected to Docker daemon" NoArg;
                 Log LvlInfo "DEBUG mode: MQTT publishing disabled" NoArg])%list.
        rewrite <- app_assoc. reflexivity.
      * exists 0%nat. split; [lia |]. apply publishes_banner.
    + exists docker_client, containers.
      split; [reflexivity |]. split; [exact Hlist |].
      split; [| discriminate].
      eexists. rewrite !app_comm_cons, !app_assoc. reflexivity.
  - destruct connect as [e | client]; cbn [outcome trace fst snd].
    { split.
      - exists (discovery_banner cfg ++
                [Log LvlInfo "Connected to Docker daemon" NoArg;
                 Log LvlError "Failed to connect to MQTT broker: " (Exc e)])%list.
        rewrite <- app_assoc. reflexivity.
      - exists 0%nat. split; [lia |]. apply publishes_banner. }
    destruct (containers_list docker_client true) as [e | containers] eqn:Hlist;
      cbn [outcome trace fst snd].
    { split.
      - exists (discovery_banner cfg ++
                [Log LvlInfo "Connected to Docker daemon" NoArg; Sleep 2])%list.
        rewrite <- app_assoc. reflexivity.
      - exists 0%nat. split; [lia |]. apply publishes_banner. }
    rewrite discover_run. cbv zeta.
    rewrite publish_summary_discovery_run. cbn [is_None andb].
    pose proof (publish_list_outcome (Some client) (fleet_descriptors cfg) s) as Hpl.
    destruct (outcome (publish_list (Some client) (fleet_descriptors cfg) s))
      as [e | []]; cbn [outcome trace fst snd].
    + destruct Hpl as (k & Hk & Ht). split.
      * eexists. rewrite !app_comm_cons, !app_assoc. reflexivity.
      * exists k. split; [exact Hk |].
        rewrite publishes_banner.
        change (publishes (?a :: Sleep 2 :: ?b :: ?t)) with (publishes t).
        rewrite publishes_app, Ht, publishes_firstn. cbn. apply app_nil_r.
    + exists docker_client, containers.
      split; [reflexivity |]. split; [exact Hlist |].
      split.
      * change [Sleep 2; complete_log containers]
          with ([Sleep 2] ++ [complete_log containers])%list.
        eexists. rewrite !app_comm_cons, !app_assoc. reflexivity.
      * intros _. rewrite publishes_banner.
        change (publishes (?a :: Sleep 2 :: ?b :: ?t)) with (publishes t).
        rewrite Hpl, <- app_assoc, publishes_app, publishes_to_events.
        reflexivity.
Qed.

(** ** The descriptors and the messages of the monitor *)

Lemma snapshot_keys st health image image_version uptime started_at stamp :
  map fst (snapshot st health image image_version uptime started_at stamp) =
  ["running"; "state"; "health"; "image"; "image_version"; "uptime";
   "started_at"; "pid"; "exit_code"; "error"; "timestamp"].
Proof. reflexivity. Qed.

Lemma returned_state_keys clock fromisoformat (c : Container) (s : nat)
  (fields : list (string * json)) :
  outcome (Monitor.get_container_state clock fromisoformat c s) = inr (Some fields) ->
  keys (JDict fields) =
  ["running"; "state"; "health"; "image"; "image_version"; "uptime";
   "started_at"; "pid"; "exit_code"; "error"; "timestamp"].
Proof.
  rewrite get_container_state_run.
  destruct (refresh_and_read c) as [e | [[[state health] image] started_at]];
    [discriminate |].
  cbv zeta. cbn [outcome snd]. intros H. inversion H. reflexivity.
Qed.

(** Every descriptor carries the device record of [create_device_info]. *)
Lemma descriptor_device (cfg : Discovery.Config) (containers : list Container)
  (msg : string * json) :
  In msg (all_descriptors cfg containers) ->
  getitem (snd msg) "device" = inr (Discovery.create_device_info cfg).
Proof.
  intros Hin. unfold all_descriptors in Hin. apply in_app_or in Hin.
  destruct Hin as [Hin | Hin].
  - unfold fleet_descriptors in Hin. cbv zeta in Hin. cbn [In] in Hin.
    destruct Hin as [<- | [<- | [<- | [<- | []]]]]; reflexivity.
  - apply in_flat_map in Hin. destruct Hin as (c & _ & Hin).
    unfold container_descriptors in Hin. cbv zeta in Hin. cbn [In] in Hin.
    destruct Hin as [<- | [<- | [<- | [<- | [<- | [<- | [<- | []]]]]]]];
      reflexivity.
Qed.

Section Agreement.

Variable dcfg : Discovery.Config.
Variable mcfg : Monitor.Config.
Hypothesis same_device : Discovery.DEVICE_ID dcfg = Monitor.DEVICE_ID mcfg.

(** A key of every summary the monitor builds. *)
Let summary_key (key : string) : Prop :=
  forall total running stopped stamp,
    In key (keys (fleet_summary mcfg total running stopped stamp)).

(** A key of every state the monitor reads of a container. *)
Let state_key (c : Container) (key : string) : Prop :=
  forall clock fromisoformat s fields,
    outcome (Monitor.get_container_state clock fromisoformat c s) =
    inr (Some fields) ->
    In key (keys (JDict fields)).

Lemma fleet_state_topic_agrees : fleet_state_topic dcfg = summary_topic mcfg.
Proof. unfold fleet_state_topic, summary_topic. rewrite same_device. reflexivity. Qed.

Lemma container_state_topic_agrees (c : Container) :
  container_state_topic dcfg (name c) = state_topic mcfg c.
Proof.
  unfold container_state_topic, state_topic. rewrite same_device. reflexivity.
Qed.

Lemma fleet_descriptor_reads (msg : string * json) :
  In msg (fleet_descriptors dcfg) ->
  exists key, reads (snd msg) = Some (summary_topic mcfg, key) /\ summary_key key.
Proof.
  intros Hin. unfold fleet_descriptors in Hin. cbv zeta in Hin.
  unfold sentrylab_version_message in Hin.
  rewrite fleet_state_topic_agrees in Hin. cbn [In] in Hin.
  destruct Hin as [<- | [<- | [<- | [<- | []]]]].
  - exists "total". split; [reflexivity | intros ? ? ? ?; cbn; tauto].
  - exists "running". split; [reflexivity | intros ? ? ? ?; cbn; tauto].
  - exists "stopped". split; [reflexivity | intros ? ? ? ?; cbn; tauto].
  - exists "sentrylab_version". split; [reflexivity | intros ? ? ? ?; cbn; tauto].
Qed.

Lemma container_descriptor_reads (c : Container) (msg : string * json) :
  In msg (container_descriptors dcfg (name c)) ->
  exists key,
    (reads (snd msg) = Some (summary_topic mcfg, key) /\ summary_key key) \/
    (reads (snd msg) = Some (state_topic mcfg c, key) /\ state_key c key).
Proof.
  intros Hin.
  assert (Hkeys : forall key,
             In key ["running"; "state"; "health"; "image"; "image_version";
                     "uptime"; "started_at"; "pid"; "exit_code"; "error";
                     "timestamp"] ->
             state_key c key).
  { intros key Hk clock fromisoformat s fields Hf.
    rewrite (returned_state_keys clock fromisoformat c s fields Hf). exact Hk. }
  unfold container_descriptors in Hin. cbv zeta in Hin.
  rewrite container_state_topic_agrees in Hin.
  unfold sentrylab_version_message in Hin.
  rewrite fleet_state_topic_agrees in Hin. cbn [In] in Hin.
  destruct Hin as [<- | [<- | [<- | [<- | [<- | [<- | [<- | []]]]]]]].
  - exists "running". right. split; [reflexivity | apply Hkeys; cbn; tauto].
  - exists "state". right. split; [reflexivity | apply Hkeys; cbn; tauto].
  - exists "uptime". right. split; [reflexivity | apply Hkeys; cbn; tauto].
  - exists "health". right. split; [reflexivity | apply Hkeys; cbn; tauto].
  - exists "image". right. split; [reflexivity | apply Hkeys; cbn; tauto].
  - exists "image_version". right. split; [reflexivity | apply Hkeys; cbn; tauto].
  - exists "sentrylab_version". left. split; [reflexivity |].
    intros ? ? ? ?; cbn; tauto.
Qed.

End Agreement.

(** X9.  The two scripts agree when they are given the same [DEVICE_ID]:
    every message a run of the discovery publisher publishes is a
    descriptor that subscribes either to the summary topic of the monitor,
    and reads there a key that every summary has, or to the topic on which
    the monitor publishes the state of an enumerated container, and reads
    there a key that every state message of that container has; and every
    descriptor carries the device record of [create_device_info]. *)
Theorem descriptors_read_published_keys :
  forall (dcfg : Discovery.Config) (mcfg : Monitor.Config)
         (from_env : result DockerClient) (connect : result Client) (s : nat)
         (ev : Event),
    Discovery.DEVICE_ID dcfg = Monitor.DEVICE_ID mcfg ->
    In ev (publishes (trace (Discovery.main dcfg from_env connect s))) ->
    exists msg key,
      ev = to_event msg /\
      getitem (snd msg) "device" = inr (Discovery.create_device_info dcfg) /\
      ((reads (snd msg) = Some (summary_topic mcfg, key) /\
        forall total running stopped stamp,
          In key (keys (fleet_summary mcfg total running stopped stamp))) \/
       (exists docker_client containers c,
           from_env = inr docker_client /\
           containers_list docker_client true = inr containers /\
           In c containers /\
           reads (snd msg) = Some (state_topic mcfg c, key) /\
           forall clock fromisoformat s' fields,
             outcome (Monitor.get_container_state clock fromisoformat c s') =
             inr (Some fields) ->
             In key (keys (JDict fields)))).
Proof.
  intros dcfg mcfg from_env connect s ev Hid Hin.
  destruct (main_publishes_known dcfg from_env connect s ev Hin)
    as (docker_client & containers & Hfrom & Hlist & Hev).
  apply in_map_iff in Hev. destruct Hev as (msg & <- & Hmsg).
  pose proof (descriptor_device dcfg containers msg Hmsg) as Hdev.
  unfold all_descriptors in Hmsg. apply in_app_or in Hmsg.
  destruct Hmsg as [Hmsg | Hmsg].
  - destruct (fleet_descriptor_reads dcfg mcfg Hid msg Hmsg) as (key & Hr & Hk).
    exists msg, key. split; [reflexivity |]. split; [exact Hdev |].
    left. split; assumption.
  - apply in_flat_map in Hmsg. destruct Hmsg as (c & Hc & Hmsg).
    destruct (container_descriptor_reads dcfg mcfg Hid c msg Hmsg)
      as (key & [[Hr Hk] | [Hr Hk]]).
    + exists msg, key. split; [reflexivity |]. split; [exact Hdev |].
      left. split; assumption.
    + exists msg, key. split; [reflexivity |]. split; [exact Hdev |]. right.
      exists docker_client, containers, c. repeat split; assumption.
Qed.

Lemma descriptors_read_published_keys_witness :
  let ev := to_event (config_topic (discovery_config false) "sensor"
                        (unique_prefix (discovery_config false) "web" ++ "_uptime"),
                      sensor (discovery_config false) "web Uptime"
                        (unique_prefix (discovery_config false) "web" ++ "_uptime")
                        "docker/docker_host/web/state"
                        "{{ value_json.uptime }}" "mdi:clock-outline") in
  In ev (publishes (trace (Discovery.main (discovery_config false)
                             (inr (daemon [handle "web" [] "nginx:1.25" []]))
                             (inr broker) 0%nat))) /\
  exists msg key,
    ev = to_event msg /\
    getitem (snd msg) "device" =
    inr (Discovery.create_device_info (discovery_config false)) /\
    ((reads (snd msg) = Some (summary_topic monitor_config, key) /\
      forall total running stopped stamp,
        In key (keys (fleet_summary monitor_config total running stopped stamp))) \/
     (exists docker_client containers c,
         (inr (daemon [handle "web" [] "nginx:1.25" []]) : result DockerClient) =
         inr docker_client /\
         containers_list docker_client true = inr containers /\
         In c containers /\
         reads (snd msg) = Some (state_topic monitor_config c, key) /\
         forall clock fromisoformat s' fields,
           outcome (Monitor.get_container_state clock fromisoformat c s') =
           inr (Some fields) ->
           In key (keys (JDict fields)))).
Proof.
  assert (H : In (to_event
                    (config_topic (discovery_config false) "sensor"
                       (unique_prefix (discovery_config false) "web" ++ "_uptime"),
                     sensor (discovery_config false) "web Uptime"
                       (unique_prefix (discovery_config false) "web" ++ "_uptime")
                       "docker/docker_host/web/state"
                       "{{ value_json.uptime }}" "mdi:clock-outline"))
                (publishes (trace (Discovery.main (discovery_config false)
                                     (inr (daemon [handle "web" [] "nginx:1.25" []]))
                                     (inr broker) 0%nat)))).
  { vm_compute. do 6 right. left. reflexivity. }
  split; [exact H |].
  exact (descriptors_read_published_keys (discovery_config false) monitor_config
           (inr (daemon [handle "web" [] "nginx:1.25" []])) (inr broker) 0%nat _
           eq_refl H).
Defined.

(** ** Uptime: starts in the future and values that are no strings *)

(** A negative [timedelta] is rendered as its time of day. *)
Lemma render_delta_negative (us : Z) :
  us < 0 ->
  render_delta (Datetime.timedelta_of_us us) =
  uptime_as_specified (us mod 86400000000).
Proof.
  intros Hus.
  rewrite <- (render_delta_spec (us mod 86400000000))
    by (apply Z.mod_pos_bound; lia).
  unfold render_delta, Datetime.timedelta_of_us.
  cbn [Datetime.days Datetime.seconds].
  rewrite Z.mod_mod by lia.
  replace (us / 86400000000 >? 0) with false.
  2:{ symmetry. rewrite Z.gtb_ltb. apply Z.ltb_ge. Z.div_mod_to_equations; lia. }
  replace (us mod 86400000000 / 86400000000 >? 0) with false.
  2:{ symmetry. rewrite Z.gtb_ltb. apply Z.ltb_ge. Z.div_mod_to_equations; lia. }
  reflexivity.
Qed.

(** X10.  A start that lies in the future of the clock, as under a clock
    skew between the daemon and the monitor, is neither refused nor shown
    as zero: the uptime shown is that of the elapsed time taken modulo one
    day, so a start one second ahead reads as 23 hours 59 minutes; no
    number of days is ever shown. *)
Theorem calculate_uptime_future_start :
  forall (clock : nat -> Z) (fromisoformat : string -> option Datetime.datetime)
         (started_at : string) (s : nat) (d : Datetime.datetime) (off : Z),
    started_at <> "" ->
    started_at <> sentinel ->
    fromisoformat (replace "Z" "+00:00" started_at) = Some d ->
    Datetime.utcoffset d = Some off ->
    clock s - (Datetime.wall d - off) < 0 ->
    let elapsed := clock s - (Datetime.wall d - off) in
    Monitor.calculate_uptime clock fromisoformat (JStr started_at) s =
    ([], S s, inr (uptime_as_specified (elapsed mod 86400000000))) /\
    0 <= elapsed mod 86400000000 < 86400000000.
Proof.
  intros clock fromisoformat started_at s d off Hne Hns Hparse Hoff Hneg elapsed.
  split; [| apply Z.mod_pos_bound; lia].
  rewrite calculate_uptime_run.
  cbn [truthy eq_str str_replace]. fold sentinel.
  destruct (String.eqb_spec started_at "") as [E | _]; [contradiction |].
  destruct (String.eqb_spec started_at sentinel) as [E | _]; [contradiction |].
  cbn [negb orb]. rewrite Hparse.
  unfold Datetime.sub. cbn [Datetime.utcoffset Datetime.wall]. rewrite Hoff.
  rewrite Z.sub_0_r. rewrite (render_delta_negative _ Hneg). reflexivity.
Qed.

Lemma calculate_uptime_future_start_witness :
  Monitor.calculate_uptime clock_2024 Datetime.fromisoformat_seconds
    (JStr "2024-01-01T00:00:01Z") 0%nat =
  ([], 1%nat, inr "23h 59m").
Proof.
  destruct (calculate_uptime_future_start clock_2024 Datetime.fromisoformat_seconds
              "2024-01-01T00:00:01Z" 0%nat
              {| Datetime.wall := new_year_2024 + 1000000;
                 Datetime.utcoffset := Some 0 |} 0
              ltac:(discriminate) ltac:(discriminate) eq_refl eq_refl eq_refl)
    as [H _].
  exact H.
Defined.

(** X11.  [calculate_uptime] on any JSON value, a string or not: it never
    raises; it reads the clock at most once, and only for a timestamp that
    parses; it logs nothing, or one debug line, and then the uptime is
    "Unknown"; a value that is no string gives "Not started" when it is
    falsy (null, false, zero, an empty list or dictionary) and "Unknown"
    otherwise, without the clock being read. *)
Theorem calculate_uptime_any_value :
  forall (clock : nat -> Z) (fromisoformat : string -> option Datetime.datetime)
         (v : json) (s : nat),
    let run := Monitor.calculate_uptime clock fromisoformat v s in
    exists uptime,
      outcome run = inr uptime /\
      (final run = s \/
       final run = S s /\
       exists text d, str_replace v "Z" "+00:00" = inr text /\
                      fromisoformat text = Some d) /\
      (trace run = [] \/
       uptime = "Unknown" /\ exists e, trace run = [uptime_log e]) /\
      ((forall text, v <> JStr text) ->
       final run = s /\
       uptime = if truthy v then "Unknown" else "Not started").
Proof.
  intros clock fromisoformat v s run. subst run.
  rewrite calculate_uptime_run.
  destruct v as [| b | n | text | items | fields];
    try (cbn [truthy eq_str negb orb str_replace];
         eexists; split; [reflexivity |];
         split; [left; reflexivity |];
         split; [left; reflexivity |]; intros _; split; reflexivity).
  - destruct b; cbn [truthy eq_str negb orb str_replace];
      eexists; (split; [reflexivity |]);
      (split; [left; reflexivity |]).
    + split; [right; split; [reflexivity | eexists; reflexivity] |].
      intros _; split; reflexivity.
    + split; [left; reflexivity |]. intros _; split; reflexivity.
  - cbn [truthy eq_str str_replace].
    destruct (n =? 0); cbn [negb orb];
      eexists; (split; [reflexivity |]);
      (split; [left; reflexivity |]).
    + split; [left; reflexivity |]. intros _; split; reflexivity.
    + split; [right; split; [reflexivity | eexists; reflexivity] |].
      intros _; split; reflexivity.
  - destruct (negb (truthy (JStr text)) || eq_str (JStr text) sentinel).
    { eexists. split; [reflexivity |]. split; [left; reflexivity |].
      split; [left; reflexivity |]. intros H. exfalso. exact (H text eq_refl). }
    cbn [str_replace].
    destruct (fromisoformat (replace "Z" "+00:00" text)) as [d |] eqn:Hparse.
    + destruct (Datetime.sub _ d) as [e | delta];
        eexists; (split; [reflexivity |]);
        (split; [right; split; [reflexivity | exists (replace "Z" "+00:00" text), d;
                                                split; [reflexivity | exact Hparse]] |]).
      * split; [right; split; [reflexivity | eexists; reflexivity] |].
        intros H. exfalso. exact (H text eq_refl).
      * split; [left; reflexivity |].
        intros H. exfalso. exact (H text eq_refl).
    + eexists. split; [reflexivity |]. split; [left; reflexivity |].
      split; [right; split; [reflexivity | eexists; reflexivity] |].
      intros H. exfalso. exact (H text eq_refl).
  - destruct items; cbn [truthy eq_str negb orb str_replace];
      eexists; (split; [reflexivity |]);
      (split; [left; reflexivity |]).
    + split; [left; reflexivity |]. intros _; split; reflexivity.
    + split; [right; split; [reflexivity | eexists; reflexivity] |].
      intros _; split; reflexivity.
  - destruct fields; cbn [truthy eq_str negb orb str_replace];
      eexists; (split; [reflexivity |]);
      (split; [left; reflexivity |]).
    + split; [left; reflexivity |]. intros _; split; reflexivity.
    + split; [right; split; [reflexivity | eexists; reflexivity] |].
      intros _; split; reflexivity.
Qed.

(** ** Names that differ only in what sanitising removes *)

Lemma sanitize_idempotent (n : string) : sanitize (sanitize n) = sanitize n.
Proof.
  induction n as [| c rest IH]; [reflexivity |].
  cbn [sanitize]. rewrite IH.
  destruct (Ascii.eqb c "-" || Ascii.eqb c ".") eqn:E; [reflexivity |].
  rewrite E. reflexivity.
Qed.

Lemma sanitize_length (n : string) : String.length (sanitize n) = String.length n.
Proof. induction n as [| c rest IH]; [reflexivity |]. cbn. rewrite IH. reflexivity. Qed.

Lemma sanitize_clean (n : string) :
  has_char "-" (sanitize n) = false /\ has_char "." (sanitize n) = false.
Proof.
  induction n as [| c rest [IH1 IH2]]; [split; reflexivity |].
  cbn [sanitize has_char]. rewrite IH1, IH2.
  destruct (Ascii.eqb_spec c "-") as [-> | H1]; [split; reflexivity |].
  destruct (Ascii.eqb_spec c ".") as [-> | H2]; [split; reflexivity |].
  cbn [orb]. split.
  - destruct (Ascii.eqb_spec c "-"); [contradiction | reflexivity].
  - destruct (Ascii.eqb_spec c "."); [contradiction | reflexivity].
Qed.

Lemma container_state_topic_injective cfg (n1 n2 : string) :
  container_state_topic cfg n1 = container_state_topic cfg n2 -> n1 = n2.
Proof.
  unfold container_state_topic. intros H.
  do 3 apply append_inj_l in H. apply append_inj_r in H. exact H.
Qed.

(** X12.  Sanitising loses information, and the descriptors inherit the
    loss: two container names have the same seven descriptor topics exactly
    when their sanitised names are equal, and then they have the same
    unique ids as well, so that the retained descriptors of the one replace
    those of the other; the state topics the descriptors point at are equal
    only for equal names.  A sanitised name has the length of the name, has
    no [-] and no [.], and sanitising it again changes nothing. *)
Theorem sanitised_names_share_descriptors :
  forall cfg (n1 n2 : string),
    (map fst (container_descriptors cfg n1) = map fst (container_descriptors cfg n2)
     <-> sanitize n1 = sanitize n2) /\
    (sanitize n1 = sanitize n2 ->
     map (fun msg => unique_id_of (snd msg)) (container_descriptors cfg n1) =
     map (fun msg => unique_id_of (snd msg)) (container_descriptors cfg n2)) /\
    (container_state_topic cfg n1 = container_state_topic cfg n2 <-> n1 = n2) /\
    sanitize (sanitize n1) = sanitize n1 /\
    String.length (sanitize n1) = String.length n1 /\
    has_char "-" (sanitize n1) = false /\
    has_char "." (sanitize n1) = false.
Proof.
  intros cfg n1 n2.
  split.
  { split.
    - unfold container_descriptors. cbv zeta. cbn [map fst]. intros H.
      inversion H as [[H1 H2 H3 H4 H5 H6]]. clear - H6.
      apply append_inj_l in H6. cbn [append] in H6. inversion H6 as [H7].
      apply append_inj_r in H7. exact H7.
    - intros H. unfold container_descriptors, unique_prefix. cbv zeta.
      cbn [map fst]. rewrite H. reflexivity. }
  split.
  { intros H. unfold container_descriptors, unique_prefix. cbv zeta.
    cbn [map snd]. unfold sensor, binary_sensor, unique_id_of.
    rewrite H. reflexivity. }
  split.
  { split; [apply container_state_topic_injective | intros ->; reflexivity]. }
  split; [apply sanitize_idempotent |].
  split; [apply sanitize_length |].
  apply sanitize_clean.
Qed.

(** Two names that collide. *)
Lemma dash_and_dot_collide :
  map fst (container_descriptors (discovery_config false) "my-app") =
  map fst (container_descriptors (discovery_config false) "my.app") /\
  container_state_topic (discovery_config false) "my-app" <>
  container_state_topic (discovery_config false) "my.app".
Proof.
  split; [reflexivity |].
  intros H. apply container_state_topic_injective in H. discriminate H.
Qed.

(** ** The dry run of the discovery publisher *)

Lemma loop_dry_run cfg (containers : list Container) (s : nat) :
  Discovery.DEBUG cfg = true ->
  trace (discovery_loop cfg None containers s) = map would_publish_log containers.
Proof.
  intros Hdebug. induction containers as [| c rest IH]; [reflexivity |].
  rewrite (loop_cons cfg None c rest s). cbn [trace fst]. rewrite IH.
  unfold try_except. rewrite publish_container_discovery_run.
  cbn [is_None andb]. rewrite Hdebug. reflexivity.
Qed.

(** X13.  The dry run of the discovery publisher: in debug mode, once the
    daemon is reached and the enumeration returns, the run returns after
    logging one line for the fleet and one line "DEBUG: Would publish
    discovery for <name>" for each container, in the order of the
    enumeration; it makes no use of the broker, looks up no image - a
    container whose image is gone is listed like the others - and does not
    sleep. *)
Theorem discovery_dry_run :
  forall cfg (docker_client : DockerClient) (connect : result Client)
         (containers : list Container) (s : nat),
    Discovery.DEBUG cfg = true ->
    containers_list docker_client true = inr containers ->
    Discovery.main cfg (inr docker_client) connect s =
    ((discovery_banner cfg ++
      [Log LvlInfo "Connected to Docker daemon" NoArg;
       Log LvlInfo "DEBUG mode: MQTT publishing disabled" NoArg;
       Log LvlInfo ("Found " ++ str_of_int (len containers) ++ " containers") NoArg;
       Log LvlDebug "DEBUG: Would publish summary discovery" NoArg] ++
      map would_publish_log containers ++
      [complete_log containers])%list, s, inr tt).
Proof.
  intros cfg docker_client connect containers s Hdebug Hlist.
  rewrite discovery_main_run, Hdebug, Hlist. cbv zeta.
  rewrite discover_run. cbv zeta.
  rewrite publish_summary_discovery_run. cbn [is_None andb]. rewrite Hdebug.
  cbn [outcome trace fst snd]. rewrite (loop_dry_run cfg containers s Hdebug).
  reflexivity.
Qed.

Lemma discovery_dry_run_witness :
  Discovery.main (discovery_config true)
    (inr (daemon [handle "web" [] "nginx:1.25" []; imageless "odd"]))
    (inl (LibraryError "[Errno 111] Connection refused")) 0%nat =
  ((discovery_banner (discovery_config true) ++
    [Log LvlInfo "Connected to Docker daemon" NoArg;
     Log LvlInfo "DEBUG mode: MQTT publishing disabled" NoArg;
     Log LvlInfo ("Found " ++ str_of_int 2 ++ " containers") NoArg;
     Log LvlDebug "DEBUG: Would publish summary discovery" NoArg] ++
    [would_publish_log (handle "web" [] "nginx:1.25" []);
     would_publish_log (imageless "odd")] ++
    [complete_log [handle "web" [] "nginx:1.25" []; imageless "odd"]])%list,
   0%nat, inr tt).
Proof.
  apply (discovery_dry_run (discovery_config true)
           (daemon [handle "web" [] "nginx:1.25" []; imageless "odd"])
           (inl (LibraryError "[Errno 111] Connection refused"))
           [handle "web" [] "nginx:1.25" []; imageless "odd"] 0%nat
           eq_refl eq_refl).
Defined.

(** ** The constants of the two scripts *)

Ltac each_ascii x :=
  destruct x as [[] [] [] [] [] [] [] []].

Lemma lower_char_t (x : ascii) :
  Environment.lower_char x = "t"%char <-> either_case "t" "T" x.
Proof.
  unfold either_case. split.
  - each_ascii x; vm_compute; intros H; try discriminate H; auto.
  - intros [-> | ->]; reflexivity.
Qed.

Lemma lower_char_r (x : ascii) :
  Environment.lower_char x = "r"%char <-> either_case "r" "R" x.
Proof.
  unfold either_case. split.
  - each_ascii x; vm_compute; intros H; try discriminate H; auto.
  - intros [-> | ->]; reflexivity.
Qed.

Lemma lower_char_u (x : ascii) :
  Environment.lower_char x = "u"%char <-> either_case "u" "U" x.
Proof.
  unfold either_case. split.
  - each_ascii x; vm_compute; intros H; try discriminate H; auto.
  - intros [-> | ->]; reflexivity.
Qed.

Lemma lower_char_e (x : ascii) :
  Environment.lower_char x = "e"%char <-> either_case "e" "E" x.
Proof.
  unfold either_case. split.
  - each_ascii x; vm_compute; intros H; try discriminate H; auto.
  - intros [-> | ->]; reflexivity.
Qed.

Lemma lower_true (value : string) :
  Environment.lower value = "true" <-> spells_true value.
Proof.
  split.
  - intros H.
    destruct value as [| a [| b [| c [| d [| x rest]]]]]; try discriminate H.
    cbn [Environment.lower] in H. inversion H as [[Ha Hb Hc Hd]].
    exists a, b, c, d. split; [reflexivity |].
    rewrite <- lower_char_t, <- lower_char_r, <- lower_char_u, <- lower_char_e.
    repeat split; assumption.
  - intros (a & b & c & d & -> & Ha & Hb & Hc & Hd).
    apply lower_char_t in Ha. apply lower_char_r in Hb.
    apply lower_char_u in Hc. apply lower_char_e in Hd.
    cbn [Environment.lower]. rewrite Ha, Hb, Hc, Hd. reflexivity.
Qed.

Section LoadedConstants.

Variable int : string -> option Z.

(** Where the constants of the monitor load, those of the discovery
    publisher load. *)
Lemma discovery_constants_load (env : Environment.Environ) (mcfg : Monitor.Config) :
  Environment.monitor_constants int env = inr mcfg ->
  exists dcfg, Environment.discovery_constants int env = inr dcfg.
Proof.
  unfold Environment.monitor_constants, Environment.discovery_constants.
  cbv zeta.
  destruct (Environment.int_of int (Environment.getenv env "PORT" "1883"));
    [discriminate |].
  intros _. eexists. reflexivity.
Qed.

End LoadedConstants.

(** X14.  The two scripts, started in the same environment, are configured
    alike: when the constants of the monitor load, those of the discovery
    publisher load too, with the same device id, version, broker, port,
    credentials, log level and debug flag; the descriptors then subscribe
    to the very topics on which the monitor publishes. *)
Theorem same_environment_same_topics :
  forall (int : string -> option Z) (env : Environment.Environ)
         (mcfg : Monitor.Config),
    Environment.monitor_constants int env = inr mcfg ->
    exists dcfg,
      Environment.discovery_constants int env = inr dcfg /\
      Discovery.DEVICE_ID dcfg = Monitor.DEVICE_ID mcfg /\
      Discovery.SENTRYLAB_VERSION dcfg = Monitor.SENTRYLAB_VERSION mcfg /\
      Discovery.BROKER dcfg = Monitor.BROKER mcfg /\
      Discovery.PORT dcfg = Monitor.PORT mcfg /\
      Discovery.USER dcfg = Monitor.USER mcfg /\
      Discovery.PASS dcfg = Monitor.PASS mcfg /\
      Discovery.LOG_LEVEL dcfg = Monitor.LOG_LEVEL mcfg /\
      Discovery.DEBUG dcfg = Monitor.DEBUG mcfg /\
      fleet_state_topic dcfg = summary_topic mcfg /\
      (forall c, container_state_topic dcfg (name c) = state_topic mcfg c).
Proof.
  intros int env mcfg Hm.
  destruct (discovery_constants_load int env mcfg Hm) as [dcfg Hd].
  exists dcfg. split; [exact Hd |].
  unfold Environment.monitor_constants, Environment.discovery_constants in Hm, Hd.
  cbv zeta in Hm, Hd.
  destruct (Environment.int_of int (Environment.getenv env "PORT" "1883"))
    as [e | port]; [discriminate Hm |].
  destruct (Environment.int_of int (Environment.getenv env "POLL_INTERVAL" "30"))
    as [e | poll_interval]; [discriminate Hm |].
  inversion Hm as [Hm']. inversion Hd as [Hd']. clear Hm Hd.
  cbn [Discovery.DEVICE_ID Discovery.SENTRYLAB_VERSION Discovery.BROKER
       Discovery.PORT Discovery.USER Discovery.PASS Discovery.LOG_LEVEL
       Discovery.DEBUG Monitor.DEVICE_ID Monitor.SENTRYLAB_VERSION Monitor.BROKER
       Monitor.PORT Monitor.USER Monitor.PASS Monitor.LOG_LEVEL Monitor.DEBUG].
  do 8 (split; [reflexivity |]).
  split; [reflexivity |]. intros c. reflexivity.
Qed.

Lemma same_environment_same_topics_witness :
  exists dcfg,
    Environment.discovery_constants int_decimal
      (environ [("DEVICE_ID", "nas"); ("DEBUG", "TRUE")] (inr ("0.1.11" ++ String "010" ""))) = inr dcfg /\
    Discovery.DEVICE_ID dcfg = "nas" /\
    Discovery.SENTRYLAB_VERSION dcfg = "0.1.11" /\
    Discovery.DEBUG dcfg = true /\
    fleet_state_topic dcfg = "docker/nas/summary".
Proof.
  destruct (same_environment_same_topics int_decimal
              (environ [("DEVICE_ID", "nas"); ("DEBUG", "TRUE")] (inr ("0.1.11" ++ String "010" "")))
              _ eq_refl)
    as (dcfg & Hd & Hid & Hv & _ & _ & _ & _ & _ & Hdebug & Hsum & _).
  exists dcfg. split; [exact Hd |].
  split; [exact Hid |]. split; [exact Hv |]. split; [exact Hdebug |]. exact Hsum.
Defined.

(** X15.  How the constants load.  Loading fails, with [ValueError], exactly
    when [int] refuses the port or, for the monitor, the poll interval;
    what reading the version file does never makes it fail.  The debug
    flag is set exactly when the variable [DEBUG] holds one of the sixteen
    spellings of "true": no other value, such as "1" or "yes" or " true",
    enables it.  The version is the variable [SENTRYLAB_VERSION] unless it
    is unset or "unknown"; it is then the stripped content of the version
    file, and "unknown" when the file cannot be read. *)
Theorem constants_from_environment :
  forall (int : string -> option Z) (env : Environment.Environ),
    let port := Environment.getenv env "PORT" "1883" in
    let poll_interval := Environment.getenv env "POLL_INTERVAL" "30" in
    (match Environment.monitor_constants int env with
     | inl e => e = ValueError /\ (int port = None \/ int poll_interval = None)
     | inr mcfg =>
         int port = Some (Monitor.PORT mcfg) /\
         int poll_interval = Some (Monitor.POLL_INTERVAL mcfg) /\
         Monitor.SENTRYLAB_VERSION mcfg = Environment.sentrylab_version env /\
         (Monitor.DEBUG mcfg = true <->
          exists value, Environment.variables env "DEBUG" = Some value /\
                        spells_true value)
     end) /\
    (match Environment.discovery_constants int env with
     | inl e => e = ValueError /\ int port = None
     | inr dcfg =>
         int port = Some (Discovery.PORT dcfg) /\
         Discovery.SENTRYLAB_VERSION dcfg = Environment.sentrylab_version env /\
         (Discovery.DEBUG dcfg = true <->
          exists value, Environment.variables env "DEBUG" = Some value /\
                        spells_true value)
     end) /\
    (forall version,
        Environment.variables env "SENTRYLAB_VERSION" = Some version ->
        version <> "unknown" ->
        Environment.sentrylab_version env = version) /\
    (Environment.variables env "SENTRYLAB_VERSION" = None \/
     Environment.variables env "SENTRYLAB_VERSION" = Some "unknown" ->
     Environment.sentrylab_version env =
     match Environment.version_file env with
     | inr content => Environment.strip content
     | inl _ => "unknown"
     end).
Proof.
  intros int env port poll_interval.
  assert (Hdebug : String.eqb (Environment.lower (Environment.getenv env "DEBUG" "false"))
                     "true" = true <->
                   exists value, Environment.variables env "DEBUG" = Some value /\
                                 spells_true value).
  { rewrite String.eqb_eq, lower_true. unfold Environment.getenv.
    destruct (Environment.variables env "DEBUG") as [value |].
    - split; [intros H; exists value; split; [reflexivity | exact H] |].
      intros (v & Hv & Hs). inversion Hv. exact Hs.
    - split; [| intros (v & Hv & _); discriminate Hv].
      intros (a & b & c & d & H & _). discriminate H. }
  split.
  { unfold Environment.monitor_constants, Environment.int_of. cbv zeta.
    fold port poll_interval.
    destruct (int port) as [p |]; [| split; [reflexivity | left; reflexivity]].
    destruct (int poll_interval) as [i |];
      [| split; [reflexivity | right; reflexivity]].
    cbn [Monitor.PORT Monitor.POLL_INTERVAL Monitor.SENTRYLAB_VERSION Monitor.DEBUG].
    repeat (split; [reflexivity |]). exact Hdebug. }
  split.
  { unfold Environment.discovery_constants, Environment.int_of. cbv zeta.
    fold port.
    destruct (int port) as [p |]; [| split; reflexivity].
    cbn [Discovery.PORT Discovery.SENTRYLAB_VERSION Discovery.DEBUG].
    repeat (split; [reflexivity |]). exact Hdebug. }
  split.
  { intros version Hv Hne. unfold Environment.sentrylab_version, Environment.getenv.
    cbv zeta. rewrite Hv.
    destruct (String.eqb_spec version "unknown"); [contradiction | reflexivity]. }
  intros [Hv | Hv]; unfold Environment.sentrylab_version, Environment.getenv;
    cbv zeta; rewrite Hv; reflexivity.
Qed.

(** ** The messages of the monitor *)

Section StateMessages.

Variable cfg : Monitor.Config.
Variable clock : nat -> Z.
Variable fromisoformat : string -> option Datetime.datetime.
Variable mqtt_client : option Client.

Lemma publish_container_state_messages (c : Container) :
  emits_only (state_message cfg clock fromisoformat c)
    (Monitor.publish_container_state cfg clock fromisoformat mqtt_client c).
Proof.
  intros s. unfold Monitor.publish_container_state.
  unfold bind at 1.
  pose proof (get_container_state_run clock fromisoformat c s) as Hrun.
  rewrite Hrun.
  destruct (refresh_and_read c) as [e | [[[state health] image] started_at]].
  - repeat constructor.
  - cbv zeta in *. cbn [snapshot].
    assert (Hq : Forall (state_message cfg clock fromisoformat c)
                   (trace (Monitor.calculate_uptime clock fromisoformat started_at s))).
    { eapply Forall_impl; [| apply calculate_uptime_quiet].
      intros [tp p r | lvl msg arg | n] H; try exact I. discriminate H. }
    destruct mqtt_client as [client |]; cbn [is_None andb].
    + unfold publish. fold (state_topic cfg c).
      destruct (refuses client _ _) eqn:Href.
      * unfold bind, lift, log, emit, ret, raise.
        cbn [getitem assoc String.eqb Ascii.eqb Bool.eqb trace fst snd].
        rewrite ?app_nil_r. exact Hq.
      * unfold bind, lift, log, emit, ret.
        cbn [getitem assoc String.eqb Ascii.eqb Bool.eqb trace fst snd].
        rewrite ?app_nil_r. apply Forall_app. split; [exact Hq |].
        constructor; [| repeat constructor].
        split; [reflexivity |]. split; [reflexivity |].
        exists s. eexists. split; [rewrite Hrun; reflexivity | reflexivity].
    + destruct (Monitor.DEBUG cfg).
      * unfold bind, lift, log, emit, ret.
        cbn [getitem assoc String.eqb Ascii.eqb Bool.eqb trace fst snd].
        rewrite ?app_nil_r. apply Forall_app. split; [exact Hq |].
        repeat constructor.
      * unfold ret. cbn [trace fst]. rewrite ?app_nil_r. exact Hq.
Qed.

End StateMessages.

Lemma each_state_messages_shaped cfg clock fromisoformat mqtt_client
  (containers : list Container) :
  emits_only (fun ev => exists c, In c containers /\
                                  state_message cfg clock fromisoformat c ev)
    (Monitor.monitor_each cfg clock fromisoformat mqtt_client containers).
Proof.
  apply emits_only_for_each. intros c Hc.
  apply (emits_only_weaken (state_message cfg clock fromisoformat c)).
  { intros ev H. exists c. split; assumption. }
  apply emits_only_try_except; [apply publish_container_state_messages |].
  intros e. apply emits_only_log. exact I.
Qed.

Lemma publish_summary_topic cfg clock mqtt_client (containers : list Container)
  (s : nat) (topic payload : string) (retain : bool) :
  In (Publish topic payload retain)
    (trace (Monitor.publish_summary cfg clock mqtt_client containers s)) ->
  topic = summary_topic cfg.
Proof.
  rewrite publish_summary_run. cbv zeta.
  destruct mqtt_client as [client |].
  - destruct (refuses client _ _); cbn [trace fst In]; [intros [] |].
    intros [H | [H | []]]; [| discriminate H]. inversion H. reflexivity.
  - destruct (Monitor.DEBUG cfg); cbn [trace fst In]; [| intros []].
    intros [H | []]. discriminate H.
Qed.

(** X16.  Every message of a poll cycle that is not on the summary topic is
    the state message of an enumerated container: retained, on the topic
    of that container, and with the dictionary that [get_container_state]
    returned for it as payload; that dictionary has the same eleven keys
    in the same order for every container, and its uptime and its
    timestamp are strings. *)
Theorem state_messages_have_one_shape :
  forall cfg clock fromisoformat (docker_client : DockerClient)
         (mqtt_client : option Client) (s : nat)
         (topic payload : string) (retain : bool),
    In (Publish topic payload retain)
      (trace (Monitor.monitor_containers cfg clock fromisoformat
                docker_client mqtt_client s)) ->
    topic <> summary_topic cfg ->
    exists containers c s' fields,
      containers_list docker_client true = inr containers /\
      In c containers /\
      topic = state_topic cfg c /\
      retain = true /\
      outcome (Monitor.get_container_state clock fromisoformat c s') =
      inr (Some fields) /\
      payload = json_dumps (JDict fields) /\
      map fst fields = state_keys /\
      (exists uptime, assoc "uptime" fields = Some (JStr uptime)) /\
      (exists stamp, assoc "timestamp" fields = Some (JStr stamp)).
Proof.
  intros cfg clock fromisoformat docker_client mqtt_client s topic payload retain
         Hin Hne.
  rewrite monitor_containers_run in Hin.
  destruct (containers_list docker_client true) as [e | containers] eqn:Hlist.
  { destruct Hin as [H | []]. discriminate H. }
  cbv zeta in Hin.
  assert (Hloop : In (Publish topic payload retain)
                    (trace (Monitor.monitor_each cfg clock fromisoformat mqtt_client
                              containers
                              (final (Monitor.publish_summary cfg clock mqtt_client
                                        containers s))))).
  { destruct (outcome (Monitor.publish_summary cfg clock mqtt_client containers s));
      cbn [trace fst] in Hin;
      (destruct Hin as [H | Hin]; [discriminate H |]);
      apply in_app_or in Hin;
      (destruct Hin as [Hin | Hin];
       [exfalso; apply Hne;
        exact (publish_summary_topic _ _ _ _ _ _ _ _ Hin) |]).
    - destruct Hin as [H | []]. discriminate H.
    - apply in_app_or in Hin. destruct Hin as [Hin | [H | []]];
        [exact Hin | discriminate H]. }
  pose proof (each_state_messages_shaped cfg clock fromisoformat mqtt_client
                containers
                (final (Monitor.publish_summary cfg clock mqtt_client containers s)))
    as Hall.
  rewrite Forall_forall in Hall.
  destruct (Hall _ Hloop) as (c & Hc & Htopic & Hretain & s' & fields & Hfields & Hp).
  exists containers, c, s', fields.
  split; [reflexivity |]. split; [exact Hc |]. split; [exact Htopic |].
  split; [exact Hretain |]. split; [exact Hfields |]. split; [exact Hp |].
  rewrite get_container_state_run in Hfields.
  destruct (refresh_and_read c) as [e | [[[state health] image] started_at]];
    [discriminate Hfields |].
  cbv zeta in Hfields. cbn [outcome snd] in Hfields.
  inversion Hfields as [Hf]. clear Hfields.
  split; [reflexivity |].
  split; eexists; reflexivity.
Qed.

Lemma state_messages_have_one_shape_witness :
  let cycle := Monitor.monitor_containers monitor_config clock_2024
                 Datetime.fromisoformat_seconds (daemon fleet) (Some broker) 0%nat in
  exists payload,
    In (Publish "docker/docker_host/db/state" payload true) (trace cycle) /\
    exists containers c s' fields,
      containers_list (daemon fleet) true = inr containers /\
      In c containers /\
      "docker/docker_host/db/state" = state_topic monitor_config c /\
      true = true /\
      outcome (Monitor.get_container_state clock_2024 Datetime.fromisoformat_seconds
                 c s') = inr (Some fields) /\
      payload = json_dumps (JDict fields) /\
      map fst fields = state_keys /\
      (exists uptime, assoc "uptime" fields = Some (JStr uptime)) /\
      (exists stamp, assoc "timestamp" fields = Some (JStr stamp)).
Proof.
  intros cycle.
  assert (H : { payload | In (Publish "docker/docker_host/db/state" payload true)
                            (trace cycle) }).
  { eexists. vm_compute. repeat (try (left; reflexivity); right). }
  destruct H as [payload H]. exists payload. split; [exact H |].
  apply (state_messages_have_one_shape monitor_config clock_2024
           Datetime.fromisoformat_seconds (daemon fleet) (Some broker) 0%nat
           "docker/docker_host/db/state" payload true H).
  discriminate.
Defined.

(** ** A state message that the client refuses *)

Lemma publish_accepted (client : Client) (topic payload : string) (retain : bool) :
  emits_only (accepted client) (publish client topic payload retain).
Proof.
  intros s. unfold publish.
  destruct (refuses client topic payload) eqn:H; repeat constructor. exact H.
Qed.

Lemma quiet_accepted (client : Client) (t : list Event) :
  Forall not_publish t -> Forall (accepted client) t.
Proof.
  apply Forall_impl. intros [tp p r | lvl msg arg | n] H; try exact I.
  discriminate H.
Qed.

Section Refusal.

Variable cfg : Monitor.Config.
Variable clock : nat -> Z.
Variable fromisoformat : string -> option Datetime.datetime.
Variable client : Client.

Lemma each_accepted (containers : list Container) :
  emits_only (accepted client)
    (Monitor.monitor_each cfg clock fromisoformat (Some client) containers).
Proof.
  apply emits_only_for_each. intros c _.
  apply emits_only_try_except; [| intros e; apply emits_only_log; exact I].
  unfold Monitor.publish_container_state.
  apply emits_only_bind.
  { intros s. apply quiet_accepted. apply get_container_state_quiet. }
  intros [[| field fields] |]; try apply emits_only_ret.
  cbn [is_None andb].
  apply emits_only_bind; [apply publish_accepted | intros _].
  apply emits_only_bind; [apply emits_only_lift |].
  intros shown. apply emits_only_log. exact I.
Qed.

(** The guarded call of the loop on a container whose state is read and
    whose message the client refuses: the error is logged. *)
Lemma guarded_refused (c : Container) (e : exn) (s : nat) :
  readable c = true ->
  (forall payload, refuses client (state_topic cfg c) payload = Some e) ->
  In (container_error_log c e)
    (trace (Monitor.monitor_each cfg clock fromisoformat (Some client) [c] s)).
Proof.
  intros Hr Href. unfold Monitor.monitor_each. cbn [for_each].
  unfold bind at 1, try_except, Monitor.publish_container_state.
  unfold readable in Hr.
  unfold bind at 1. rewrite get_container_state_run.
  destruct (refresh_and_read c) as [e0 | [[[state health] image] started_at]];
    [discriminate Hr |].
  cbv zeta. cbn [snapshot is_None andb]. unfold publish.
  fold (state_topic cfg c). rewrite Href.
  unfold bind, lift, log, emit, ret, raise, container_error_log.
  cbn [trace fst snd]. rewrite ?app_nil_r.
  apply in_or_app. right. left. reflexivity.
Qed.

Lemma each_refused (containers : list Container) (c : Container) (e : exn) (s : nat) :
  In c containers ->
  readable c = true ->
  (forall payload, refuses client (state_topic cfg c) payload = Some e) ->
  In (container_error_log c e)
    (trace (Monitor.monitor_each cfg clock fromisoformat (Some client) containers s)).
Proof.
  intros Hin Hr Href. apply in_split in Hin. destruct Hin as (l1 & l2 & ->).
  destruct (each_app cfg clock fromisoformat (Some client) l1 (c :: l2) s) as [Ht _].
  rewrite Ht. apply in_or_app. right.
  destruct (each_app cfg clock fromisoformat (Some client) [c] l2
              (final (Monitor.monitor_each cfg clock fromisoformat (Some client) l1 s)))
    as [Ht' _].
  change (c :: l2) with ([c] ++ l2)%list. rewrite Ht'.
  apply in_or_app. left. apply guarded_refused; assumption.
Qed.

End Refusal.

(** X17.  A state message that the client refuses costs only that message:
    in a cycle whose summary the client takes, a container whose state is
    read but whose topic the client refuses gets one error line and no
    publish; every other container whose state is read and whose topic the
    client takes is published, before or after it; no message that the
    client refuses appears among the publishes; the cycle returns. *)
Theorem refused_state_is_isolated :
  forall cfg clock fromisoformat (docker_client : DockerClient) (client : Client)
         (containers : list Container) (failing : Container) (e : exn) (s : nat),
    containers_list docker_client true = inr containers ->
    (forall payload, refuses client (summary_topic cfg) payload = None) ->
    In failing containers ->
    readable failing = true ->
    (forall payload, refuses client (state_topic cfg failing) payload = Some e) ->
    let cycle := Monitor.monitor_containers cfg clock fromisoformat docker_client
                   (Some client) s in
    outcome cycle = inr tt /\
    In (container_error_log failing e) (trace cycle) /\
    count_topic (state_topic cfg failing) (trace cycle) = 0%nat /\
    Forall (accepted client) (trace cycle) /\
    (forall c state health image started_at,
        In c containers ->
        refresh_and_read c = inr (state, health, image, started_at) ->
        (forall payload, refuses client (state_topic cfg c) payload = None) ->
        exists payload, In (Publish (state_topic cfg c) payload true) (trace cycle)).
Proof.
  intros cfg clock fromisoformat docker_client client containers failing e s
         Hlist Hsum Hin Hr Href cycle.
  assert (Hrun : cycle =
                 ((monitoring_log containers ::
                   trace (Monitor.publish_summary cfg clock (Some client) containers s) ++
                   trace (Monitor.monitor_each cfg clock fromisoformat (Some client)
                            containers (S s)) ++
                   [updated_log containers])%list,
                  final (Monitor.monitor_each cfg clock fromisoformat (Some client)
                           containers (S s)), inr tt)).
  { subst cycle. rewrite monitor_containers_run, Hlist. cbv zeta.
    rewrite publish_summary_run. cbv zeta. rewrite Hsum.
    cbn [outcome trace final fst snd]. reflexivity. }
  assert (Hacc : Forall (accepted client) (trace cycle)).
  { rewrite Hrun. cbn [trace fst]. constructor; [exact I |].
    apply Forall_app. split.
    - rewrite publish_summary_run. cbv zeta. rewrite Hsum. cbn [trace fst].
      constructor; [apply Hsum | repeat constructor].
    - apply Forall_app. split; [apply each_accepted | repeat constructor]. }
  split; [rewrite Hrun; reflexivity |].
  split.
  { rewrite Hrun. cbn [trace fst]. right. apply in_or_app. right.
    apply in_or_app. left. apply each_refused; assumption. }
  split.
  { apply count_topic_absent. intros payload retain Hp.
    rewrite Forall_forall in Hacc. specialize (Hacc _ Hp). cbn in Hacc.
    rewrite Href in Hacc. discriminate Hacc. }
  split; [exact Hacc |].
  intros c state health image started_at Hc Hread Htakes.
  destruct (each_publishes cfg clock fromisoformat (Some client) containers c client
              state health image started_at (S s) eq_refl Htakes Hread Hc)
    as [payload Hp].
  exists payload. rewrite Hrun. cbn [trace fst]. right.
  apply in_or_app. right. apply in_or_app. left. exact Hp.
Qed.

Lemma refused_state_is_isolated_witness :
  let cycle := Monitor.monitor_containers monitor_config clock_2024
                 Datetime.fromisoformat_seconds (daemon fleet) (Some picky_broker)
                 0%nat in
  outcome cycle = inr tt /\
  topics (trace cycle) =
  ["docker/docker_host/summary"; "docker/docker_host/web/state";
   "docker/docker_host/cache/state"] /\
  In (container_error_log
        (handle "db" [("Status", JStr "exited")] "postgres:16" ["postgres:16"])
        (LibraryError "The client is not currently connected.")) (trace cycle).
Proof.
  intros cycle.
  destruct (refused_state_is_isolated monitor_config clock_2024
              Datetime.fromisoformat_seconds (daemon fleet) picky_broker fleet
              (handle "db" [("Status", JStr "exited")] "postgres:16" ["postgres:16"])
              (LibraryError "The client is not currently connected.") 0%nat
              eq_refl (fun _ => eq_refl) (or_intror (or_introl eq_refl)) eq_refl
              (fun _ => eq_refl))
    as (Ho & Hlog & _).
  split; [exact Ho |]. split; [vm_compute; reflexivity | exact Hlog].
Defined.

(** ** What the broker receives over a whole run of the monitor *)

Section WholeRun.

Variable cfg : Monitor.Config.
Variable clock : nat -> Z.
Variable fromisoformat : string -> option Datetime.datetime.
Variable client : Client.
Hypothesis Hacc : accepts_all client.
Hypothesis Hsleep : sleepable (Monitor.POLL_INTERVAL cfg).

(** The topics of one round. *)
Let round (containers : list Container) : list string :=
  summary_topic cfg :: map (state_topic cfg) (filter readable containers).

Lemma connected_cycle_topics (docker_client : DockerClient)
  (containers : list Container) (s : nat) :
  containers_list docker_client true = inr containers ->
  topics (trace (Monitor.monitor_containers cfg clock fromisoformat
                   docker_client (Some client) s)) = round containers.
Proof.
  intros Hlist. unfold round.
  rewrite monitor_containers_run, Hlist. cbv zeta.
  rewrite publish_summary_run. cbv zeta. rewrite Hacc.
  cbn [outcome trace final fst snd app]. unfold monitoring_log.
  change (topics (?a :: Publish ?tp ?p ?r :: ?b :: ?t)) with (tp :: topics t).
  rewrite topics_app, (each_topics cfg clock fromisoformat client containers (S s) Hacc).
  cbn. rewrite app_nil_r. reflexivity.
Qed.

Lemma poll_topics (docker : nat -> DockerClient) (lists : nat -> list Container)
  (i cycles s : nat) :
  (forall j, (i <= j < i + cycles)%nat ->
             containers_list (docker j) true = inr (lists j)) ->
  topics (trace (Monitor.poll cfg clock fromisoformat docker (Some client) i cycles s)) =
  flat_map (fun j => round (lists j)) (seq i cycles).
Proof.
  revert i s. induction cycles as [| n IH]; intros i s Hlists; [reflexivity |].
  rewrite poll_step by exact Hsleep. cbv zeta. cbn [trace fst].
  rewrite topics_app.
  rewrite (connected_cycle_topics (docker i) (lists i) s (Hlists i ltac:(lia))).
  change (topics (?a :: Sleep ?z :: ?t)) with (topics t).
  rewrite IH by (intros j Hj; apply Hlists; lia).
  reflexivity.
Qed.

End WholeRun.

(** X18.  What the broker receives over a whole run of the monitor: outside
    debug mode, with a poll interval that [time.sleep] takes and the broker
    connected and taking every publish, a run of [main] that is interrupted
    after n rounds has published, round after round, the summary topic
    followed by the state topic of each container of that round's
    enumeration whose state is read, and nothing else; a round depends on
    its own enumeration only. *)
Theorem monitor_publishes_round_by_round :
  forall cfg clock fromisoformat (docker : nat -> DockerClient) (client : Client)
         (lists : nat -> list Container) (cycles s : nat),
    Monitor.DEBUG cfg = false ->
    sleepable (Monitor.POLL_INTERVAL cfg) ->
    accepts_all client ->
    (forall j, (j < cycles)%nat -> containers_list (docker j) true = inr (lists j)) ->
    topics (trace (Monitor.main cfg clock fromisoformat (inr docker) (inr client)
                     cycles s)) =
    flat_map (fun j => summary_topic cfg ::
                       map (state_topic cfg) (filter readable (lists j)))
      (seq 0 cycles).
Proof.
  intros cfg clock fromisoformat docker client lists cycles s Hdebug Hsleep Hacc
         Hlists.
  rewrite (main_running cfg clock fromisoformat docker (inr client) cycles s Hsleep
             (or_intror (ex_intro _ client eq_refl))).
  rewrite Hdebug. cbn [trace fst].
  rewrite topics_app, (topics_quiet _ (banner_quiet cfg)). cbn [app].
  change (topics (?a :: Sleep ?z :: ?t)) with (topics t).
  rewrite topics_app.
  rewrite (poll_topics cfg clock fromisoformat client Hacc Hsleep docker lists 0
             cycles s)
    by (intros j Hj; apply Hlists; lia).
  cbn. apply app_nil_r.
Qed.

Lemma monitor_publishes_round_by_round_witness :
  topics (trace (Monitor.main monitor_config clock_2024 Datetime.fromisoformat_seconds
                   (inr (fun j => match j with
                                  | O => daemon [handle "web" [] "nginx" []]
                                  | _ => daemon [vanished "web";
                                                 handle "db" [] "postgres" []]
                                  end))
                   (inr broker) 2%nat 0%nat)) =
  ["docker/docker_host/summary"; "docker/docker_host/web/state";
   "docker/docker_host/summary"; "docker/docker_host/db/state"].
Proof.
  apply (monitor_publishes_round_by_round monitor_config clock_2024
           Datetime.fromisoformat_seconds
           (fun j => match j with
                     | O => daemon [handle "web" [] "nginx" []]
                     | _ => daemon [vanished "web"; handle "db" [] "postgres" []]
                     end)
           broker
           (fun j => match j with
                     | O => [handle "web" [] "nginx" []]
                     | _ => [vanished "web"; handle "db" [] "postgres" []]
                     end)
           2%nat 0%nat eq_refl).
  - unfold sleepable. simpl. lia.
  - exact broker_accepts_all.
  - intros [| j] _; reflexivity.
Defined.

(** ** A poll interval that [time.sleep] refuses *)

(** X19.  A negative poll interval, which loads without complaint, stops
    the monitor in its first round: once the daemon is reached and, outside
    debug mode, the broker is connected, [main] runs one poll cycle, logs
    the line of the sleep, and ends on the [ValueError] of [time.sleep],
    after logging "Fatal error" and "Monitoring stopped"; no second round is
    run and the interval is never slept. *)
Theorem monitor_main_refused_sleep :
  forall cfg clock fromisoformat (docker : nat -> DockerClient)
         (connect : result Client) (cycles s : nat),
    -9223372036 <= Monitor.POLL_INTERVAL cfg < 0 ->
    (Monitor.DEBUG cfg = true \/ exists client, connect = inr client) ->
    let mqtt_client :=
      if Monitor.DEBUG cfg then None
      else match connect with inr client => Some client | inl _ => None end in
    let round := Monitor.monitor_containers cfg clock fromisoformat (docker 0%nat)
                   mqtt_client s in
    Monitor.main cfg clock fromisoformat (inr docker) connect (S cycles) s =
    ((banner cfg ++
      Log LvlInfo "Connected to Docker daemon" NoArg ::
      (if Monitor.DEBUG cfg
       then [Log LvlInfo "DEBUG mode: MQTT publishing disabled" NoArg]
       else [Sleep 2]) ++
      trace round ++
      [sleeping_log cfg; fatal_log ValueError; stopped_log])%list,
     final round, inl ValueError).
Proof.
  intros cfg clock fromisoformat docker connect cycles s Hneg H.
  cbv zeta.
  rewrite (main_connected cfg clock fromisoformat docker connect (S cycles) s H).
  cbv zeta. rewrite poll_round, (negative_refused _ Hneg). cbv zeta.
  cbn [trace final outcome fst snd]. rewrite <- !app_assoc. reflexivity.
Qed.

Lemma monitor_main_refused_sleep_witness :
  let run := Monitor.main hasty_monitor_config clock_2024
               Datetime.fromisoformat_seconds
               (inr (fun _ => daemon [handle "web" [] "nginx" []]))
               (inr broker) 3%nat 0%nat in
  outcome run = inl ValueError /\
  topics (trace run) = ["docker/docker_host/summary"; "docker/docker_host/web/state"] /\
  sleeps (trace run) = [2].
Proof.
  intros run.
  assert (H : run =
              ((banner hasty_monitor_config ++
                Log LvlInfo "Connected to Docker daemon" NoArg ::
                [Sleep 2] ++
                trace (Monitor.monitor_containers hasty_monitor_config clock_2024
                         Datetime.fromisoformat_seconds
                         (daemon [handle "web" [] "nginx" []]) (Some broker) 0%nat) ++
                [sleeping_log hasty_monitor_config; fatal_log ValueError;
                 stopped_log])%list,
               final (Monitor.monitor_containers hasty_monitor_config clock_2024
                        Datetime.fromisoformat_seconds
                        (daemon [handle "web" [] "nginx" []]) (Some broker) 0%nat),
               inl ValueError)).
  { apply (monitor_main_refused_sleep hasty_monitor_config clock_2024
             Datetime.fromisoformat_seconds
             (fun _ => daemon [handle "web" [] "nginx" []]) (inr broker) 2%nat 0%nat).
    - simpl. lia.
    - right. exists broker. reflexivity. }
  rewrite H. split; [reflexivity |]. split; vm_compute; reflexivity.
Defined.
